(** * Cressi Goa driver (cressi_goa.c): framing, bulk download,
      identification and dive enumeration.

    The driver is embedded as executable state-passing functions over a
    model of the device instance.  C integers are [Z] with their
    wrap-around written out, byte arrays and [dc_buffer_t] contents are
    [list Z], a (pointer, size) argument pair is the list of the [size]
    bytes, and a nullable pointer is an [option]. *)

From Stdlib Require Import ZArith List Bool Lia.
Import ListNotations.
Open Scope Z_scope.

(** ** Constants of cressi_goa.c *)

Definition CMD_VERSION     : Z := 0x00.
Definition CMD_SET_TIME    : Z := 0x13.
Definition CMD_EXIT_PCLINK : Z := 0x1D.
Definition CMD_LOGBOOK     : Z := 0x21.
Definition CMD_DIVE        : Z := 0x22.
Definition CMD_LOGBOOK_V4  : Z := 0x23.

Definition HEADER  : Z := 0xAA.
Definition TRAILER : Z := 0x55.
Definition END     : Z := 0x04.
Definition ACK     : Z := 0x06.

Definition SZ_DATA   : Z := 512.
Definition SZ_PACKET : Z := 12.
Definition SZ_HEADER : Z := 23.

Definition FP_OFFSET : Z := 0x11.
Definition FP_SIZE   : Z := 6.

Definition NSTEPS : Z := 1000.

Definition UINT_MAX : Z := 4294967295.

(** Wrap-around of [unsigned int] arithmetic. *)
Definition uint (x : Z) : Z := x mod 4294967296.

(** [STEP(i,n)] is [NSTEPS * (i) / (n)] on [unsigned int]. *)
Definition STEP (i n : Z) : Z := uint (NSTEPS * i) / n.

(** ** Status codes (common.h) *)

Inductive dc_status_t : Type :=
| DC_STATUS_SUCCESS
| DC_STATUS_DONE
| DC_STATUS_UNSUPPORTED
| DC_STATUS_INVALIDARGS
| DC_STATUS_NOMEMORY
| DC_STATUS_NODEVICE
| DC_STATUS_NOACCESS
| DC_STATUS_IO
| DC_STATUS_TIMEOUT
| DC_STATUS_PROTOCOL
| DC_STATUS_DATAFORMAT
| DC_STATUS_CANCELLED.

(** ** Byte arrays *)

Definition is_byte (b : Z) : bool := (0 <=? b) && (b <? 256).

Definition bytes_ok (l : list Z) : bool := forallb is_byte l.

(** [take n p] is the [n] bytes at pointer [p]; [drop n p] is [p + n]. *)
Definition take (n : Z) (p : list Z) : list Z := firstn (Z.to_nat n) p.
Definition drop (n : Z) (p : list Z) : list Z := skipn (Z.to_nat n) p.

(** [len p] is the number of bytes of an array or buffer. *)
Definition len (p : list Z) : Z := Z.of_nat (length p).

(** A checked read of [n] bytes at offset [off] of a buffer whose valid
    contents are [p]: [None] when the range leaves the buffer. *)
Definition region (p : list Z) (off n : Z) : option (list Z) :=
  if (0 <=? off) && (0 <=? n) && (off + n <=? len p)
  then Some (take n (drop off p))
  else None.

(** A checked indexed read [p[i]]. *)
Definition index {A : Type} (p : list A) (i : Z) : option A :=
  if (0 <=? i) && (i <? Z.of_nat (length p))
  then nth_error p (Z.to_nat i)
  else None.

(** Modelled from the spec: array.h is not part of the sources; these are
    the little- and big-endian integer decoders "with standard
    semantics" the spec assumes. *)
Definition array_uint16_le (p : list Z) : Z :=
  Z.lor (nth 0 p 0) (Z.shiftl (nth 1 p 0) 8).

Definition array_uint32_le (p : list Z) : Z :=
  Z.lor (Z.lor (nth 0 p 0) (Z.shiftl (nth 1 p 0) 8))
        (Z.lor (Z.shiftl (nth 2 p 0) 16) (Z.shiftl (nth 3 p 0) 24)).

(** Modelled from the spec: checksum.h is not part of the sources; this is
    CRC16-CCITT with polynomial 0x1021, most significant bit first, over
    the given bytes, starting from [init] and xor-ed with [xorout] at the
    end, on a 16-bit register. *)
Definition crc16_ccitt_bit (crc : Z) : Z :=
  if Z.testbit crc 15
  then Z.land (Z.lxor (Z.shiftl crc 1) 0x1021) 0xFFFF
  else Z.land (Z.shiftl crc 1) 0xFFFF.

Definition crc16_ccitt_byte (crc b : Z) : Z :=
  Nat.iter 8 crc16_ccitt_bit (Z.land (Z.lxor crc (Z.shiftl b 8)) 0xFFFF).

Definition checksum_crc16_ccitt (data : list Z) (init xorout : Z) : Z :=
  Z.land (Z.lxor (fold_left crc16_ccitt_byte data init) xorout) 0xFFFF.

(** ** Events and the device instance *)

Record dc_event_progress_t : Type := mk_progress {
  current : Z;
  maximum : Z
}.

Record dc_event_devinfo_t : Type := mk_devinfo {
  model : Z;
  firmware : Z;
  serial : Z
}.

Inductive dc_event : Type :=
| DC_EVENT_PROGRESS (p : dc_event_progress_t)
| DC_EVENT_DEVINFO (d : dc_event_devinfo_t)
| DC_EVENT_VENDOR (data : list Z).

Definition EVENT_PROGRESS_INITIALIZER : dc_event_progress_t :=
  mk_progress 0 UINT_MAX.

(** What the driver did to its byte stream, oldest first. *)
Inductive io_op : Type :=
| Sleep (ms : Z)
| Write (data : list Z).

(** The byte stream: the bytes the dive computer will still deliver, and
    the operations performed on the stream so far. *)
Record dc_iostream_t : Type := mk_iostream {
  rx : list Z;
  ops : list io_op
}.

(** The generic part of a device: the events emitted to the
    application, oldest first. *)
Record dc_device_t : Type := mk_base {
  events : list dc_event
}.

Record cressi_goa_device_t : Type := mk_device {
  base : dc_device_t;
  iostream : dc_iostream_t;
  fingerprint : list Z
}.

(** ** Results of driver functions

    A function either returns a value in a new device state, returns an
    error status, performs an access outside an array ([Undefined]), or
    has a loop that was cut off by the fuel of the model ([Cutoff]). *)

Inductive result (A : Type) : Type :=
| Done (a : A) (d : cressi_goa_device_t)
| Fail (e : dc_status_t) (d : cressi_goa_device_t)
| Undefined
| Cutoff.

Arguments Done {A} a d.
Arguments Fail {A} e d.
Arguments Undefined {A}.
Arguments Cutoff {A}.

Definition M (A : Type) : Type := cressi_goa_device_t -> result A.

Definition ret {A : Type} (a : A) : M A := fun d => Done a d.

Definition bind {A B : Type} (m : M A) (k : A -> M B) : M B :=
  fun d =>
    match m d with
    | Done a d' => k a d'
    | Fail e d' => Fail e d'
    | Undefined => Undefined
    | Cutoff => Cutoff
    end.

Definition fail {A : Type} (e : dc_status_t) : M A := fun d => Fail e d.

Definition undefined {A : Type} : M A := fun _ => Undefined.

Definition cutoff {A : Type} : M A := fun _ => Cutoff.

Declare Scope drv_scope.
Delimit Scope drv_scope with drv.
Notation "x <- m ;; k" := (bind m (fun x => k))
  (at level 61, m at next level, right associativity) : drv_scope.
Notation "' p <- m ;; k" := (bind m (fun x => match x with p => k end))
  (at level 61, p pattern, m at next level, right associativity) : drv_scope.
Notation "m ;; k" := (bind m (fun _ => k))
  (at level 61, right associativity) : drv_scope.
Open Scope drv_scope.

(** The status a C caller sees. *)
Definition status_of {A : Type} (r : result A) : option dc_status_t :=
  match r with
  | Done _ _ => Some DC_STATUS_SUCCESS
  | Fail e _ => Some e
  | Undefined => None
  | Cutoff => None
  end.

(** ** The collaborators: byte stream, events, buffers *)

Definition dc_iostream_sleep (ms : Z) : M unit :=
  fun d =>
    Done tt (mk_device (base d)
                       (mk_iostream (rx (iostream d))
                                    (ops (iostream d) ++ [Sleep ms]))
                       (fingerprint d)).

Definition dc_iostream_write (data : list Z) : M unit :=
  fun d =>
    Done tt (mk_device (base d)
                       (mk_iostream (rx (iostream d))
                                    (ops (iostream d) ++ [Write data]))
                       (fingerprint d)).

(** A read of [n] bytes succeeds when the stream still delivers [n]
    bytes; otherwise what was pending is consumed and the read times
    out. *)
Definition dc_iostream_read (n : Z) : M (list Z) :=
  fun d =>
    let s := iostream d in
    if n <=? len (rx s)
    then Done (take n (rx s))
              (mk_device (base d) (mk_iostream (drop n (rx s)) (ops s))
                         (fingerprint d))
    else Fail DC_STATUS_TIMEOUT
              (mk_device (base d) (mk_iostream [] (ops s)) (fingerprint d)).

Definition device_event_emit (e : dc_event) : M unit :=
  fun d =>
    Done tt (mk_device (mk_base (events (base d) ++ [e])) (iostream d)
                       (fingerprint d)).

(** [dc_buffer_t]: the valid bytes of the buffer.  Allocation never
    fails in this model, so [dc_buffer_new], [dc_buffer_clear],
    [dc_buffer_append] and [dc_buffer_insert] always succeed. *)
Definition dc_buffer_clear (b : option (list Z)) : option (list Z) :=
  option_map (fun _ => []) b.

Definition dc_buffer_append (b : list Z) (data : list Z) : list Z :=
  b ++ data.

Definition dc_buffer_insert (b : list Z) (off : Z) (data : list Z) : list Z :=
  take off b ++ data ++ drop off b.

(** ** Framing layer *)

(** The packet [cressi_goa_device_send] builds for [cmd] and [data]. *)
Definition send_packet (cmd : Z) (data : list Z) : list Z :=
  let size := len data in
  let packet := [HEADER; HEADER; HEADER; size; cmd] ++ data in
  let crc := checksum_crc16_ccitt (take (size + 2) (drop 3 packet)) 0 0 in
  packet ++ [Z.land crc 0xFF; Z.land (Z.shiftr crc 8) 0xFF; TRAILER].

Definition cressi_goa_device_send (cmd : Z) (data : list Z) : M unit :=
  let size := len data in
  if size >? SZ_PACKET then fail DC_STATUS_INVALIDARGS
  else
    let packet := send_packet cmd data in
    dc_iostream_sleep 100 ;;
    dc_iostream_write (take (size + 8) packet).

Definition cressi_goa_device_receive (output : option (list Z))
  : M (option (list Z)) :=
  let output := dc_buffer_clear output in
  packet <- dc_iostream_read 4 ;;
  if negb (nth 0 packet 0 =? HEADER) || negb (nth 1 packet 0 =? HEADER)
     || negb (nth 2 packet 0 =? HEADER)
  then fail DC_STATUS_PROTOCOL
  else
    let length := nth 3 packet 0 in
    if length >? SZ_PACKET then fail DC_STATUS_PROTOCOL
    else
      rest <- dc_iostream_read (length + 4) ;;
      let packet := packet ++ rest in
      if negb (nth (Z.to_nat (length + 7)) packet 0 =? TRAILER)
      then fail DC_STATUS_PROTOCOL
      else
        let crc := array_uint16_le (drop (length + 5) packet) in
        let ccrc :=
          checksum_crc16_ccitt (take (length + 2) (drop 3 packet)) 0 0 in
        if negb (crc =? ccrc) then fail DC_STATUS_PROTOCOL
        else
          match output with
          | Some out =>
              if negb (length =? 0)
              then ret (Some (dc_buffer_append out (take length (drop 5 packet))))
              else ret output
          | None => ret output
          end.

(** ** Bulk transfer *)

(** The receive/acknowledge loop of [cressi_goa_device_download].  Every
    iteration reads a whole packet, so the number of pending bytes bounds
    the number of iterations; [fuel] is that bound. *)
Fixpoint download_loop (fuel : nat) (initial skip size nbytes : Z)
    (buffer : list Z) (progress : option dc_event_progress_t)
  : M (list Z * option dc_event_progress_t) :=
  if nbytes <? size then
    match fuel with
    | O => cutoff
    | S fuel' =>
        packet <- dc_iostream_read (3 + SZ_DATA + 2) ;;
        let crc := array_uint16_le (drop (3 + SZ_DATA + 2 - 2) packet) in
        let ccrc :=
          checksum_crc16_ccitt (take (3 + SZ_DATA + 2 - 5) (drop 3 packet)) 0 0 in
        if negb (crc =? ccrc) then fail DC_STATUS_PROTOCOL
        else
          dc_iostream_write [ACK] ;;
          let size :=
            if nbytes =? 0
            then uint (size + array_uint16_le (drop 3 packet))
            else size in
          let length := uint (size - nbytes) in
          let length := if length >? SZ_DATA then SZ_DATA else length in
          match region packet (3 + skip) (uint (length - skip)) with
          | None => undefined
          | Some payload =>
              let buffer := dc_buffer_append buffer payload in
              let nbytes := uint (nbytes + length) in
              let skip := 0 in
              match progress with
              | Some p =>
                  let p := mk_progress (uint (initial + STEP nbytes size))
                                       (maximum p) in
                  device_event_emit (DC_EVENT_PROGRESS p) ;;
                  download_loop fuel' initial skip size nbytes buffer (Some p)
              | None =>
                  download_loop fuel' initial skip size nbytes buffer None
              end
          end
    end
  else ret (buffer, progress).

Definition cressi_goa_device_download (buffer : list Z)
    (progress : option dc_event_progress_t)
  : M (list Z * option dc_event_progress_t) :=
  fun d =>
    let initial := match progress with Some p => current p | None => 0 end in
    let buffer : list Z := [] in
    ('(buffer, progress) <-
        download_loop (S (length (rx (iostream d)))) initial 2 2 0
                      buffer progress ;;
     e <- dc_iostream_read 1 ;;
     if negb (nth 0 e 0 =? END) then fail DC_STATUS_PROTOCOL
     else
       dc_iostream_write [ACK] ;;
       ret (buffer, progress)) d.

(** [output] and [buffer] are nullable: [None] is the NULL pointer. *)
Definition cressi_goa_device_transfer (cmd : Z) (input : list Z)
    (output buffer : option (list Z)) (progress : option dc_event_progress_t)
  : M (option (list Z) * option (list Z) * option dc_event_progress_t) :=
  cressi_goa_device_send cmd input ;;
  output <- cressi_goa_device_receive output ;;
  match buffer with
  | Some b =>
      '(b, progress) <- cressi_goa_device_download b progress ;;
      ret (output, Some b, progress)
  | None => ret (output, None, progress)
  end.

(** ** Fingerprint *)

Definition cressi_goa_device_set_fingerprint (data : list Z) (size : Z)
  : M unit :=
  fun d =>
    if negb (size =? 0) && negb (size =? FP_SIZE)
    then Fail DC_STATUS_INVALIDARGS d
    else if negb (size =? 0)
    then match region data 0 FP_SIZE with
         | Some fp => Done tt (mk_device (base d) (iostream d) fp)
         | None => Undefined
         end
    else Done tt (mk_device (base d) (iostream d)
                            (repeat 0 (Z.to_nat FP_SIZE))).

(** ** Identification and version negotiation *)

Record cressi_goa_irda_api_conf : Type := mk_conf {
  version : Z;
  idlen : Z;
  logbook_entry_len : Z;
  logbook_fp_offset : Z;
  cmd_logbook : Z
}.

Definition version_support_on_model : list (list bool) :=
  (*  1      2      3      4      5      6      7      8      9      10     11  *)
  [ [ true;  true; false; false; false; false; false; false; false; false; false ]; (* API v0 *)
    [ true;  true; false; false; false; false; false; false; false; false; false ]; (* API v1 *)
    [ true;  true; false; false; false; false; false; false;  true; false; false ]; (* API v2 *)
    [ true;  true;  true;  true;  true;  true;  true;  true;  true;  true;  true ]; (* API v3 *)
    [ true;  true; false;  true;  true; false; false; false;  true;  true; false ]  (* API v4 *)
  ].

(** The result is [Some (-1)] for a rejected device, [Some version]
    otherwise, and [None] when the support matrix is indexed outside its
    bounds.  [model] and [firmware] are [unsigned int]. *)
Definition cressi_goa_irda_api_version (devinfo : dc_event_devinfo_t)
  : option Z :=
  if model devinfo >? 11 then Some (-1)
  else
    let version :=
      if (firmware devinfo >=? 161) && (firmware devinfo <=? 165) then Some 0
      else if (firmware devinfo >=? 166) && (firmware devinfo <=? 169) then Some 1
      else if (firmware devinfo >=? 170) && (firmware devinfo <=? 179) then Some 2
      else if ((firmware devinfo >=? 100) && (firmware devinfo <=? 110))
              || (firmware devinfo =? 900) then Some 3
      else if (firmware devinfo >=? 200) && (firmware devinfo <=? 205) then Some 4
      else None in
    match version with
    | None => Some (-1)
    | Some version =>
        match index version_support_on_model version with
        | None => None
        | Some row =>
            match index row (uint (model devinfo - 1)) with
            | None => None
            | Some supported =>
                if negb supported then Some (-1) else Some version
            end
        end
    end.

Definition version_conf : list cressi_goa_irda_api_conf :=
  [ mk_conf 0 9 SZ_HEADER FP_OFFSET CMD_LOGBOOK;
    mk_conf 4 11 15 3 CMD_LOGBOOK_V4 ].

(** [conf] is the content of the caller's configuration before the call
    ([None]: not initialised); the result is its content afterwards. *)
Definition cressi_goa_read_id (emit_events : bool)
    (conf : option cressi_goa_irda_api_conf)
  : M (option cressi_goa_irda_api_conf) :=
  '(id, _, _) <- cressi_goa_device_transfer CMD_VERSION [] (Some []) None None ;;
  let id := match id with Some b => b | None => [] end in
  let conf_ := find (fun c => len id =? idlen c) version_conf in
  match conf_ with
  | None => ret conf
  | Some conf_ =>
      let vendor := id in
      let devinfo :=
        mk_devinfo (nth 4 id 0) (array_uint16_le (drop 5 id))
                   (array_uint32_le (drop 0 id)) in
      match cressi_goa_irda_api_version devinfo with
      | None => undefined
      | Some version =>
          if version =? -1 then fail DC_STATUS_UNSUPPORTED
          else
            let conf :=
              mk_conf version (idlen conf_) (logbook_entry_len conf_)
                      (logbook_fp_offset conf_) (cmd_logbook conf_) in
            (if emit_events
             then device_event_emit (DC_EVENT_VENDOR vendor) ;;
                  device_event_emit (DC_EVENT_DEVINFO devinfo)
             else ret tt) ;;
            ret (Some conf)
      end
  end.

(** ** Dive enumeration *)

(** [memcmp] over two arrays of the compared length: zero exactly when
    they are equal, the difference of the first differing bytes
    otherwise. *)
Fixpoint memcmp (a b : list Z) : Z :=
  match a, b with
  | x :: a', y :: b' => if x =? y then memcmp a' b' else x - y
  | _, _ => 0
  end.

(** The scan that counts the dives to download (first loop of
    [cressi_goa_device_foreach]).  Every iteration moves [offset] down by
    the entry length, so the size of the logbook bounds the number of
    iterations whenever the entry length is not zero. *)
Fixpoint foreach_count (fuel : nat) (conf : cressi_goa_irda_api_conf)
    (logbook_data : list Z) (count offset : Z) : M Z :=
  if offset >? logbook_entry_len conf then
    match fuel with
    | O => cutoff
    | S fuel' =>
        let offset := uint (offset - logbook_entry_len conf) in
        match region logbook_data offset 2 with
        | None => undefined
        | Some p =>
            let number := array_uint16_le p in
            if number =? 0 then ret count
            else
              fun d =>
                match region logbook_data (offset + logbook_fp_offset conf)
                             FP_SIZE with
                | None => Undefined
                | Some fp =>
                    if memcmp fp (fingerprint d) =? 0 then Done count d
                    else foreach_count fuel' conf logbook_data
                                       (uint (count + 1)) offset d
                end
        end
    end
  else ret count.

(** The consistency check between a logbook entry and the downloaded dive
    (lines 581 to 629 of [cressi_goa_device_foreach]): [Some true] when
    the dive is accepted, [Some false] when the status becomes
    [DC_STATUS_DATAFORMAT], [None] when a compared or decoded byte lies
    outside the logbook or the dive data. *)
Definition foreach_verify (conf : cressi_goa_irda_api_conf)
    (logbook_data : list Z) (offset : Z) (dive_data : list Z) : option bool :=
  let dive_size := len dive_data in
  if negb (version conf =? 4) then
    if dive_size <? SZ_HEADER - 5 then Some false
    else
      match region dive_data 0 2, region logbook_data (offset + 0) 2 with
      | Some a, Some b =>
          if negb (memcmp a b =? 0) then Some false
          else
            match region dive_data 2 (SZ_HEADER - 7),
                  region logbook_data (offset + 7) (SZ_HEADER - 7) with
            | Some a, Some b =>
                if negb (memcmp a b =? 0) then Some false else Some true
            | _, _ => None
            end
      | _, _ => None
      end
  else
    match region logbook_data offset 2, region dive_data 0 2 with
    | Some a, Some b =>
        let log_entry := array_uint16_le a in
        let log_entry_ := array_uint16_le b in
        if negb (log_entry_ =? log_entry) then Some false
        else
          match region dive_data 4 6, region logbook_data (offset + 3) 6 with
          | Some a, Some start_date =>
              if negb (memcmp a start_date =? 0) then
                (* array_uint64_be of both dates, for the error message *)
                match region dive_data 4 8,
                      region logbook_data (offset + 3) 8 with
                | Some _, Some _ => Some false
                | _, _ => None
                end
              else
                match index dive_data 14 with
                | Some num_dips => Some true
                | None => None
                end
          | _, _ => None
          end
    | _, _ => None
    end.

Section Foreach.

(** The application's [userdata], and its callback: it receives the
    dive data, the fingerprint and the userdata and answers whether the
    enumeration continues. *)
Variable U : Type.

Definition dc_dive_callback_t : Type := list Z -> list Z -> U -> bool * U.

(** A dive handed to the callback: its data and its fingerprint. *)
Definition dive_call : Type := (list Z * list Z)%type.

(** How the enumeration ended: the returned status, the userdata and
    the dives that were handed to the callback, oldest call first. *)
Definition foreach_end : Type := (dc_status_t * U * list dive_call)%type.

(** [handle m u calls k]: run [m]; an error status ends the enumeration
    with that status (the [goto error_...] exits). *)
Definition handle {A : Type} (m : M A) (userdata : U) (calls : list dive_call)
    (k : A -> M foreach_end) : M foreach_end :=
  fun d =>
    match m d with
    | Done a d' => k a d'
    | Fail e d' => Done (e, userdata, calls) d'
    | Undefined => Undefined
    | Cutoff => Cutoff
    end.

(** The download loop of [cressi_goa_device_foreach]; [n] is the number
    of iterations left, [count - i]. *)
Fixpoint foreach_dives (n : nat) (conf : cressi_goa_irda_api_conf)
    (logbook_data : list Z) (callback : option dc_dive_callback_t)
    (offset : Z) (progress : dc_event_progress_t)
    (userdata : U) (calls : list dive_call) : M foreach_end :=
  match n with
  | O => ret (DC_STATUS_SUCCESS, userdata, calls)
  | S n' =>
      let offset := uint (offset - logbook_entry_len conf) in
      match region logbook_data offset 2 with
      | None => undefined
      | Some number =>
          handle (cressi_goa_device_transfer CMD_DIVE number None (Some [])
                                             (Some progress))
                 userdata calls
            (fun '(_, dive, progress') =>
               let dive := match dive with Some b => b | None => [] end in
               let progress :=
                 match progress' with Some p => p | None => progress end in
               match foreach_verify conf logbook_data offset dive with
               | None => undefined
               | Some false => ret (DC_STATUS_DATAFORMAT, userdata, calls)
               | Some true =>
                   let header :=
                     [0xdc; 0xdc; version conf; logbook_entry_len conf] in
                   let dive := dc_buffer_insert dive 0 header in
                   match region logbook_data offset (logbook_entry_len conf) with
                   | None => undefined
                   | Some entry =>
                       let dive := dc_buffer_insert dive 4 entry in
                       match callback with
                       | Some cb =>
                           match region dive (4 + logbook_fp_offset conf)
                                        FP_SIZE with
                           | None => undefined
                           | Some fp =>
                               let '(continue, userdata) :=
                                 cb dive fp userdata in
                               let calls := calls ++ [(dive, fp)] in
                               if negb continue
                               then ret (DC_STATUS_SUCCESS, userdata, calls)
                               else foreach_dives n' conf logbook_data
                                      callback offset progress userdata calls
                           end
                       | None =>
                           foreach_dives n' conf logbook_data callback offset
                                         progress userdata calls
                       end
                   end
               end)
      end
  end.

(** What [cressi_goa_device_foreach] does before it scans the logbook:
    the identification and the download of the logbook. *)
Definition foreach_logbook
  : M (cressi_goa_irda_api_conf * list Z * dc_event_progress_t) :=
  let progress := EVENT_PROGRESS_INITIALIZER in
  device_event_emit (DC_EVENT_PROGRESS progress) ;;
  conf <- cressi_goa_read_id false None ;;
  match conf with
  | None => undefined
  | Some conf =>
      '(_, logbook, progress') <-
        cressi_goa_device_transfer (cmd_logbook conf) [] None (Some [])
                                   (Some progress) ;;
      let logbook := match logbook with Some b => b | None => [] end in
      let progress :=
        match progress' with Some p => p | None => progress end in
      ret (conf, logbook, progress)
  end.

Definition cressi_goa_device_foreach (callback : option dc_dive_callback_t)
    (userdata : U) : M foreach_end :=
  handle foreach_logbook userdata []
    (fun '(conf, logbook_data, progress) =>
       let logbook_size := len logbook_data in
       count <- foreach_count (length logbook_data) conf logbook_data
                              0 (uint logbook_size) ;;
       let progress :=
         mk_progress (current progress) (uint ((count + 1) * NSTEPS)) in
       device_event_emit (DC_EVENT_PROGRESS progress) ;;
       foreach_dives (Z.to_nat count) conf logbook_data callback
                     logbook_size progress userdata []).

End Foreach.

Arguments foreach_dives {U}.
Arguments cressi_goa_device_foreach {U}.
Arguments handle {U A}.

(** ** Session commands *)

Record dc_datetime_t : Type := mk_datetime {
  year : Z; month : Z; day : Z; hour : Z; minute : Z; second : Z
}.

(** Modelled from the spec: array.h is not part of the sources; this is
    the little-endian encoder of a 16-bit value that the time
    synchronisation uses for the year. *)
Definition array_uint16_le_set (value : Z) : list Z :=
  [Z.land value 0xFF; Z.land (Z.shiftr value 8) 0xFF].

Definition cressi_goa_device_timesync (datetime : dc_datetime_t) : M unit :=
  let new_time :=
    array_uint16_le_set (year datetime)
    ++ [Z.land (month datetime) 0xFF; Z.land (day datetime) 0xFF;
        Z.land (hour datetime) 0xFF; Z.land (minute datetime) 0xFF;
        Z.land (second datetime) 0xFF] in
  cressi_goa_device_transfer CMD_SET_TIME new_time None None None ;;
  ret tt.

Definition cressi_goa_device_close : M unit :=
  cressi_goa_device_transfer CMD_EXIT_PCLINK [] None None None ;;
  ret tt.

(** ** Notions used to state the properties *)

(** The device state after the stream delivered bytes and [l] is what it
    still holds. *)
Definition with_rx (d : cressi_goa_device_t) (l : list Z) : cressi_goa_device_t :=
  mk_device (base d) (mk_iostream l (ops (iostream d))) (fingerprint d).

(** The device state after [cressi_goa_device_send] wrote the packet of
    [cmd] and [input], and [l] is what the stream still holds. *)
Definition after_command (d : cressi_goa_device_t) (cmd : Z) (input l : list Z)
  : cressi_goa_device_t :=
  mk_device (base d)
    (mk_iostream l
       (ops (iostream d) ++ [Sleep 100; Write (send_packet cmd input)]))
    (fingerprint d).

(** The device after one bulk packet was read and acknowledged, with the
    progress events [evs] emitted. *)
Definition after_chunk (d : cressi_goa_device_t) (evs : list dc_event)
  : cressi_goa_device_t :=
  mk_device (mk_base (events (base d) ++ evs))
    (mk_iostream (drop 517 (rx (iostream d)))
                 (ops (iostream d) ++ [Write [ACK]]))
    (fingerprint d).

(** The output of a bulk transfer in the words of the specification: with
    [received] bytes of [total] received so far, the next packet of
    [stream] contributes [min(512, total - received)] bytes, of which the
    first [skip] are left out; [skip] is 0 after the first packet. *)
Fixpoint bulk_output (n : nat) (skip total received : Z) (stream : list Z)
  : list Z :=
  match n with
  | O => []
  | S n' =>
      let contribution := Z.min SZ_DATA (total - received) in
      take (contribution - skip) (drop (3 + skip) stream)
      ++ bulk_output n' 0 total (received + contribution) (drop 517 stream)
  end.

(** The number of packets it takes to go from [received] to [total]. *)
Definition bulk_chunks (total received : Z) : nat :=
  Z.to_nat ((total - received + 511) / 512).

(** The dive computer's side of a bulk transfer, used to build streams:
    [data] preceded by its 16-bit size, cut into packets of 512 bytes with
    three leading bytes and a checksum, and followed by the end byte. *)
Definition le16 (x : Z) : list Z := [Z.land x 0xFF; Z.land (Z.shiftr x 8) 0xFF].

Definition bulk_packet (block : list Z) : list Z :=
  let body := block ++ repeat 0 (512 - length block) in
  [0; 0; 0] ++ body ++ le16 (checksum_crc16_ccitt body 0 0).

Fixpoint bulk_blocks (fuel : nat) (data : list Z) : list (list Z) :=
  match fuel with
  | O => []
  | S fuel' =>
      match data with
      | [] => []
      | _ => firstn 512 data :: bulk_blocks fuel' (skipn 512 data)
      end
  end.

Definition bulk_stream (data : list Z) : list Z :=
  let full := le16 (len data) ++ data in
  concat (map bulk_packet (bulk_blocks (length full) full)) ++ [END].

(** Entries of a logbook are counted from its end: entry [k >= 1] starts
    [k] entry lengths before the end. *)
Definition entry_offset (conf : cressi_goa_irda_api_conf) (lb : list Z) (k : Z) : Z :=
  len lb - k * logbook_entry_len conf.

Definition entry_bytes (conf : cressi_goa_irda_api_conf) (lb : list Z) (k : Z) : list Z :=
  take (logbook_entry_len conf) (drop (entry_offset conf lb k) lb).

Definition entry_number (conf : cressi_goa_irda_api_conf) (lb : list Z) (k : Z) : Z :=
  array_uint16_le (drop (entry_offset conf lb k) lb).

Definition entry_fingerprint (conf : cressi_goa_irda_api_conf) (lb : list Z) (k : Z)
  : list Z :=
  take FP_SIZE (drop (entry_offset conf lb k + logbook_fp_offset conf) lb).

(** Entry [k] starts past the first byte of the table. *)
Definition scanned (conf : cressi_goa_irda_api_conf) (lb : list Z) (k : Z) : Prop :=
  1 <= k /\ 0 < entry_offset conf lb k.

(** Entry [k] is to be downloaded: it is not empty and its fingerprint is
    not the stored one. *)
Definition pending (conf : cressi_goa_irda_api_conf) (lb fp : list Z) (k : Z) : Prop :=
  scanned conf lb k /\ entry_number conf lb k <> 0
  /\ entry_fingerprint conf lb k <> fp.

(** The two configurations of [version_conf] have this shape. *)
Definition conf_wf (conf : cressi_goa_irda_api_conf) : Prop :=
  2 <= logbook_entry_len conf < 256
  /\ 0 <= logbook_fp_offset conf
  /\ logbook_fp_offset conf + FP_SIZE <= logbook_entry_len conf.

(** Driver functions neither touch the stored fingerprint nor report a
    failure with the status [DC_STATUS_SUCCESS]. *)
Definition proper {A : Type} (m : M A) : Prop :=
  forall d,
    match m d with
    | Done _ d' => fingerprint d' = fingerprint d
    | Fail e _ => e <> DC_STATUS_SUCCESS
    | Undefined => True
    | Cutoff => True
    end.

(** The call [call] of the callback hands over entry [k]: its data starts
    with the injected header and the bytes of the entry, and its
    fingerprint is the fingerprint of the entry. *)
Definition call_of_entry (conf : cressi_goa_irda_api_conf) (lb : list Z)
    (k : nat) (call : dive_call) : Prop :=
  take 4 (fst call)
  = [0xdc; 0xdc; version conf; logbook_entry_len conf]
  /\ take (logbook_entry_len conf) (drop 4 (fst call))
     = entry_bytes conf lb (Z.of_nat k)
  /\ snd call = entry_fingerprint conf lb (Z.of_nat k).

(** The application supplied a callback, and it never asks to stop. *)
Definition never_stops {U : Type} (cb : option (dc_dive_callback_t U)) : Prop :=
  exists f, cb = Some f /\ forall data fp u, fst (f data fp u) = true.

(** ** A sample session

    A dive computer of model 9 with firmware 202 (API version 4) whose
    logbook holds four entries of 15 bytes: an unused slot, dive 1, an
    unused slot and dive 3.  The stream is what the device delivers
    during [cressi_goa_device_foreach]: the identification, the logbook
    and dive 3. *)
Definition sample_id : list Z := [1; 2; 3; 4; 9; 202; 0; 0; 0; 0; 0].

Definition sample_logbook : list Z :=
  [0; 0; 0;  0;  0;  0;  0;  0;  0; 0; 0; 0; 0; 0; 0]
  ++ [1; 0; 0; 11; 12; 13; 14; 15; 16; 0; 0; 0; 0; 0; 0]
  ++ [0; 0; 0; 21; 22; 23; 24; 25; 26; 0; 0; 0; 0; 0; 0]
  ++ [3; 0; 0; 31; 32; 33; 34; 35; 36; 0; 0; 0; 0; 0; 0].

Definition sample_dive : list Z :=
  [3; 0; 9; 9; 31; 32; 33; 34; 35; 36; 0; 0; 0; 0; 1; 77; 78].

(** The stream of a whole enumeration of one dive: the answers to the
    version command, to the logbook command and to the dive command, the
    latter two followed by their bulk transfer. *)
Definition session_stream (id lb dive : list Z) : list Z :=
  send_packet CMD_VERSION id
  ++ send_packet CMD_LOGBOOK [] ++ bulk_stream lb
  ++ send_packet CMD_DIVE [] ++ bulk_stream dive.

Definition session_device (id lb dive : list Z) : cressi_goa_device_t :=
  mk_device (mk_base []) (mk_iostream (session_stream id lb dive) [])
            [0; 0; 0; 0; 0; 0].

Definition sample_device (dive : list Z) : cressi_goa_device_t :=
  session_device sample_id sample_logbook dive.

(** A dive computer of model 1 with firmware 163 (API version 0) whose
    logbook holds two entries of 23 bytes, an unused slot and dive 5, and
    the data of dive 5. *)
Definition legacy_id : list Z := [1; 2; 3; 4; 1; 163; 0; 0; 0].

Definition legacy_logbook : list Z :=
  repeat 0 23
  ++ [5; 0; 1; 2; 3; 4; 5;
      60; 61; 62; 63; 64; 65; 66; 67; 68; 69; 70; 71; 72; 73; 74; 75].

Definition legacy_dive : list Z :=
  [5; 0; 60; 61; 62; 63; 64; 65; 66; 67; 68; 69; 70; 71; 72; 73; 74; 75;
   99; 98].

Definition sample_callback : option (dc_dive_callback_t unit) :=
  Some (fun _ _ u => (true, u)).

(** Bytes [[a, b)] of an array. *)
Definition bytes_between (p : list Z) (a b : Z) : list Z :=
  take (b - a) (drop a p).


(** [m] never ends in [Cutoff]. *)
Definition total {A : Type} (m : M A) : Prop := forall d, m d <> Cutoff.

(** ** Notions for further properties *)

(** The packets of a bulk transfer of [full], without the end byte. *)
Definition bulk_packets (full : list Z) : list Z :=
  concat (map bulk_packet (bulk_blocks (length full) full)).

(** What the loop of [cressi_goa_device_download] wrote and consumed:
    after [k] acknowledged packets, the loop either ended, or rejected the
    next packet, or ran out of input. *)
Definition loop_account {A : Type} (d : cressi_goa_device_t) (r : result A)
  : Prop :=
  match r with
  | Done _ d' =>
      exists k : nat,
        ops (iostream d') = ops (iostream d) ++ repeat (Write [ACK]) k
        /\ rx (iostream d') = drop (517 * Z.of_nat k) (rx (iostream d))
        /\ 517 * Z.of_nat k <= len (rx (iostream d))
  | Fail e d' =>
      exists k : nat,
        ops (iostream d') = ops (iostream d) ++ repeat (Write [ACK]) k
        /\ ((e = DC_STATUS_PROTOCOL
             /\ rx (iostream d')
                = drop (517 * (Z.of_nat k + 1)) (rx (iostream d))
             /\ 517 * (Z.of_nat k + 1) <= len (rx (iostream d)))
            \/ (e = DC_STATUS_TIMEOUT
                /\ rx (iostream d') = []
                /\ len (rx (iostream d)) < 517 * (Z.of_nat k + 1)))
  | _ => True
  end.

(** The API version that the firmware ranges of
    [cressi_goa_irda_api_version] select. *)
Definition firmware_version (fw : Z) : option Z :=
  if (fw >=? 161) && (fw <=? 165) then Some 0
  else if (fw >=? 166) && (fw <=? 169) then Some 1
  else if (fw >=? 170) && (fw <=? 179) then Some 2
  else if ((fw >=? 100) && (fw <=? 110)) || (fw =? 900) then Some 3
  else if (fw >=? 200) && (fw <=? 205) then Some 4
  else None.

(** The models that the support matrix accepts under API version [v]. *)
Definition supported (m v : Z) : Prop :=
  1 <= m <= 11
  /\ (m <= 2 \/ v = 3 \/ (m = 9 /\ v = 2)
      \/ (v = 4 /\ (m = 4 \/ m = 5 \/ m = 9 \/ m = 10))).

(** Driver functions that emit no event. *)
Definition silent {A : Type} (m : M A) : Prop :=
  forall d,
    match m d with
    | Done _ d' => events (base d') = events (base d)
    | Fail _ d' => events (base d') = events (base d)
    | Undefined => True
    | Cutoff => True
    end.

(** The two configurations of [version_conf], whatever the version tag. *)
Definition conf_family (conf : cressi_goa_irda_api_conf) : Prop :=
  (idlen conf = 9 /\ logbook_entry_len conf = 23
   /\ logbook_fp_offset conf = 0x11 /\ cmd_logbook conf = CMD_LOGBOOK)
  \/ (idlen conf = 11 /\ logbook_entry_len conf = 15
      /\ logbook_fp_offset conf = 3 /\ cmd_logbook conf = CMD_LOGBOOK_V4).

(** The events of an accepted identification answer [id]. *)
Definition id_events (emit : bool) (id : list Z) : list dc_event :=
  if emit
  then [DC_EVENT_VENDOR id;
        DC_EVENT_DEVINFO (mk_devinfo (nth 4 id 0) (array_uint16_le (drop 5 id))
                                     (array_uint32_le id))]
  else [].

(** The device after the event [e] was emitted. *)
Definition with_event (d : cressi_goa_device_t) (e : dc_event)
  : cressi_goa_device_t :=
  mk_device (mk_base (events (base d) ++ [e])) (iostream d) (fingerprint d).

(** What a device delivers for the dives [dives], newest first: for each
    dive the answer to the dive command and the bulk transfer of its
    data. *)
Definition dive_answers (dives : list (list Z)) : list Z :=
  concat (map (fun dive => send_packet CMD_DIVE [] ++ bulk_stream dive) dives).

(** The record that the enumeration hands over for entry [k] and the
    downloaded [dive], with its fingerprint. *)
Definition dive_record (conf : cressi_goa_irda_api_conf) (lb : list Z) (k : Z)
    (dive : list Z) : dive_call :=
  ([0xdc; 0xdc; version conf; logbook_entry_len conf]
   ++ entry_bytes conf lb k ++ dive,
   entry_fingerprint conf lb k).

(** The records of the dives [dives], which belong to the entries
    [i + 1], [i + 2], ... *)
Fixpoint dive_records (conf : cressi_goa_irda_api_conf) (lb : list Z) (i : nat)
    (dives : list (list Z)) : list dive_call :=
  match dives with
  | [] => []
  | dive :: rest =>
      dive_record conf lb (Z.of_nat (S i)) dive
      :: dive_records conf lb (S i) rest
  end.

(** Every dive fits a bulk transfer and passes the check against its
    logbook entry. *)
Fixpoint dives_accepted (conf : cressi_goa_irda_api_conf) (lb : list Z) (i : nat)
    (dives : list (list Z)) : Prop :=
  match dives with
  | [] => True
  | dive :: rest =>
      len dive < 65536
      /\ foreach_verify conf lb (entry_offset conf lb (Z.of_nat (S i))) dive
         = Some true
      /\ dives_accepted conf lb (S i) rest
  end.

(** A dive computer of model 9 with firmware 202 whose logbook holds the
    four dives 1 to 4, oldest first, and the data of the dives 4, 3 and
    2 in the order in which an enumeration asks for them.  The stream of
    [history_device] is what the device delivers during an enumeration
    that fetches these three dives; [fp] is the stored fingerprint. *)
Definition history_logbook : list Z :=
  [1; 0; 0; 11; 12; 13; 14; 15; 16; 0; 0; 0; 0; 0; 0]
  ++ [2; 0; 0; 21; 22; 23; 24; 25; 26; 0; 0; 0; 0; 0; 0]
  ++ [3; 0; 0; 31; 32; 33; 34; 35; 36; 0; 0; 0; 0; 0; 0]
  ++ [4; 0; 0; 41; 42; 43; 44; 45; 46; 0; 0; 0; 0; 0; 0].

Definition history_dives : list (list Z) :=
  [ [4; 0; 9; 9; 41; 42; 43; 44; 45; 46; 0; 0; 0; 0; 1; 87; 88];
    [3; 0; 9; 9; 31; 32; 33; 34; 35; 36; 0; 0; 0; 0; 1; 77; 78];
    [2; 0; 9; 9; 21; 22; 23; 24; 25; 26; 0; 0; 0; 0; 1; 67; 68] ].

Definition history_device (fp : list Z) : cressi_goa_device_t :=
  mk_device (mk_base [])
    (mk_iostream
       (send_packet CMD_VERSION sample_id
        ++ send_packet CMD_LOGBOOK [] ++ bulk_stream history_logbook
        ++ dive_answers history_dives) [])
    fp.

(** * Properties *)

Example crc16_ccitt_check :
  checksum_crc16_ccitt [0x31; 0x32; 0x33; 0x34; 0x35; 0x36; 0x37; 0x38; 0x39] 0 0
  = 0x31C3.
Proof. reflexivity. Qed.

Lemma land_0xFFFF_range x : 0 <= Z.land x 0xFFFF < 65536.
Proof.
  change 0xFFFF with (Z.ones 16). rewrite Z.land_ones by lia.
  change (2 ^ 16) with 65536. apply Z.mod_pos_bound. lia.
Qed.

Lemma checksum_crc16_ccitt_range data init xorout :
  0 <= checksum_crc16_ccitt data init xorout < 65536.
Proof. unfold checksum_crc16_ccitt. apply land_0xFFFF_range. Qed.

Lemma uint16_le_bytes c rest :
  0 <= c < 65536 ->
  array_uint16_le (Z.land c 0xFF :: Z.land (Z.shiftr c 8) 0xFF :: rest) = c.
Proof.
  intros Hc. unfold array_uint16_le. cbn [nth].
  apply Z.bits_inj'. intros i Hi.
  rewrite Z.lor_spec.
  change 0xFF with (Z.ones 8).
  destruct (Z.ltb_spec i 8) as [Hlt | Hge].
  - rewrite Z.shiftl_spec_low by lia.
    rewrite Z.land_spec, Z.ones_spec_low by lia.
    rewrite andb_true_r, orb_false_r. reflexivity.
  - rewrite Z.shiftl_spec by lia.
    rewrite !Z.land_spec, Z.shiftr_spec by lia.
    rewrite Z.ones_spec_high by lia. rewrite andb_false_r. cbn [orb].
    replace (i - 8 + 8) with i by lia.
    destruct (Z.ltb_spec i 16) as [Hlt | Hge'].
    + rewrite Z.ones_spec_low by lia. apply andb_true_r.
    + rewrite Z.ones_spec_high by lia. rewrite andb_false_r.
      symmetry. apply Z.bits_above_log2; [lia|].
      destruct (Z.eq_dec c 0) as [-> | Hnz]; [cbn; lia|].
      apply Z.log2_lt_pow2; [lia|].
      apply Z.lt_le_trans with (2 ^ 16); [cbn; lia|].
      apply Z.pow_le_mono_r; lia.
Qed.

Lemma len_app a b : len (a ++ b) = len a + len b.
Proof. unfold len. rewrite length_app. lia. Qed.

Lemma len_nonneg a : 0 <= len a.
Proof. unfold len. lia. Qed.

Lemma take_app_exact n a b : len a = n -> take n (a ++ b) = a.
Proof.
  intros <-. unfold take, len. rewrite Nat2Z.id.
  rewrite firstn_app, Nat.sub_diag, firstn_all. cbn. apply app_nil_r.
Qed.

Lemma drop_app_exact n a b : len a = n -> drop n (a ++ b) = b.
Proof.
  intros <-. unfold drop, len. rewrite Nat2Z.id.
  rewrite skipn_app, Nat.sub_diag, skipn_all. reflexivity.
Qed.

Lemma take_all n a : len a = n -> take n a = a.
Proof. intros H. rewrite <- (app_nil_r a) at 1. rewrite take_app_exact; auto. Qed.

Lemma len_take n a : 0 <= n <= len a -> len (take n a) = n.
Proof. unfold len, take. intros H. rewrite length_firstn. lia. Qed.

Lemma len_drop n a : 0 <= n <= len a -> len (drop n a) = len a - n.
Proof. unfold len, drop. intros H. rewrite length_skipn. lia. Qed.

Lemma take_drop_id n a : take n a ++ drop n a = a.
Proof. apply firstn_skipn. Qed.

Lemma read_ok n d :
  0 <= n <= len (rx (iostream d)) ->
  dc_iostream_read n d
  = Done (take n (rx (iostream d))) (with_rx d (drop n (rx (iostream d)))).
Proof.
  intros H. unfold dc_iostream_read.
  destruct (Z.leb_spec n (len (rx (iostream d)))); [reflexivity | lia].
Qed.

Lemma read_app a b d :
  rx (iostream d) = a ++ b ->
  dc_iostream_read (len a) d = Done a (with_rx d b).
Proof.
  intros H. rewrite read_ok.
  - rewrite H, take_app_exact, drop_app_exact; reflexivity.
  - rewrite H, len_app. pose proof (len_nonneg a). pose proof (len_nonneg b). lia.
Qed.

Lemma take_drop_take a b c l :
  0 <= a -> 0 <= b -> a + b <= c ->
  take a (drop b (take c l)) = take a (drop b l).
Proof.
  intros Ha Hb Hc. unfold take, drop.
  rewrite skipn_firstn_comm, firstn_firstn. f_equal. lia.
Qed.

Lemma take_cons n x l : 0 < n -> take n (x :: l) = x :: take (n - 1) l.
Proof.
  intros H. unfold take.
  replace (Z.to_nat n) with (S (Z.to_nat (n - 1))) by lia. reflexivity.
Qed.

Lemma drop_cons n x l : 0 < n -> drop n (x :: l) = drop (n - 1) l.
Proof.
  intros H. unfold drop.
  replace (Z.to_nat n) with (S (Z.to_nat (n - 1))) by lia. reflexivity.
Qed.

Lemma uint16_le_take p : array_uint16_le (take 2 p) = array_uint16_le p.
Proof. destruct p as [|a [|b p]]; reflexivity. Qed.

Lemma uint16_le_drop_take k m l :
  0 <= k -> k + 2 <= m ->
  array_uint16_le (drop k (take m l)) = array_uint16_le (drop k l).
Proof.
  intros Hk Hm.
  rewrite <- uint16_le_take, take_drop_take by lia. apply uint16_le_take.
Qed.

Lemma nth_take i m l :
  0 <= i < m -> nth (Z.to_nat i) (take m l) 0 = nth (Z.to_nat i) l 0.
Proof.
  intros H. unfold take. rewrite nth_firstn.
  destruct (Nat.ltb_spec (Z.to_nat i) (Z.to_nat m)); [reflexivity | lia].
Qed.

(** What [cressi_goa_device_receive] returns on a stream that starts with
    four bytes [h0 h1 h2 n] followed by [tl]. *)
Lemma receive_frame out d h0 h1 h2 n tl :
  rx (iostream d) = h0 :: h1 :: h2 :: n :: tl ->
  0 <= n ->
  (n <= SZ_PACKET -> n + 4 <= len tl) ->
  cressi_goa_device_receive out d =
  if negb (h0 =? HEADER) || negb (h1 =? HEADER) || negb (h2 =? HEADER)
  then Fail DC_STATUS_PROTOCOL (with_rx d tl)
  else if n >? SZ_PACKET then Fail DC_STATUS_PROTOCOL (with_rx d tl)
  else if negb (nth (Z.to_nat (n + 3)) tl 0 =? TRAILER)
  then Fail DC_STATUS_PROTOCOL (with_rx d (drop (n + 4) tl))
  else if negb (array_uint16_le (drop (n + 1) tl)
                =? checksum_crc16_ccitt (n :: take (n + 1) tl) 0 0)
  then Fail DC_STATUS_PROTOCOL (with_rx d (drop (n + 4) tl))
  else Done (option_map (fun _ => take n (drop 1 tl)) out)
            (with_rx d (drop (n + 4) tl)).
Proof.
  intros Hrx Hn Havail.
  unfold cressi_goa_device_receive, bind.
  pose proof (read_app [h0; h1; h2; n] tl d Hrx) as R.
  change (len [h0; h1; h2; n]) with 4 in R. rewrite R. clear R.
  cbn [nth app].
  destruct (negb (h0 =? HEADER) || negb (h1 =? HEADER) || negb (h2 =? HEADER));
    [reflexivity|].
  destruct (Z.gtb_spec n SZ_PACKET) as [Hbig | Hsmall]; [reflexivity|].
  specialize (Havail Hsmall).
  rewrite read_ok by (cbn; lia).
  cbn [with_rx iostream rx ops base fingerprint].
  replace (Z.to_nat (n + 7)) with (4 + Z.to_nat (n + 3))%nat by lia.
  cbn [Nat.add nth].
  rewrite nth_take by lia.
  destruct (negb (nth (Z.to_nat (n + 3)) tl 0 =? TRAILER)); [reflexivity|].
  set (X := take (n + 4) tl).
  change (drop 3 (h0 :: h1 :: h2 :: n :: X)) with (n :: X).
  change (drop 5 (h0 :: h1 :: h2 :: n :: X)) with (drop 1 X).
  rewrite take_cons by lia.
  rewrite 4!drop_cons by lia.
  replace (n + 5 - 1 - 1 - 1 - 1) with (n + 1) by lia.
  replace (n + 2 - 1) with (n + 1) by lia.
  subst X.
  rewrite uint16_le_drop_take by lia.
  replace (take (n + 1) (take (n + 4) tl)) with (take (n + 1) tl)
    by (symmetry; apply (take_drop_take (n + 1) 0 (n + 4) tl); lia).
  destruct (negb (array_uint16_le (drop (n + 1) tl)
                  =? checksum_crc16_ccitt (n :: take (n + 1) tl) 0 0));
    [reflexivity|].
  rewrite take_drop_take by lia.
  destruct out as [o|]; cbn [dc_buffer_clear option_map]; [|reflexivity].
  destruct (Z.eqb_spec n 0) as [-> | Hnz]; reflexivity.
Qed.

Lemma send_packet_eq cmd data :
  send_packet cmd data =
  [HEADER; HEADER; HEADER; len data; cmd] ++ data ++
  [Z.land (checksum_crc16_ccitt (len data :: cmd :: data) 0 0) 0xFF;
   Z.land (Z.shiftr (checksum_crc16_ccitt (len data :: cmd :: data) 0 0) 8) 0xFF;
   TRAILER].
Proof.
  unfold send_packet. cbn [app].
  change (drop 3 (HEADER :: HEADER :: HEADER :: len data :: cmd :: data))
    with (len data :: cmd :: data).
  rewrite take_all by (unfold len; cbn [length]; lia).
  reflexivity.
Qed.

Lemma len_send_packet cmd data : len (send_packet cmd data) = len data + 8.
Proof.
  rewrite send_packet_eq. unfold len. cbn [length app].
  rewrite length_app. cbn [length]. lia.
Qed.

Lemma receive_send_packet cmd data rest out d :
  len data <= SZ_PACKET ->
  rx (iostream d) = send_packet cmd data ++ rest ->
  cressi_goa_device_receive out d
  = Done (option_map (fun _ => data) out) (with_rx d rest).
Proof.
  intros Hsz Hrx.
  rewrite send_packet_eq in Hrx. cbn [app] in Hrx. rewrite <- app_assoc in Hrx.
  set (crc := checksum_crc16_ccitt (len data :: cmd :: data) 0 0) in *.
  pose proof (len_nonneg data) as Hnn.
  set (tl := cmd :: data ++ [Z.land crc 255; Z.land (Z.shiftr crc 8) 255; TRAILER] ++ rest) in *.
  assert (Htake : take (len data + 1) tl = cmd :: data).
  { subst tl. rewrite take_cons by lia.
    replace (len data + 1 - 1) with (len data) by lia.
    rewrite take_app_exact; reflexivity. }
  assert (Hdrop : drop (len data + 1) tl
                  = [Z.land crc 255; Z.land (Z.shiftr crc 8) 255; TRAILER] ++ rest).
  { subst tl. rewrite drop_cons by lia.
    replace (len data + 1 - 1) with (len data) by lia.
    rewrite drop_app_exact; reflexivity. }
  assert (Hlen : len tl = len data + 4 + len rest).
  { subst tl. unfold len. cbn [length]. rewrite !length_app. cbn [length]. lia. }
  rewrite (receive_frame out d HEADER HEADER HEADER (len data) tl Hrx Hnn)
    by (pose proof (len_nonneg rest); lia).
  cbn [Z.eqb HEADER negb orb Pos.eqb].
  destruct (Z.gtb_spec (len data) SZ_PACKET) as [Hbig | _]; [lia|].
  assert (Htr : nth (Z.to_nat (len data + 3)) tl 0 = TRAILER).
  { replace tl with ((cmd :: data ++ [Z.land crc 255; Z.land (Z.shiftr crc 8) 255])
                       ++ TRAILER :: rest)
      by (subst tl; cbn [app]; rewrite <- app_assoc; reflexivity).
    replace (Z.to_nat (len data + 3))
      with (length (cmd :: data ++ [Z.land crc 255; Z.land (Z.shiftr crc 8) 255])).
    - apply nth_middle.
    - cbn [length]. rewrite length_app. cbn [length]. unfold len. lia. }
  rewrite Htr, Z.eqb_refl. cbn [negb].
  rewrite Hdrop, Htake. cbn [app].
  rewrite uint16_le_bytes by apply checksum_crc16_ccitt_range.
  fold crc. rewrite Z.eqb_refl. cbn [negb].
  f_equal.
  - f_equal.
    subst tl. change (drop 1 (cmd :: ?l)) with l.
    rewrite take_app_exact; reflexivity.
  - f_equal.
    replace (len data + 4) with (len data + 1 + 3) by lia.
    unfold drop in *. replace (Z.to_nat (len data + 1 + 3))
      with (3 + Z.to_nat (len data + 1))%nat by lia.
    rewrite <- skipn_skipn, Hdrop. reflexivity.
Qed.

Lemma send_ok cmd data d :
  len data <= SZ_PACKET ->
  cressi_goa_device_send cmd data d
  = Done tt (mk_device (base d)
               (mk_iostream (rx (iostream d))
                  (ops (iostream d) ++ [Sleep 100; Write (send_packet cmd data)]))
               (fingerprint d)).
Proof.
  intros Hsz. unfold cressi_goa_device_send.
  destruct (Z.gtb_spec (len data) SZ_PACKET) as [Hbig | _]; [lia|].
  unfold bind, dc_iostream_sleep, dc_iostream_write.
  cbn [iostream rx ops base fingerprint].
  rewrite take_all by apply len_send_packet.
  rewrite <- app_assoc. reflexivity.
Qed.

(** C7: for every command byte and every payload of at most 12 bytes, the
    two checksum bytes that [cressi_goa_device_send] appends are the
    little-endian CRC16-CCITT of length, command and payload, decoding them
    gives that checksum back, and [cressi_goa_device_receive] run on the
    bytes that send wrote accepts the frame and returns the payload. *)
Theorem send_receive_checksum_round_trip
    (cmd : Z) (data rest : list Z) (out : option (list Z))
    (d d' : cressi_goa_device_t) :
  len data <= SZ_PACKET ->
  rx (iostream d') = send_packet cmd data ++ rest ->
  let crc := checksum_crc16_ccitt (len data :: cmd :: data) 0 0 in
  cressi_goa_device_send cmd data d
  = Done tt (mk_device (base d)
               (mk_iostream (rx (iostream d))
                  (ops (iostream d) ++ [Sleep 100; Write (send_packet cmd data)]))
               (fingerprint d))
  /\ send_packet cmd data
     = [HEADER; HEADER; HEADER; len data; cmd] ++ data
       ++ [Z.land crc 0xFF; Z.land (Z.shiftr crc 8) 0xFF; TRAILER]
  /\ array_uint16_le [Z.land crc 0xFF; Z.land (Z.shiftr crc 8) 0xFF] = crc
  /\ cressi_goa_device_receive out d'
     = Done (option_map (fun _ => data) out) (with_rx d' rest).
Proof.
  intros Hsz Hrx crc. repeat split.
  - apply send_ok, Hsz.
  - apply send_packet_eq.
  - apply uint16_le_bytes, checksum_crc16_ccitt_range.
  - apply (receive_send_packet cmd data rest out d' Hsz Hrx).
Qed.

Lemma send_receive_checksum_round_trip_witness :
  let d := mk_device (mk_base []) (mk_iostream [] []) [0; 0; 0; 0; 0; 0] in
  let d' := mk_device (mk_base [])
              (mk_iostream (send_packet CMD_DIVE [7; 1] ++ [9]) [])
              [0; 0; 0; 0; 0; 0] in
  len [7; 1] <= SZ_PACKET
  /\ cressi_goa_device_receive (Some []) d' = Done (Some [7; 1]) (with_rx d' [9]).
Proof.
  intros d d'. split.
  - vm_compute. discriminate.
  - apply (send_receive_checksum_round_trip CMD_DIVE [7; 1] [9] (Some []) d d').
    + vm_compute. discriminate.
    + reflexivity.
Defined.

(** C6: on an incoming frame [h0 h1 h2 n] followed by [tl] (command,
    payload, checksum, trailer), [cressi_goa_device_receive] returns
    [DC_STATUS_PROTOCOL] whenever a header byte is not 0xAA, the length
    byte exceeds 12, the trailer is not 0x55 or the stored little-endian
    checksum differs from the CRC16-CCITT of length, command and payload;
    otherwise it succeeds and returns exactly the [n] payload bytes (none
    when [n] is zero). *)
Theorem receive_protocol_error_or_payload
    (out : option (list Z)) (d : cressi_goa_device_t)
    (h0 h1 h2 n : Z) (tl : list Z) :
  rx (iostream d) = h0 :: h1 :: h2 :: n :: tl ->
  0 <= n ->
  (n <= SZ_PACKET -> n + 4 <= len tl) ->
  let crc := array_uint16_le (drop (n + 1) tl) in
  let ccrc := checksum_crc16_ccitt (n :: take (n + 1) tl) 0 0 in
  let rejected :=
    h0 <> HEADER \/ h1 <> HEADER \/ h2 <> HEADER \/ n > SZ_PACKET
    \/ nth (Z.to_nat (n + 3)) tl 0 <> TRAILER \/ crc <> ccrc in
  (rejected ->
   status_of (cressi_goa_device_receive out d) = Some DC_STATUS_PROTOCOL)
  /\ (~ rejected ->
      cressi_goa_device_receive out d
      = Done (option_map (fun _ => take n (drop 1 tl)) out)
             (with_rx d (drop (n + 4) tl))
      /\ len (take n (drop 1 tl)) = n).
Proof.
  intros Hrx Hn Havail crc ccrc rejected.
  rewrite (receive_frame out d h0 h1 h2 n tl Hrx Hn Havail).
  fold crc ccrc.
  destruct (Z.eqb_spec h0 HEADER) as [E0 | N0];
    [| split; [reflexivity | intros H; exfalso; apply H; left; exact N0]].
  destruct (Z.eqb_spec h1 HEADER) as [E1 | N1];
    [| split; [reflexivity | intros H; exfalso; apply H; right; left; exact N1]].
  destruct (Z.eqb_spec h2 HEADER) as [E2 | N2];
    [| split; [reflexivity
              | intros H; exfalso; apply H; right; right; left; exact N2]].
  cbn [negb orb].
  destruct (Z.gtb_spec n SZ_PACKET) as [Hbig | Hsmall];
    [split; [reflexivity
            | intros H; exfalso; apply H; right; right; right; left; lia] |].
  destruct (Z.eqb_spec (nth (Z.to_nat (n + 3)) tl 0) TRAILER) as [Et | Nt];
    [| split; [reflexivity
              | intros H; exfalso; apply H; do 4 right; left; exact Nt]].
  destruct (Z.eqb_spec crc ccrc) as [Ec | Nc];
    [| split; [reflexivity
              | intros H; exfalso; apply H; do 5 right; exact Nc]].
  cbn [negb]. split.
  - intros [H | [H | [H | [H | [H | H]]]]]; contradiction || lia.
  - intros _. split; [reflexivity|].
    specialize (Havail Hsmall).
    rewrite len_take; [reflexivity|].
    rewrite len_drop by lia. lia.
Qed.

Lemma receive_protocol_error_or_payload_witness :
  let d := mk_device (mk_base [])
             (mk_iostream [0xAA; 0xAA; 0xAA; 2; 0x22; 7; 1; 0x40; 0x33; 0x54] [])
             [0; 0; 0; 0; 0; 0] in
  0 <= 2
  /\ status_of (cressi_goa_device_receive (Some []) d) = Some DC_STATUS_PROTOCOL.
Proof.
  intros d. split; [lia|].
  refine (proj1 (receive_protocol_error_or_payload (Some []) d
                   0xAA 0xAA 0xAA 2 [0x22; 7; 1; 0x40; 0x33; 0x54]
                   eq_refl _ _) _).
  - lia.
  - intros _. vm_compute. discriminate.
  - do 4 right. left. vm_compute. discriminate.
Defined.

(** C8: [cressi_goa_device_set_fingerprint], called with [size] bytes of
    [data], accepts only the sizes 0 and 6.  Any other size returns
    [DC_STATUS_INVALIDARGS] and leaves the whole instance, fingerprint
    included, as it was; size 6 stores exactly the 6 given bytes; size 0
    stores the all-zero fingerprint; the stream and the generic part of
    the instance are never modified. *)
Theorem set_fingerprint_sizes
    (data : list Z) (size : Z) (d : cressi_goa_device_t) :
  len data = size ->
  (size <> 0 /\ size <> 6 ->
   cressi_goa_device_set_fingerprint data size d = Fail DC_STATUS_INVALIDARGS d)
  /\ (size = 6 ->
      cressi_goa_device_set_fingerprint data size d
      = Done tt (mk_device (base d) (iostream d) data))
  /\ (size = 0 ->
      cressi_goa_device_set_fingerprint data size d
      = Done tt (mk_device (base d) (iostream d) [0; 0; 0; 0; 0; 0])).
Proof.
  intros Hlen. unfold cressi_goa_device_set_fingerprint, FP_SIZE.
  repeat split.
  - intros [H0 H6].
    destruct (Z.eqb_spec size 0); [contradiction|].
    destruct (Z.eqb_spec size 6); [contradiction|]. reflexivity.
  - intros ->. cbn [Z.eqb negb andb].
    unfold region. rewrite Hlen. cbn [Z.leb Z.add Z.compare Pos.compare
      Pos.compare_cont andb].
    change (drop 0 data) with data. rewrite take_all by exact Hlen.
    reflexivity.
  - intros ->. reflexivity.
Qed.

Lemma set_fingerprint_sizes_witness :
  let d := mk_device (mk_base []) (mk_iostream [1; 2] [Sleep 100])
             [0; 0; 0; 0; 0; 0] in
  len [9; 8; 7; 6; 5; 4] = 6
  /\ cressi_goa_device_set_fingerprint [9; 8; 7; 6; 5; 4] 6 d
     = Done tt (mk_device (base d) (iostream d) [9; 8; 7; 6; 5; 4]).
Proof.
  intros d. split; [reflexivity|].
  apply (set_fingerprint_sizes [9; 8; 7; 6; 5; 4] 6 d eq_refl). reflexivity.
Defined.

(** ** Identification *)

Lemma transfer_answer cmd input c payload rest out progress d :
  len input <= SZ_PACKET ->
  len payload <= SZ_PACKET ->
  rx (iostream d) = send_packet c payload ++ rest ->
  cressi_goa_device_transfer cmd input out None progress d
  = Done (option_map (fun _ => payload) out, None, progress)
         (after_command d cmd input rest).
Proof.
  intros Hin Hpl Hrx. unfold cressi_goa_device_transfer, bind.
  rewrite send_ok by exact Hin.
  rewrite (receive_send_packet c payload rest) by assumption.
  reflexivity.
Qed.

(** What [cressi_goa_read_id] does once the answer [id] to the version
    command has been received. *)
Lemma read_id_answer emit conf c id rest d :
  len id <= SZ_PACKET ->
  rx (iostream d) = send_packet c id ++ rest ->
  cressi_goa_read_id emit conf d =
  let d1 := after_command d CMD_VERSION [] rest in
  match find (fun c => len id =? idlen c) version_conf with
  | None => Done conf d1
  | Some conf_ =>
      let devinfo :=
        mk_devinfo (nth 4 id 0) (array_uint16_le (drop 5 id))
                   (array_uint32_le (drop 0 id)) in
      match cressi_goa_irda_api_version devinfo with
      | None => Undefined
      | Some v =>
          if v =? -1 then Fail DC_STATUS_UNSUPPORTED d1
          else
            Done (Some (mk_conf v (idlen conf_) (logbook_entry_len conf_)
                                (logbook_fp_offset conf_) (cmd_logbook conf_)))
                 (if emit
                  then mk_device
                         (mk_base (events (base d1)
                                     ++ [DC_EVENT_VENDOR id;
                                         DC_EVENT_DEVINFO devinfo]))
                         (iostream d1) (fingerprint d1)
                  else d1)
      end
  end.
Proof.
  intros Hid Hrx. unfold cressi_goa_read_id, bind.
  rewrite (transfer_answer CMD_VERSION [] c id rest (Some []) None d)
    by (assumption || (vm_compute; discriminate)).
  cbn [option_map].
  destruct (find (fun c0 => len id =? idlen c0) version_conf) as [conf_|];
    [|reflexivity].
  cbv zeta.
  destruct (cressi_goa_irda_api_version _) as [v|]; [|reflexivity].
  destruct (v =? -1); [reflexivity|].
  destruct emit; [|reflexivity].
  unfold device_event_emit, ret. cbn [base events iostream fingerprint].
  rewrite <- app_assoc. reflexivity.
Qed.

(** C3 (amended): the version negotiation maps (model 1, firmware 163) to
    API version 0, (model 3, firmware 105) to version 3 and (model 9,
    firmware 202) to version 4, and rejects (model 3, firmware 163).  The
    identification takes the configuration from the length of the answer
    alone and tags it with that version: for each of the three accepted
    pairs, an answer of 9 bytes that carries the pair yields
    (23, 0x11, 0x21) and an answer of 11 bytes yields (15, 3, 0x23); an
    answer of either length that carries the rejected pair makes it
    return [DC_STATUS_UNSUPPORTED]. *)
Theorem version_matrix_examples
    (emit : bool) (conf0 : option cressi_goa_irda_api_conf)
    (d : cressi_goa_device_t) (c : Z) (id rest : list Z) (v : Z) :
  (forall s, cressi_goa_irda_api_version (mk_devinfo 1 163 s) = Some 0)
  /\ (forall s, cressi_goa_irda_api_version (mk_devinfo 3 105 s) = Some 3)
  /\ (forall s, cressi_goa_irda_api_version (mk_devinfo 9 202 s) = Some 4)
  /\ (forall s, cressi_goa_irda_api_version (mk_devinfo 3 163 s) = Some (-1))
  /\ (rx (iostream d) = send_packet c id ++ rest ->
      (nth 4 id 0 = 1 /\ array_uint16_le (drop 5 id) = 163 /\ v = 0)
      \/ (nth 4 id 0 = 3 /\ array_uint16_le (drop 5 id) = 105 /\ v = 3)
      \/ (nth 4 id 0 = 9 /\ array_uint16_le (drop 5 id) = 202 /\ v = 4) ->
      (len id = 9 ->
       exists d',
         cressi_goa_read_id emit conf0 d
         = Done (Some (mk_conf v 9 23 0x11 0x21)) d')
      /\ (len id = 11 ->
          exists d',
            cressi_goa_read_id emit conf0 d
            = Done (Some (mk_conf v 11 15 3 0x23)) d'))
  /\ (rx (iostream d) = send_packet c id ++ rest ->
      nth 4 id 0 = 3 -> array_uint16_le (drop 5 id) = 163 ->
      len id = 9 \/ len id = 11 ->
      status_of (cressi_goa_read_id emit conf0 d) = Some DC_STATUS_UNSUPPORTED).
Proof.
  split; [reflexivity|]. split; [reflexivity|].
  split; [reflexivity|]. split; [reflexivity|].
  split.
  - intros Hrx Hpair.
    assert (Hrun : forall n, len id = n -> n <= SZ_PACKET ->
              cressi_goa_read_id emit conf0 d
              = let d1 := after_command d CMD_VERSION [] rest in
                match find (fun c0 => n =? idlen c0) version_conf with
                | None => Done conf0 d1
                | Some conf_ =>
                    Done (Some (mk_conf v (idlen conf_) (logbook_entry_len conf_)
                                  (logbook_fp_offset conf_) (cmd_logbook conf_)))
                         (if emit
                          then mk_device
                                 (mk_base
                                    (events (base d1)
                                     ++ [DC_EVENT_VENDOR id;
                                         DC_EVENT_DEVINFO
                                           (mk_devinfo (nth 4 id 0)
                                              (array_uint16_le (drop 5 id))
                                              (array_uint32_le (drop 0 id)))]))
                                 (iostream d1) (fingerprint d1)
                          else d1)
                end).
    { intros n Hn Hle.
      assert (Hle' : len id <= SZ_PACKET) by (rewrite Hn; exact Hle).
      rewrite (read_id_answer emit conf0 c id rest d Hle' Hrx).
      rewrite Hn. cbv zeta.
      destruct (find _ version_conf) as [conf_|]; [|reflexivity].
      destruct Hpair as [(-> & -> & ->) | [(-> & -> & ->) | (-> & -> & ->)]];
        reflexivity. }
    split; intros Hlen.
    + rewrite (Hrun 9 Hlen) by (vm_compute; discriminate).
      eexists. reflexivity.
    + rewrite (Hrun 11 Hlen) by (vm_compute; discriminate).
      eexists. reflexivity.
  - intros Hrx Hm Hfw Hlen.
    assert (Hle : len id <= SZ_PACKET)
      by (destruct Hlen as [-> | ->]; vm_compute; discriminate).
    rewrite (read_id_answer emit conf0 c id rest d Hle Hrx).
    rewrite Hm, Hfw.
    destruct Hlen as [-> | ->]; reflexivity.
Qed.

Lemma version_matrix_examples_witness :
  let id := [1; 2; 3; 4; 9; 202; 0; 0; 0; 0; 0] in
  let d := mk_device (mk_base []) (mk_iostream (send_packet CMD_VERSION id) [])
             [0; 0; 0; 0; 0; 0] in
  exists d',
    cressi_goa_read_id true None d = Done (Some (mk_conf 4 11 15 3 0x23)) d'.
Proof.
  intros id d.
  destruct (version_matrix_examples true None d CMD_VERSION id [] 4)
    as (_ & _ & _ & _ & Hconf & _).
  destruct Hconf as [_ H11].
  - vm_compute. reflexivity.
  - right. right. repeat split.
  - apply H11. reflexivity.
Defined.

(** C3 as stated fails: the configuration does not follow from the model
    and the firmware.  A device of model 9 with firmware 202 that answers
    the version command in 9 bytes is given version 4 with the
    configuration (23, 0x11, 0x21), and a device of model 1 with firmware
    163 that answers in 11 bytes is given version 0 with the configuration
    (15, 3, 0x23). *)
Lemma read_id_configuration_follows_answer_length :
  let zero := [0; 0; 0; 0; 0; 0] in
  let id9 := [1; 2; 3; 4; 9; 202; 0; 0; 0] in
  let id11 := [1; 2; 3; 4; 1; 163; 0; 0; 0; 0; 0] in
  let d9 := mk_device (mk_base [])
              (mk_iostream (send_packet CMD_VERSION id9) []) zero in
  let d11 := mk_device (mk_base [])
               (mk_iostream (send_packet CMD_VERSION id11) []) zero in
  (nth 4 id9 0 = 9 /\ array_uint16_le (drop 5 id9) = 202
   /\ exists d',
        cressi_goa_read_id true None d9
        = Done (Some (mk_conf 4 9 23 0x11 0x21)) d'
        /\ mk_conf 4 9 23 0x11 0x21 <> mk_conf 4 11 15 3 0x23
        /\ logbook_entry_len (mk_conf 4 9 23 0x11 0x21) <> 15)
  /\ (nth 4 id11 0 = 1 /\ array_uint16_le (drop 5 id11) = 163
      /\ exists d',
           cressi_goa_read_id true None d11
           = Done (Some (mk_conf 0 11 15 3 0x23)) d'
           /\ mk_conf 0 11 15 3 0x23 <> mk_conf 0 9 23 0x11 0x21
           /\ logbook_entry_len (mk_conf 0 11 15 3 0x23) <> 23).
Proof.
  intros zero id9 id11 d9 d11. split.
  - split; [reflexivity|]. split; [reflexivity|].
    eexists. split; [vm_compute; reflexivity|].
    split; [discriminate | vm_compute; discriminate].
  - split; [reflexivity|]. split; [reflexivity|].
    eexists. split; [vm_compute; reflexivity|].
    split; [discriminate | vm_compute; discriminate].
Qed.

(** For the models 1 to 11 the support matrix is indexed inside its
    bounds, whatever the firmware. *)
Lemma api_version_in_bounds m fw s :
  1 <= m <= 11 ->
  cressi_goa_irda_api_version (mk_devinfo m fw s) <> None.
Proof.
  intros Hm.
  assert (Hcases : m = 1 \/ m = 2 \/ m = 3 \/ m = 4 \/ m = 5 \/ m = 6 \/ m = 7
                   \/ m = 8 \/ m = 9 \/ m = 10 \/ m = 11) by lia.
  unfold cressi_goa_irda_api_version. cbn [model firmware].
  destruct ((fw >=? 161) && (fw <=? 165));
    [|destruct ((fw >=? 166) && (fw <=? 169));
      [|destruct ((fw >=? 170) && (fw <=? 179));
        [|destruct ((fw >=? 100) && (fw <=? 110) || (fw =? 900));
          [|destruct ((fw >=? 200) && (fw <=? 205))]]]];
    repeat (destruct Hcases as [-> | Hcases]); try subst m;
    vm_compute; discriminate.
Qed.

(** C10: the rejection test [model > 11] lets the model byte 0 through, and
    with a recognised firmware the support matrix is then indexed at
    column [0 - 1], which as an [unsigned int] is 4294967295: the lookup
    leaves the 5 x 11 matrix, in [cressi_goa_irda_api_version] and
    therefore in the identification of an answer whose model byte is 0. *)
Theorem api_version_model_zero_out_of_bounds :
  uint (0 - 1) = 4294967295
  /\ (forall s, cressi_goa_irda_api_version (mk_devinfo 0 163 s) = None)
  /\ cressi_goa_read_id false None
       (mk_device (mk_base [])
          (mk_iostream (send_packet CMD_VERSION [1; 2; 3; 4; 0; 163; 0; 0; 0]) [])
          [0; 0; 0; 0; 0; 0])
     = Undefined.
Proof.
  split; [reflexivity|]. split; [intros s; reflexivity|].
  vm_compute. reflexivity.
Qed.

(** C2: when the answer to the version command has a length other than 9
    or 11, [cressi_goa_read_id] finds no configuration, leaves the
    caller's configuration as it was and returns with the status of the
    transfer, which is [DC_STATUS_SUCCESS]. *)
Theorem read_id_unknown_length_returns_success
    (emit : bool) (conf0 : option cressi_goa_irda_api_conf)
    (c : Z) (id rest : list Z) (d : cressi_goa_device_t) :
  len id <= SZ_PACKET ->
  len id <> 9 ->
  len id <> 11 ->
  rx (iostream d) = send_packet c id ++ rest ->
  cressi_goa_read_id emit conf0 d
  = Done conf0 (after_command d CMD_VERSION [] rest)
  /\ status_of (cressi_goa_read_id emit conf0 d) = Some DC_STATUS_SUCCESS.
Proof.
  intros Hsz H9 H11 Hrx.
  rewrite (read_id_answer emit conf0 c id rest d Hsz Hrx).
  unfold version_conf. cbn [find idlen].
  destruct (Z.eqb_spec (len id) 9) as [E | _]; [contradiction|].
  destruct (Z.eqb_spec (len id) 11) as [E | _]; [contradiction|].
  split; reflexivity.
Qed.

Lemma read_id_unknown_length_returns_success_witness :
  let id := [1; 2; 3; 4; 1; 163; 0; 0; 0; 0] in
  let d := mk_device (mk_base []) (mk_iostream (send_packet CMD_VERSION id) [])
             [0; 0; 0; 0; 0; 0] in
  len id <= SZ_PACKET
  /\ status_of (cressi_goa_read_id true None d) = Some DC_STATUS_SUCCESS.
Proof.
  intros id d. split; [vm_compute; discriminate|].
  apply (read_id_unknown_length_returns_success true None CMD_VERSION id [] d).
  - vm_compute; discriminate.
  - vm_compute; discriminate.
  - vm_compute; discriminate.
  - vm_compute. reflexivity.
Defined.

(** ** Bulk transfer *)

(** One iteration of the loop of [cressi_goa_device_download] on a stream
    that still holds a whole packet. *)
Lemma download_loop_step fuel initial skip size nbytes buffer progress d :
  nbytes < size ->
  517 <= len (rx (iostream d)) ->
  download_loop (S fuel) initial skip size nbytes buffer progress d =
  let packet := take 517 (rx (iostream d)) in
  if negb (array_uint16_le (drop 515 packet)
           =? checksum_crc16_ccitt (take 512 (drop 3 packet)) 0 0)
  then Fail DC_STATUS_PROTOCOL (with_rx d (drop 517 (rx (iostream d))))
  else
    let size' :=
      if nbytes =? 0 then uint (size + array_uint16_le (drop 3 packet))
      else size in
    let length :=
      if uint (size' - nbytes) >? SZ_DATA then SZ_DATA
      else uint (size' - nbytes) in
    match region packet (3 + skip) (uint (length - skip)) with
    | None => Undefined
    | Some payload =>
        let nbytes' := uint (nbytes + length) in
        match progress with
        | Some p =>
            let p' := mk_progress (uint (initial + STEP nbytes' size'))
                                  (maximum p) in
            download_loop fuel initial 0 size' nbytes' (buffer ++ payload)
              (Some p') (after_chunk d [DC_EVENT_PROGRESS p'])
        | None =>
            download_loop fuel initial 0 size' nbytes' (buffer ++ payload)
              None (after_chunk d [])
        end
    end.
Proof.
  intros Hlt Hav. cbn [download_loop].
  destruct (Z.ltb_spec nbytes size) as [_ | Hge]; [|lia].
  unfold bind at 1.
  change (3 + SZ_DATA + 2) with 517.
  rewrite read_ok by lia.
  change (517 - 2) with 515. change (517 - 5) with 512.
  cbv zeta.
  destruct (negb _); [reflexivity|].
  unfold bind at 1. unfold dc_iostream_write at 1.
  cbn [with_rx iostream rx ops base fingerprint].
  destruct (region _ _ _) as [payload|]; [|reflexivity].
  unfold dc_buffer_append.
  destruct progress as [p|].
  - unfold bind, device_event_emit. cbn [base events iostream fingerprint].
    reflexivity.
  - unfold after_chunk. rewrite app_nil_r. destruct d as [[ev] [r o] f]. reflexivity.
Qed.

Lemma uint_small x : 0 <= x < 4294967296 -> uint x = x.
Proof. intros H. unfold uint. apply Z.mod_small. exact H. Qed.

Lemma read_short n d :
  len (rx (iostream d)) < n ->
  dc_iostream_read n d
  = Fail DC_STATUS_TIMEOUT
      (mk_device (base d) (mk_iostream [] (ops (iostream d))) (fingerprint d)).
Proof.
  intros H. unfold dc_iostream_read.
  destruct (Z.leb_spec n (len (rx (iostream d)))); [lia | reflexivity].
Qed.

Lemma download_loop_short fuel initial skip size nbytes buffer progress d :
  nbytes < size ->
  len (rx (iostream d)) < 517 ->
  exists d', download_loop (S fuel) initial skip size nbytes buffer progress d
             = Fail DC_STATUS_TIMEOUT d'.
Proof.
  intros Hlt Hav. cbn [download_loop].
  destruct (Z.ltb_spec nbytes size) as [_ | Hge]; [|lia].
  unfold bind at 1. change (3 + SZ_DATA + 2) with 517.
  rewrite read_short by lia. eexists. reflexivity.
Qed.

Lemma region_take_packet off n m l :
  0 <= off -> 0 <= n -> off + n <= m -> m <= len l ->
  region (take m l) off n = Some (take n (drop off l)).
Proof.
  intros Ho Hn Hm Hl. unfold region.
  rewrite len_take by lia.
  destruct (Z.leb_spec 0 off); [|lia].
  destruct (Z.leb_spec 0 n); [|lia].
  destruct (Z.leb_spec (off + n) m); [|lia].
  cbn [andb]. rewrite take_drop_take by lia. reflexivity.
Qed.

Lemma bulk_chunks_done total : bulk_chunks total total = O.
Proof. unfold bulk_chunks. replace (total - total + 511) with 511 by lia. reflexivity. Qed.

Lemma bulk_chunks_step total received :
  received < total ->
  bulk_chunks total received
  = S (bulk_chunks total (received + Z.min SZ_DATA (total - received))).
Proof.
  intros H. unfold bulk_chunks, SZ_DATA.
  destruct (Z.le_gt_cases (total - received) 512) as [Hle | Hgt].
  - rewrite Z.min_r by lia.
    replace (total - (received + (total - received)) + 511) with 511 by lia.
    change (511 / 512) with 0.
    assert ((total - received + 511) / 512 = 1).
    { symmetry. apply (Z.div_unique _ _ 1 (total - received - 1)); lia. }
    lia.
  - rewrite Z.min_l by lia.
    replace (total - received + 511)
      with ((total - (received + 512) + 511) + 1 * 512) by lia.
    rewrite Z.div_add by lia.
    assert (0 <= (total - (received + 512) + 511) / 512)
      by (apply Z.div_pos; lia).
    lia.
Qed.

(** The loop of [cressi_goa_device_download] after the first packet. *)
Lemma download_loop_steady fuel : forall initial total nbytes buffer progress d out progress' d',
  0 < nbytes <= total -> total < 4294967296 - 512 ->
  download_loop fuel initial 0 total nbytes buffer progress d
  = Done (out, progress') d' ->
  let n := bulk_chunks total nbytes in
  out = buffer ++ bulk_output n 0 total nbytes (rx (iostream d))
  /\ len out = len buffer + (total - nbytes)
  /\ ops (iostream d') = ops (iostream d) ++ repeat (Write [ACK]) n
  /\ rx (iostream d') = drop (517 * Z.of_nat n) (rx (iostream d))
  /\ fingerprint d' = fingerprint d.
Proof.
  induction fuel as [|fuel IH]; intros initial total nbytes buffer progress d
    out progress' d' Hnb Htot Hrun n.
  - cbn [download_loop] in Hrun.
    destruct (Z.ltb_spec nbytes total) as [Hlt | Hge]; [discriminate|].
    assert (nbytes = total) by lia. subst nbytes. subst n.
    rewrite bulk_chunks_done. cbn [bulk_output repeat]. 
    unfold ret in Hrun. injection Hrun as <- _ <-.
    rewrite !app_nil_r. change (517 * Z.of_nat 0) with 0.
    repeat split; try reflexivity. lia.
  - destruct (Z.ltb_spec nbytes total) as [Hlt | Hge].
    2:{ cbn [download_loop] in Hrun.
        destruct (Z.ltb_spec nbytes total) as [Hlt | _]; [lia|].
        assert (nbytes = total) by lia. subst nbytes. subst n.
        rewrite bulk_chunks_done. cbn [bulk_output repeat].
        unfold ret in Hrun. injection Hrun as <- _ <-.
        rewrite !app_nil_r. change (517 * Z.of_nat 0) with 0.
        repeat split; try reflexivity. lia. }
    destruct (Z.le_gt_cases 517 (len (rx (iostream d)))) as [Hav | Hshort].
    2:{ destruct (download_loop_short fuel initial 0 total nbytes buffer
                    progress d Hlt) as [dx Hx]; [lia|].
        rewrite Hx in Hrun. discriminate. }
    rewrite download_loop_step in Hrun by assumption.
    cbv zeta in Hrun.
    destruct (negb _) in Hrun; [discriminate|].
    destruct (Z.eqb_spec nbytes 0) as [E0 | _]; [lia|].
    rewrite (uint_small (total - nbytes)) in Hrun by lia.
    set (length := if total - nbytes >? SZ_DATA then SZ_DATA else total - nbytes) in *.
    assert (Hlength : length = Z.min SZ_DATA (total - nbytes)).
    { subst length. unfold SZ_DATA.
      destruct (Z.gtb_spec (total - nbytes) 512); lia. }
    assert (Hl : 0 < length <= 512) by (rewrite Hlength; unfold SZ_DATA; lia).
    rewrite (uint_small (length - 0)) in Hrun by lia.
    rewrite region_take_packet in Hrun by lia.
    rewrite (uint_small (nbytes + length)) in Hrun by lia.
    subst n. rewrite bulk_chunks_step by lia. rewrite <- Hlength.
    cbn [bulk_output repeat]. rewrite <- Hlength.
    assert (Hpay : len (take (length - 0) (drop (3 + 0) (rx (iostream d))))
                   = length).
    { rewrite len_take; [lia|]. rewrite len_drop by lia. lia. }
    assert (Hgoal : forall evs p,
      download_loop fuel initial 0 total (nbytes + length)
        (buffer ++ take (length - 0) (drop (3 + 0) (rx (iostream d))))
        p (after_chunk d evs) = Done (out, progress') d' ->
      out = buffer ++ take (length - 0) (drop (3 + 0) (rx (iostream d)))
            ++ bulk_output (bulk_chunks total (nbytes + length)) 0 total
                 (nbytes + length) (drop 517 (rx (iostream d)))
      /\ len out = len buffer + (total - nbytes)
      /\ ops (iostream d')
         = ops (iostream d)
           ++ Write [ACK] :: repeat (Write [ACK]) (bulk_chunks total (nbytes + length))
      /\ rx (iostream d')
         = drop (517 * Z.of_nat (S (bulk_chunks total (nbytes + length))))
                (rx (iostream d))
      /\ fingerprint d' = fingerprint d).
    { intros evs p Hp.
      apply IH in Hp; [|lia|lia].
      cbn [after_chunk iostream rx ops fingerprint] in Hp.
      destruct Hp as (Ho & Hlen & Hops & Hrx & Hfp).
      repeat split.
      - rewrite Ho, <- app_assoc. reflexivity.
      - rewrite Hlen, len_app, Hpay. lia.
      - rewrite Hops, <- app_assoc. reflexivity.
      - rewrite Hrx. unfold drop. rewrite skipn_skipn. f_equal. lia.
      - exact Hfp. }
    destruct progress as [p|]; eapply Hgoal; exact Hrun.
Qed.

Lemma nth_is_byte l i : bytes_ok l = true -> is_byte (nth i l 0) = true.
Proof.
  revert i. induction l as [|x l IH]; intros i H.
  - destruct i; reflexivity.
  - cbn [bytes_ok forallb] in H. apply andb_prop in H as [Hx Hl].
    destruct i as [|i]; [exact Hx | apply IH, Hl].
Qed.

Lemma is_byte_range b : is_byte b = true -> 0 <= b < 256.
Proof. unfold is_byte. intros H. apply andb_prop in H as [H1 H2]. lia. Qed.

Lemma lor_shiftl_8 a b :
  0 <= a < 256 -> 0 <= b -> Z.lor a (Z.shiftl b 8) = a + b * 256.
Proof.
  intros Ha Hb.
  assert (Hland : Z.land a (Z.shiftl b 8) = 0).
  { apply Z.bits_inj'. intros i Hi. rewrite Z.land_spec, Z.bits_0.
    destruct (Z.ltb_spec i 8) as [Hlt | Hge].
    - rewrite Z.shiftl_spec_low by lia. apply andb_false_r.
    - destruct (Z.eq_dec a 0) as [-> | Hnz]; [rewrite Z.bits_0; reflexivity|].
      rewrite (Z.bits_above_log2 a i); [reflexivity | lia |].
      apply Z.lt_le_trans with 8; [|lia].
      apply Z.log2_lt_pow2; [lia|]. change (2 ^ 8) with 256. lia. }
  rewrite <- Z.lxor_lor by exact Hland.
  rewrite <- Z.add_nocarry_lxor by exact Hland.
  rewrite Z.shiftl_mul_pow2 by lia. reflexivity.
Qed.

Lemma uint16_le_range p :
  bytes_ok p = true -> 0 <= array_uint16_le p < 65536.
Proof.
  intros H. unfold array_uint16_le.
  pose proof (is_byte_range _ (nth_is_byte p 0 H)).
  pose proof (is_byte_range _ (nth_is_byte p 1 H)).
  rewrite lor_shiftl_8 by lia. lia.
Qed.

Lemma bytes_ok_drop n l : bytes_ok l = true -> bytes_ok (drop n l) = true.
Proof.
  unfold drop. generalize (Z.to_nat n) as k. intros k. revert l.
  induction k as [|k IH]; intros l H; [exact H|].
  destruct l as [|x l]; [reflexivity|].
  cbn [bytes_ok forallb] in H. apply andb_prop in H as [_ Hl].
  cbn [skipn]. apply IH, Hl.
Qed.

Lemma bytes_ok_take n l : bytes_ok l = true -> bytes_ok (take n l) = true.
Proof.
  unfold take. generalize (Z.to_nat n) as k. intros k. revert l.
  induction k as [|k IH]; intros l H; [reflexivity|].
  destruct l as [|x l]; [reflexivity|].
  cbn [bytes_ok forallb] in H. apply andb_prop in H as [Hx Hl].
  cbn [firstn bytes_ok forallb]. rewrite Hx. cbn [andb]. apply IH, Hl.
Qed.

Lemma bulk_chunks_bounds total :
  0 < total ->
  512 * (Z.of_nat (bulk_chunks total 0) - 1) < total
  <= 512 * Z.of_nat (bulk_chunks total 0).
Proof.
  intros H. unfold bulk_chunks.
  assert (Hdiv : 0 <= (total - 0 + 511) / 512) by (apply Z.div_pos; lia).
  rewrite Z2Nat.id by exact Hdiv.
  pose proof (Z.div_mod (total - 0 + 511) 512 ltac:(lia)).
  pose proof (Z.mod_pos_bound (total - 0 + 511) 512 ltac:(lia)). lia.
Qed.

(** C4: a successful bulk download whose first packet declares the extra
    size [E] (total size [T = E + 2]) appends exactly [T - 2] bytes: every
    packet contributes [min(512, T - received)] bytes, with the first two
    bytes of the first packet only left out, and the packets read and
    acknowledged are those needed while fewer than [T] bytes were
    received, followed by the acknowledgement of the end byte. *)
Theorem download_appends_declared_size
    (buffer : list Z) (progress : option dc_event_progress_t)
    (d : cressi_goa_device_t)
    (out : list Z) (progress' : option dc_event_progress_t)
    (d' : cressi_goa_device_t) :
  bytes_ok (rx (iostream d)) = true ->
  cressi_goa_device_download buffer progress d = Done (out, progress') d' ->
  let E := array_uint16_le (drop 3 (rx (iostream d))) in
  let T := E + 2 in
  let n := bulk_chunks T 0 in
  len out = T - 2
  /\ out = bulk_output n 2 T 0 (rx (iostream d))
  /\ 512 * (Z.of_nat n - 1) < T <= 512 * Z.of_nat n
  /\ ops (iostream d')
     = ops (iostream d) ++ repeat (Write [ACK]) n ++ [Write [ACK]]
  /\ rx (iostream d') = drop (517 * Z.of_nat n + 1) (rx (iostream d)).
Proof.
  intros Hbytes Hrun E T n.
  assert (HE : 0 <= E < 65536)
    by (apply uint16_le_range, bytes_ok_drop, Hbytes).
  unfold cressi_goa_device_download in Hrun. unfold bind at 1 in Hrun.
  destruct (download_loop _ _ _ _ _ _ _ d) as [[out1 pr1] d1| | |] eqn:Hloop;
    try discriminate.
  (* the first packet *)
  destruct (Z.le_gt_cases 517 (len (rx (iostream d)))) as [Hav | Hshort].
  2:{ destruct (download_loop_short (length (rx (iostream d)))
                  (match progress with Some p => current p | None => 0 end)
                  2 2 0 [] progress d) as [dx Hx]; [lia|lia|].
      rewrite Hx in Hloop. discriminate. }
  rewrite download_loop_step in Hloop by lia.
  cbv zeta in Hloop.
  destruct (negb _) in Hloop; [discriminate|].
  cbn [Z.eqb] in Hloop.
  rewrite (uint16_le_drop_take 3 517) in Hloop by lia.
  fold E in Hloop.
  rewrite (uint_small (2 + E)) in Hloop by lia.
  replace (2 + E) with T in Hloop by (subst T; lia).
  rewrite (uint_small (T - 0)) in Hloop by (subst T; lia).
  set (contribution := if T - 0 >? SZ_DATA then SZ_DATA else T - 0) in *.
  assert (Hlength : contribution = Z.min SZ_DATA (T - 0)).
  { subst contribution. unfold SZ_DATA. destruct (Z.gtb_spec (T - 0) 512); lia. }
  assert (Hl : 2 <= contribution <= 512)
    by (rewrite Hlength; unfold SZ_DATA; subst T; lia).
  rewrite (uint_small (contribution - 2)) in Hloop by lia.
  rewrite region_take_packet in Hloop by lia.
  rewrite (uint_small (0 + contribution)) in Hloop by lia.
  cbn [app] in Hloop.
  assert (Hpay : len (take (contribution - 2) (drop (3 + 2) (rx (iostream d))))
                 = contribution - 2).
  { rewrite len_take; [lia|]. rewrite len_drop by lia. lia. }
  assert (Hn : n = S (bulk_chunks T (0 + contribution))).
  { subst n. rewrite Hlength. apply bulk_chunks_step. subst T. lia. }
  assert (Hsteady : forall evs p,
    download_loop (length (rx (iostream d)))
      (match progress with Some p => current p | None => 0 end)
      0 T (0 + contribution) (take (contribution - 2) (drop (3 + 2) (rx (iostream d))))
      p (after_chunk d evs) = Done (out1, pr1) d1 ->
    out1 = bulk_output n 2 T 0 (rx (iostream d))
    /\ len out1 = T - 2
    /\ ops (iostream d1) = ops (iostream d) ++ repeat (Write [ACK]) n
    /\ rx (iostream d1) = drop (517 * Z.of_nat n) (rx (iostream d))).
  { intros evs p Hp.
    apply download_loop_steady in Hp; [|lia|subst T; lia].
    cbn [after_chunk iostream rx ops fingerprint] in Hp.
    destruct Hp as (Ho & Hlen & Hops & Hrx & _).
    rewrite Hn. cbn [bulk_output repeat]. rewrite <- Hlength.
    repeat split.
    - exact Ho.
    - rewrite Hlen, Hpay. lia.
    - rewrite Hops, <- app_assoc. reflexivity.
    - rewrite Hrx. unfold drop. rewrite skipn_skipn. f_equal. lia. }
  assert (Hres : out1 = bulk_output n 2 T 0 (rx (iostream d))
    /\ len out1 = T - 2
    /\ ops (iostream d1) = ops (iostream d) ++ repeat (Write [ACK]) n
    /\ rx (iostream d1) = drop (517 * Z.of_nat n) (rx (iostream d)))
    by (destruct progress as [p|]; eapply Hsteady; exact Hloop).
  clear Hsteady Hloop.
  destruct Hres as (Ho & Hlen & Hops & Hrx).
  (* the end byte and its acknowledgement *)
  unfold bind at 1 in Hrun.
  destruct (Z.le_gt_cases 1 (len (rx (iostream d1)))) as [Hav1 | Hno].
  2:{ rewrite read_short in Hrun by lia. discriminate. }
  rewrite read_ok in Hrun by lia.
  destruct (negb _) in Hrun; [discriminate|].
  unfold bind, dc_iostream_write, ret in Hrun.
  cbn [with_rx iostream rx ops base fingerprint] in Hrun.
  injection Hrun as <- _ <-.
  cbn [iostream rx ops].
  repeat split.
  - exact Hlen.
  - exact Ho.
  - apply bulk_chunks_bounds. subst T. lia.
  - apply bulk_chunks_bounds. subst T. lia.
  - rewrite Hops, <- app_assoc. reflexivity.
  - rewrite Hrx. unfold drop. rewrite skipn_skipn. f_equal. lia.
Qed.

(** The fuel of the model is never exhausted: every iteration consumes a
    whole packet of the stream. *)
Lemma download_loop_total fuel :
  forall initial skip size nbytes buffer progress d,
    (length (rx (iostream d)) < fuel)%nat ->
    download_loop fuel initial skip size nbytes buffer progress d <> Cutoff.
Proof.
  induction fuel as [|fuel IH];
    intros initial skip size nbytes buffer progress d Hfuel; [lia|].
  destruct (Z.ltb_spec nbytes size) as [Hlt | Hge].
  2:{ cbn [download_loop].
      destruct (Z.ltb_spec nbytes size); [lia|]. discriminate. }
  destruct (Z.le_gt_cases 517 (len (rx (iostream d)))) as [Hav | Hshort].
  2:{ destruct (download_loop_short fuel initial skip size nbytes buffer
                  progress d Hlt) as [dx Hx]; [lia|].
      rewrite Hx. discriminate. }
  rewrite download_loop_step by assumption. cbv zeta.
  destruct (negb _); [discriminate|].
  destruct (region _ _ _) as [payload|]; [|discriminate].
  assert (Hrx : forall evs,
             (length (rx (iostream (after_chunk d evs))) < fuel)%nat).
  { intros evs. cbn [after_chunk iostream rx]. unfold drop.
    rewrite length_skipn. unfold len in Hav. lia. }
  destruct progress as [p|]; apply IH, Hrx.
Qed.

Lemma download_total buffer progress d :
  cressi_goa_device_download buffer progress d <> Cutoff.
Proof.
  unfold cressi_goa_device_download. unfold bind at 1.
  pose proof (download_loop_total (S (length (rx (iostream d))))
                (match progress with Some p => current p | None => 0 end)
                2 2 0 [] progress d ltac:(lia)) as Hloop.
  destruct (download_loop _ _ _ _ _ _ _ d) as [[out1 pr1] d1| | |];
    try discriminate; [|contradiction].
  unfold bind at 1. unfold dc_iostream_read.
  destruct (1 <=? len (rx (iostream d1))); [|discriminate].
  destruct (negb _); discriminate.
Qed.

Lemma download_appends_declared_size_witness :
  let d := mk_device (mk_base [])
             (mk_iostream (bulk_stream [1; 2; 3; 4; 5; 6; 7; 8; 9; 10]) [])
             [0; 0; 0; 0; 0; 0] in
  bytes_ok (rx (iostream d)) = true
  /\ exists out p d',
       cressi_goa_device_download [] None d = Done (out, p) d'
       /\ len out = 10.
Proof.
  intros d.
  assert (Hbytes : bytes_ok (rx (iostream d)) = true) by (vm_compute; reflexivity).
  split; [exact Hbytes|].
  destruct (cressi_goa_device_download [] None d) as [[out p] d'| | |] eqn:Hrun.
  - exists out, p, d'. split; [reflexivity|].
    exact (proj1 (download_appends_declared_size [] None d out p d' Hbytes Hrun)).
  - vm_compute in Hrun. discriminate.
  - vm_compute in Hrun. discriminate.
  - vm_compute in Hrun. discriminate.
Defined.

(** ** Dive enumeration *)

Lemma memcmp_eq a : forall b, length a = length b -> (memcmp a b = 0 <-> a = b).
Proof.
  induction a as [|x a IH]; intros [|y b] Hlen; try discriminate.
  - split; reflexivity.
  - cbn [memcmp]. injection Hlen as Hlen.
    destruct (Z.eqb_spec x y) as [-> | Hne].
    + rewrite (IH b Hlen). split; [intros ->; reflexivity | intros H; injection H; auto].
    + split; [lia | intros H; injection H; intros; contradiction].
Qed.

Lemma region_ok p off n :
  0 <= off -> 0 <= n -> off + n <= len p ->
  region p off n = Some (take n (drop off p)).
Proof.
  intros Ho Hn Hl. unfold region.
  destruct (Z.leb_spec 0 off); [|lia].
  destruct (Z.leb_spec 0 n); [|lia].
  destruct (Z.leb_spec (off + n) (len p)); [|lia]. reflexivity.
Qed.

Lemma entry_offset_next conf lb i :
  entry_offset conf lb (i + 1) = entry_offset conf lb i - logbook_entry_len conf.
Proof. unfold entry_offset. lia. Qed.

Lemma foreach_count_spec conf lb d :
  conf_wf conf ->
  len lb < 4294967296 ->
  len (fingerprint d) = FP_SIZE ->
  forall fuel i,
    0 <= i ->
    0 <= entry_offset conf lb i <= Z.of_nat fuel ->
    exists c,
      foreach_count fuel conf lb i (entry_offset conf lb i) d = Done c d
      /\ i <= c
      /\ (forall k, i < k <= c -> pending conf lb (fingerprint d) k)
      /\ ~ pending conf lb (fingerprint d) (c + 1).
Proof.
  intros (Hel & Hfpo & Hfpe) Hlb Hfp.
  unfold FP_SIZE in *.
  induction fuel as [|fuel IH]; intros i Hi Hoff.
  - exists i. cbn [foreach_count].
    destruct (Z.gtb_spec (entry_offset conf lb i) (logbook_entry_len conf)); [lia|].
    split; [reflexivity|]. split; [lia|]. split; [intros k Hk; lia|].
    intros ((_ & Hs) & _). rewrite entry_offset_next in Hs. lia.
  - cbn [foreach_count].
    destruct (Z.gtb_spec (entry_offset conf lb i) (logbook_entry_len conf))
      as [Hgt | Hle].
    2:{ exists i. split; [reflexivity|]. split; [lia|].
        split; [intros k Hk; lia|].
        intros ((_ & Hs) & _). rewrite entry_offset_next in Hs. lia. }
    assert (Hle : entry_offset conf lb i <= len lb)
      by (unfold entry_offset;
          pose proof (Z.mul_nonneg_nonneg i (logbook_entry_len conf)); lia).
    rewrite <- entry_offset_next.
    assert (Hnext : 0 < entry_offset conf lb (i + 1))
      by (rewrite entry_offset_next; lia).
    assert (Hend : entry_offset conf lb (i + 1) + logbook_entry_len conf <= len lb)
      by (rewrite entry_offset_next; lia).
    rewrite uint_small by lia.
    rewrite region_ok by lia. rewrite uint16_le_take.
    fold (entry_number conf lb (i + 1)).
    destruct (Z.eqb_spec (entry_number conf lb (i + 1)) 0) as [E0 | N0].
    { exists i. split; [reflexivity|]. split; [lia|].
      split; [intros k Hk; lia|]. intros (_ & Hn & _). contradiction. }
    rewrite region_ok by (unfold FP_SIZE; lia).
    fold (entry_fingerprint conf lb (i + 1)).
    assert (Hlenfp : length (entry_fingerprint conf lb (i + 1))
                     = length (fingerprint d)).
    { assert (len (entry_fingerprint conf lb (i + 1)) = 6).
      { unfold entry_fingerprint, FP_SIZE. rewrite len_take; [lia|].
        rewrite len_drop by lia. lia. }
      unfold len in *. lia. }
    destruct (Z.eqb_spec (memcmp (entry_fingerprint conf lb (i + 1))
                                 (fingerprint d)) 0) as [Em | Nm].
    { exists i. split; [reflexivity|]. split; [lia|].
      split; [intros k Hk; lia|]. intros (_ & _ & Hn).
      apply Hn. apply memcmp_eq; assumption. }
    assert (Hi1 : i + 1 < 4294967296).
    { assert ((i + 1) * 2 <= (i + 1) * logbook_entry_len conf)
        by (apply Z.mul_le_mono_nonneg_l; lia).
      unfold entry_offset in Hnext. lia. }
    rewrite uint_small by lia.
    pose proof (entry_offset_next conf lb i) as Hrel.
    destruct (IH (i + 1)) as (c & Hc & Hic & Hall & Hstop); [lia|lia|].
    exists c. split; [exact Hc|]. split; [lia|]. split; [|exact Hstop].
    intros k Hk.
    destruct (Z.eq_dec k (i + 1)) as [-> | Hne].
    + split; [split; lia|]. split; [exact N0|].
      intros Heq. apply Nm. apply memcmp_eq; assumption.
    + apply Hall. lia.
Qed.

Lemma proper_ret {A} (a : A) : proper (ret a).
Proof. intros d. reflexivity. Qed.

Lemma proper_fail {A} e : e <> DC_STATUS_SUCCESS -> proper (@fail A e).
Proof. intros H d. exact H. Qed.

Lemma proper_undefined {A} : proper (@undefined A).
Proof. intros d. exact I. Qed.

Lemma proper_cutoff {A} : proper (@cutoff A).
Proof. intros d. exact I. Qed.

Lemma proper_bind {A B} (m : M A) (k : A -> M B) :
  proper m -> (forall a, proper (k a)) -> proper (bind m k).
Proof.
  intros Hm Hk d. unfold bind. specialize (Hm d).
  destruct (m d) as [a d1 | e d1 | |]; try exact Hm; try exact I.
  specialize (Hk a d1). destruct (k a d1); try exact Hk; try exact I.
  congruence.
Qed.

Lemma proper_sleep ms : proper (dc_iostream_sleep ms).
Proof. intros d. reflexivity. Qed.

Lemma proper_write data : proper (dc_iostream_write data).
Proof. intros d. reflexivity. Qed.

Lemma proper_read n : proper (dc_iostream_read n).
Proof.
  intros d. unfold dc_iostream_read.
  destruct (n <=? len (rx (iostream d))); [reflexivity | discriminate].
Qed.

Lemma proper_emit e : proper (device_event_emit e).
Proof. intros d. reflexivity. Qed.

Ltac proper_step :=
  match goal with
  | |- proper (ret _) => apply proper_ret
  | |- proper (fail _) => apply proper_fail; discriminate
  | |- proper undefined => apply proper_undefined
  | |- proper cutoff => apply proper_cutoff
  | |- proper (dc_iostream_sleep _) => apply proper_sleep
  | |- proper (dc_iostream_write _) => apply proper_write
  | |- proper (dc_iostream_read _) => apply proper_read
  | |- proper (device_event_emit _) => apply proper_emit
  | |- proper (bind _ _) => apply proper_bind; [|intros ?]
  | |- proper (if ?c then _ else _) => destruct c
  | |- proper (match ?x with _ => _ end) => destruct x
  | |- proper (let _ := _ in _) => cbv zeta
  end.

Lemma proper_send cmd data : proper (cressi_goa_device_send cmd data).
Proof. unfold cressi_goa_device_send. repeat proper_step. Qed.

Lemma proper_receive out : proper (cressi_goa_device_receive out).
Proof. unfold cressi_goa_device_receive. repeat proper_step. Qed.

Lemma proper_download_loop fuel :
  forall initial skip size nbytes buffer progress,
    proper (download_loop fuel initial skip size nbytes buffer progress).
Proof.
  induction fuel as [|fuel IH]; intros; cbn [download_loop];
    repeat proper_step; apply IH.
Qed.

Lemma proper_download buffer progress :
  proper (cressi_goa_device_download buffer progress).
Proof.
  intros d. unfold cressi_goa_device_download.
  apply (proper_bind (download_loop _ _ _ _ _ _ _)).
  - apply proper_download_loop.
  - intros [b p]. repeat proper_step.
Qed.

Lemma proper_transfer cmd input output buffer progress :
  proper (cressi_goa_device_transfer cmd input output buffer progress).
Proof.
  unfold cressi_goa_device_transfer.
  apply proper_bind; [apply proper_send|]. intros _.
  apply proper_bind; [apply proper_receive|]. intros out.
  destruct buffer as [b|]; [|apply proper_ret].
  apply proper_bind; [apply proper_download|].
  intros [b' p']. apply proper_ret.
Qed.

Lemma proper_read_id emit conf : proper (cressi_goa_read_id emit conf).
Proof.
  unfold cressi_goa_read_id.
  apply proper_bind; [apply proper_transfer|]. intros [[id b] p].
  repeat proper_step.
Qed.

Lemma take_drop_app n k a b :
  0 <= n -> 0 <= k -> k + n <= len a ->
  take n (drop k (a ++ b)) = take n (drop k a).
Proof.
  intros Hn Hk Hl. unfold take, drop, len in *.
  rewrite skipn_app, firstn_app.
  replace (Z.to_nat n - length (skipn (Z.to_nat k) a))%nat with O
    by (rewrite length_skipn; lia).
  cbn [firstn]. apply app_nil_r.
Qed.

Lemma drop_drop a b l : 0 <= a -> 0 <= b -> drop a (drop b l) = drop (b + a) l.
Proof.
  intros Ha Hb. unfold drop. rewrite skipn_skipn. f_equal. lia.
Qed.

Lemma foreach_dives_no_callback (U : Type) conf lb :
  forall n offset progress (u : U) calls d st u' calls' d',
    foreach_dives n conf lb None offset progress u calls d
    = Done (st, u', calls') d' ->
    calls' = calls.
Proof.
  induction n as [|n IH]; intros offset progress u calls d st u' calls' d' H;
    cbn [foreach_dives] in H.
  - unfold ret in H. injection H as _ _ <- _. reflexivity.
  - destruct (region lb _ 2); try discriminate.
    unfold handle in H.
    destruct (cressi_goa_device_transfer _ _ _ _ _ d)
      as [[[o dive] p'] d1 | e d1 | |]; try discriminate.
    + destruct (foreach_verify _ _ _ _) as [[|]|]; try discriminate.
      * destruct (region lb _ _); try discriminate.
        eapply IH. exact H.
      * unfold ret in H. injection H as _ _ <- _. reflexivity.
    + injection H as _ _ <- _. reflexivity.
Qed.

Lemma foreach_dives_spec (U : Type) conf lb (cb : option (dc_dive_callback_t U)) :
  conf_wf conf ->
  len lb < 4294967296 ->
  forall n i progress u calls d st u' calls' d',
    (forall k, Z.of_nat i < k <= Z.of_nat (i + n) -> scanned conf lb k) ->
    foreach_dives n conf lb cb (entry_offset conf lb (Z.of_nat i))
                  progress u calls d
    = Done (st, u', calls') d' ->
    exists m new,
      (m <= n)%nat
      /\ calls' = calls ++ new
      /\ Forall2 (call_of_entry conf lb) (seq (S i) m) new
      /\ (st = DC_STATUS_SUCCESS -> never_stops cb -> m = n).
Proof.
  intros (Hel & Hfpo & Hfpe) Hlb. unfold FP_SIZE in Hfpe.
  induction n as [|n IH]; intros i progress u calls d st u' calls' d' Hsc Hrun.
  - cbn [foreach_dives] in Hrun. unfold ret in Hrun.
    injection Hrun as <- <- <- <-.
    exists O, []. rewrite app_nil_r. repeat split; auto.
  - destruct cb as [f|].
    2:{ apply foreach_dives_no_callback in Hrun. subst calls'.
        exists O, []. rewrite app_nil_r.
        split; [lia|]. split; [reflexivity|]. split; [constructor|].
        intros _ (g & Hg & _). discriminate. }
    cbn [foreach_dives] in Hrun.
    assert (Hs : scanned conf lb (Z.of_nat (S i))) by (apply Hsc; lia).
    destruct Hs as [_ Hpos].
    assert (Hnext : entry_offset conf lb (Z.of_nat (S i))
                    = entry_offset conf lb (Z.of_nat i) - logbook_entry_len conf)
      by (unfold entry_offset; lia).
    rewrite <- Hnext in Hrun.
    set (off := entry_offset conf lb (Z.of_nat (S i))) in *.
    assert (Hend : off + logbook_entry_len conf <= len lb).
    { subst off. unfold entry_offset.
      pose proof (Z.mul_nonneg_nonneg (Z.of_nat i) (logbook_entry_len conf)).
      lia. }
    rewrite uint_small in Hrun by lia.
    rewrite region_ok in Hrun by lia.
    unfold handle in Hrun.
    pose proof (proper_transfer CMD_DIVE (take 2 (drop off lb)) None (Some [])
                  (Some progress) d) as Hproper.
    destruct (cressi_goa_device_transfer _ _ _ _ _ d)
      as [[[o dive] p'] d1 | e d1 | |]; try discriminate.
    2:{ injection Hrun as <- <- <- <-.
        exists O, []. rewrite app_nil_r.
        split; [lia|]. split; [reflexivity|]. split; [constructor|].
        intros He. contradiction. }
    clear Hproper.
    destruct (foreach_verify conf lb off _) as [[|]|]; try discriminate.
    2:{ unfold ret in Hrun. injection Hrun as <- <- <- <-.
        exists O, []. rewrite app_nil_r.
        split; [lia|]. split; [reflexivity|]. split; [constructor|].
        discriminate. }
    rewrite region_ok in Hrun by lia.
    set (dive0 := match dive with Some b => b | None => [] end) in *.
    set (entry := take (logbook_entry_len conf) (drop off lb)) in *.
    set (prog := match p' with Some p => p | None => progress end) in *.
    assert (Hrec : dc_buffer_insert
                     (dc_buffer_insert dive0 0
                        [0xdc; 0xdc; version conf; logbook_entry_len conf])
                     4 entry
                   = [0xdc; 0xdc; version conf; logbook_entry_len conf]
                     ++ entry ++ dive0) by reflexivity.
    rewrite Hrec in Hrun. clear Hrec.
    set (record := [0xdc; 0xdc; version conf; logbook_entry_len conf]
                   ++ entry ++ dive0) in *.
    assert (Hshift : forall j, Z.of_nat (S i) < j <= Z.of_nat (S i + n) ->
                               scanned conf lb j)
      by (intros j Hj; apply Hsc; lia).
    destruct (region record _ _) as [fp|] eqn:Hfp; try discriminate.
    assert (Hlen_entry : len entry = logbook_entry_len conf).
    { subst entry. rewrite len_take; [reflexivity|].
      rewrite len_drop by lia. lia. }
    assert (Hfpv : fp = entry_fingerprint conf lb (Z.of_nat (S i))).
    { assert (Hreg : region record (4 + logbook_fp_offset conf) FP_SIZE
                     = Some (take FP_SIZE
                               (drop (4 + logbook_fp_offset conf) record))).
      { apply region_ok; unfold FP_SIZE; try lia.
        subst record. rewrite !len_app, Hlen_entry.
        change (len [220; 220; version conf; logbook_entry_len conf]) with 4.
        pose proof (len_nonneg dive0). lia. }
      assert (Hfp' : take FP_SIZE (drop (4 + logbook_fp_offset conf) record) = fp)
        by congruence.
      rewrite <- Hfp'. clear Hfp Hreg Hfp'. subst record.
      change ([220; 220; version conf; logbook_entry_len conf] ++ entry ++ dive0)
        with (220 :: 220 :: version conf :: logbook_entry_len conf
                :: entry ++ dive0).
      unfold FP_SIZE. rewrite 4!drop_cons by lia.
      replace (4 + logbook_fp_offset conf - 1 - 1 - 1 - 1)
        with (logbook_fp_offset conf) by lia.
      rewrite take_drop_app by lia.
      subst entry. rewrite take_drop_take by lia.
      rewrite drop_drop by lia. reflexivity. }
    assert (Hcall : call_of_entry conf lb (S i) (record, fp)).
    { split; [reflexivity|]. split; [|exact Hfpv].
      cbn [fst]. subst record. cbn [app].
      change (drop 4 (?a :: ?b :: ?c :: ?e :: ?l)) with l.
      rewrite take_app_exact by exact Hlen_entry. reflexivity. }
    destruct (f record fp u) as [continue u2] eqn:Hf.
    destruct continue; cbn [negb] in Hrun.
    + apply IH in Hrun; [|exact Hshift].
      destruct Hrun as (m & new & Hm & Hcalls & Hall & Hdone).
      exists (S m), ((record, fp) :: new).
      split; [lia|]. split; [rewrite Hcalls, <- app_assoc; reflexivity|].
      split; [cbn [seq]; constructor; assumption|].
      intros Hst Hns. f_equal. apply Hdone; assumption.
    + unfold ret in Hrun. injection Hrun as <- <- <- <-.
      exists 1%nat, [(record, fp)].
      split; [lia|]. split; [reflexivity|].
      split; [cbn [seq]; constructor; [assumption | constructor]|].
      intros _ (g & Hg & Hcont). injection Hg as <-.
      specialize (Hcont record fp u). rewrite Hf in Hcont. discriminate.
Qed.


Lemma read_id_shape emit d conf d' :
  cressi_goa_read_id emit None d = Done (Some conf) d' ->
  (logbook_entry_len conf = 23 /\ logbook_fp_offset conf = 0x11)
  \/ (logbook_entry_len conf = 15 /\ logbook_fp_offset conf = 3).
Proof.
  unfold cressi_goa_read_id, bind.
  destruct (cressi_goa_device_transfer _ _ _ _ _ d)
    as [[[id b] p] d1 | | |]; try discriminate.
  unfold version_conf. cbn [find idlen].
  destruct (_ =? 9).
  - cbv zeta. destruct (cressi_goa_irda_api_version _) as [v|]; try discriminate.
    destruct (v =? -1); try discriminate.
    destruct emit; cbn; intros H; injection H as <- _; left; split; reflexivity.
  - destruct (_ =? 11); [|discriminate].
    cbv zeta. destruct (cressi_goa_irda_api_version _) as [v|]; try discriminate.
    destruct (v =? -1); try discriminate.
    destruct emit; cbn; intros H; injection H as <- _; right; split; reflexivity.
Qed.

Lemma foreach_logbook_conf d conf lb pr d1 :
  foreach_logbook d = Done (conf, lb, pr) d1 ->
  conf_wf conf /\ fingerprint d1 = fingerprint d.
Proof.
  intros H. split.
  - unfold foreach_logbook in H. unfold bind at 1 in H.
    cbn [device_event_emit] in H. unfold bind at 1 in H.
    destruct (cressi_goa_read_id false None _) as [[c|] d2 | | |] eqn:Hid;
      try discriminate.
    apply read_id_shape in Hid.
    unfold bind in H.
    destruct (cressi_goa_device_transfer _ _ _ _ _ d2)
      as [[[o b] p] d3 | | |]; try discriminate.
    unfold ret in H. injection H as <- _ _ _.
    unfold conf_wf, FP_SIZE. destruct Hid as [[-> ->] | [-> ->]]; lia.
  - assert (Hp : proper foreach_logbook).
    { unfold foreach_logbook. cbv zeta.
      apply proper_bind; [apply proper_emit|]. intros _.
      apply proper_bind; [apply proper_read_id|]. intros [c|];
        [|apply proper_undefined].
      apply proper_bind; [apply proper_transfer|]. intros [[o b] p].
      apply proper_ret. }
    specialize (Hp d). rewrite H in Hp. exact Hp.
Qed.

(** C1 (amended): on the logbook table that [cressi_goa_device_foreach]
    downloaded, the backward scan counts the entries [1 .. c] from the end
    of the table, all of them non-empty and with a fingerprint that is not
    the stored one, and the entry [c + 1], when it starts past the first
    byte of the table, is empty or carries the stored fingerprint.  An
    entry whose fingerprint is the stored one therefore lies beyond [c],
    and the callback is handed exactly the entries [1 .. m] for some
    [m <= c], in this order: that entry and the entries before it are
    never passed.  Every entry that is preceded, from the end of the
    table, only by non-empty entries with another fingerprint is counted,
    and all counted entries are passed when the enumeration returns
    success and the callback never asks to stop. *)
Theorem foreach_incremental_sync
    (U : Type) (callback : option (dc_dive_callback_t U)) (userdata : U)
    (d : cressi_goa_device_t)
    (conf : cressi_goa_irda_api_conf) (lb : list Z)
    (pr : dc_event_progress_t) (d1 : cressi_goa_device_t) :
  foreach_logbook d = Done (conf, lb, pr) d1 ->
  len lb < 4294967296 ->
  len (fingerprint d) = FP_SIZE ->
  exists c,
    0 <= c
    /\ (forall k, 1 <= k <= c -> pending conf lb (fingerprint d) k)
    /\ (scanned conf lb (c + 1) ->
        entry_number conf lb (c + 1) = 0
        \/ entry_fingerprint conf lb (c + 1) = fingerprint d)
    /\ (forall j, 1 <= j ->
                  entry_fingerprint conf lb j = fingerprint d -> c < j)
    /\ (forall k, (forall j, 1 <= j <= k -> pending conf lb (fingerprint d) j) ->
                  k <= c)
    /\ (forall st u' calls d',
           cressi_goa_device_foreach callback userdata d
           = Done (st, u', calls) d' ->
           exists m,
             Z.of_nat m <= c
             /\ Forall2 (call_of_entry conf lb) (seq 1 m) calls
             /\ (st = DC_STATUS_SUCCESS -> never_stops callback ->
                 Z.of_nat m = c)).
Proof.
  intros Hlog Hlb Hfp.
  destruct (foreach_logbook_conf d conf lb pr d1 Hlog) as [Hwf Hfp1].
  assert (Hfp1' : len (fingerprint d1) = FP_SIZE) by (rewrite Hfp1; exact Hfp).
  destruct (foreach_count_spec conf lb d1 Hwf Hlb Hfp1' (length lb) 0)
    as (c & Hc & H0c & Hall & Hstop).
  { lia. }
  { unfold entry_offset, len. lia. }
  rewrite Hfp1 in Hall, Hstop.
  exists c. split; [exact H0c|].
  split; [intros k Hk; apply Hall; lia|].
  split.
  { intros Hs.
    destruct (Z.eq_dec (entry_number conf lb (c + 1)) 0) as [E | N];
      [left; exact E|].
    destruct (list_eq_dec Z.eq_dec (entry_fingerprint conf lb (c + 1))
                          (fingerprint d)) as [E | N'];
      [right; exact E|].
    exfalso. apply Hstop. split; [exact Hs|]. split; assumption. }
  split.
  { intros j Hj Hmatch.
    destruct (Z.lt_ge_cases c j) as [Hlt | Hge]; [exact Hlt|].
    destruct (Hall j) as (_ & _ & Hne); [lia|]. contradiction. }
  split.
  { intros k Hk.
    destruct (Z.le_gt_cases k c) as [Hle | Hgt]; [exact Hle|].
    exfalso. apply Hstop. apply Hk. lia. }
  intros st u' calls d' Hrun.
  unfold cressi_goa_device_foreach, handle in Hrun.
  rewrite Hlog in Hrun. unfold bind at 1 in Hrun.
  replace (uint (len lb)) with (entry_offset conf lb 0) in Hrun
    by (unfold entry_offset; rewrite uint_small; [lia|]; pose proof (len_nonneg lb); lia).
  rewrite Hc in Hrun.
  unfold bind, device_event_emit in Hrun.
  replace (len lb) with (entry_offset conf lb (Z.of_nat 0)) in Hrun
    by (unfold entry_offset; lia).
  apply foreach_dives_spec in Hrun; [|exact Hwf|exact Hlb|].
  - destruct Hrun as (m & new & Hm & Hcalls & Hf2 & Hdone).
    cbn [app] in Hcalls. subst new.
    exists m. split; [lia|]. split; [exact Hf2|].
    intros Hst Hns. rewrite (Hdone Hst Hns). lia.
  - intros k Hk. destruct (Hall k) as [Hs _]; [lia|]. exact Hs.
Qed.

Lemma foreach_incremental_sync_witness :
  exists conf lb pr d1,
    foreach_logbook (sample_device sample_dive) = Done (conf, lb, pr) d1
    /\ len lb < 4294967296
    /\ len (fingerprint (sample_device sample_dive)) = FP_SIZE
    /\ exists c,
         0 <= c
         /\ forall st u' calls d',
              cressi_goa_device_foreach sample_callback tt
                                        (sample_device sample_dive)
              = Done (st, u', calls) d' ->
              exists m,
                Z.of_nat m <= c
                /\ Forall2 (call_of_entry conf lb) (seq 1 m) calls
                /\ (st = DC_STATUS_SUCCESS -> never_stops sample_callback ->
                    Z.of_nat m = c).
Proof.
  destruct (foreach_logbook (sample_device sample_dive))
    as [[[conf lb] pr] d1 | | |] eqn:Hlog;
    [| vm_compute in Hlog; discriminate ..].
  assert (Hlb : lb = sample_logbook)
    by (vm_compute in Hlog; injection Hlog as _ <- _ _; reflexivity).
  exists conf, lb, pr, d1.
  assert (Hlen : len lb < 4294967296) by (rewrite Hlb; vm_compute; reflexivity).
  assert (Hfp : len (fingerprint (sample_device sample_dive)) = FP_SIZE)
    by reflexivity.
  split; [reflexivity|]. split; [exact Hlen|]. split; [exact Hfp|].
  destruct (foreach_incremental_sync unit sample_callback tt
              (sample_device sample_dive) conf lb pr d1 Hlog Hlen Hfp)
    as (c & Hc & _ & _ & _ & _ & Hcalls).
  exists c. split; [exact Hc | exact Hcalls].
Defined.

(** C1 as stated fails: with the all-zero stored fingerprint and no
    non-empty entry carrying an all-zero fingerprint, the enumeration of
    the sample logbook succeeds and hands over dive 3 only; dive 1, a
    non-empty entry that starts past the first byte of the table, lies
    behind an unused slot and is never passed to the callback. *)
Lemma foreach_stops_at_empty_slot :
  let conf := mk_conf 4 11 15 3 CMD_LOGBOOK_V4 in
  let zero := [0; 0; 0; 0; 0; 0] in
  exists pr d1 calls d',
    fingerprint (sample_device sample_dive) = zero
    /\ foreach_logbook (sample_device sample_dive)
       = Done (conf, sample_logbook, pr) d1
    /\ (forall k, 1 <= k <= 4 ->
                  entry_number conf sample_logbook k <> 0 ->
                  entry_fingerprint conf sample_logbook k <> zero)
    /\ cressi_goa_device_foreach sample_callback tt (sample_device sample_dive)
       = Done (DC_STATUS_SUCCESS, tt, calls) d'
    /\ entry_number conf sample_logbook 3 <> 0
    /\ 0 < entry_offset conf sample_logbook 3
    /\ ~ (exists call, In call calls /\ call_of_entry conf sample_logbook 3 call).
Proof.
  intros conf zero. do 4 eexists.
  split; [reflexivity|].
  split; [vm_compute; reflexivity|].
  split.
  { intros k Hk.
    assert (Hcases : k = 1 \/ k = 2 \/ k = 3 \/ k = 4) by lia.
    destruct Hcases as [-> | [-> | [-> | ->]]]; vm_compute;
      intros Hn Hz; try discriminate; apply Hn; reflexivity. }
  split; [vm_compute; reflexivity|].
  split; [vm_compute; discriminate|].
  split; [vm_compute; reflexivity|].
  intros (call & Hin & (_ & _ & Hfp)).
  destruct Hin as [<- | []]. vm_compute in Hfp. discriminate.
Qed.

(** ** Consistency of logbook entry and dive *)

Lemma between_entry lb offset el a b :
  0 <= offset -> 0 <= a <= b -> b <= el ->
  bytes_between (take el (drop offset lb)) a b
  = take (b - a) (drop (offset + a) lb).
Proof.
  intros Ho Ha Hb. unfold bytes_between.
  rewrite take_drop_take by lia. rewrite drop_drop by lia. reflexivity.
Qed.

Lemma len_region p off n r : region p off n = Some r -> len r = n.
Proof.
  unfold region. destruct (Z.leb_spec 0 off); [|discriminate].
  destruct (Z.leb_spec 0 n); [|discriminate].
  destruct (Z.leb_spec (off + n) (len p)); [|discriminate].
  cbn [andb]. intros Hr. injection Hr as <-.
  rewrite len_take; [reflexivity|]. rewrite len_drop by lia. lia.
Qed.

Lemma memcmp_eqb a b :
  len a = len b -> (memcmp a b =? 0) = true <-> a = b.
Proof.
  intros H. rewrite Z.eqb_eq. apply memcmp_eq. unfold len in H. lia.
Qed.

Lemma uint16_le_inj a b :
  bytes_ok a = true -> bytes_ok b = true -> len a = 2 -> len b = 2 ->
  array_uint16_le a = array_uint16_le b <-> a = b.
Proof.
  intros Ha Hb La Lb.
  destruct a as [|a0 [|a1 [|]]];
    try (exfalso; unfold len in La; cbn [length] in La; lia).
  destruct b as [|b0 [|b1 [|]]];
    try (exfalso; unfold len in Lb; cbn [length] in Lb; lia).
  pose proof (is_byte_range _ (nth_is_byte _ 0 Ha)) as A0.
  pose proof (is_byte_range _ (nth_is_byte _ 1 Ha)) as A1.
  pose proof (is_byte_range _ (nth_is_byte _ 0 Hb)) as B0.
  pose proof (is_byte_range _ (nth_is_byte _ 1 Hb)) as B1.
  cbn [nth] in *. unfold array_uint16_le. cbn [nth].
  rewrite !lor_shiftl_8 by lia.
  split; [intros H | intros H; injection H as -> ->; reflexivity].
  assert (a0 = b0) by lia. assert (a1 = b1) by lia. subst. reflexivity.
Qed.

(** [foreach_verify] for the API versions 0 to 3, on an entry that lies
    in the logbook. *)
Lemma verify_legacy conf lb offset dive :
  version conf <> 4 ->
  0 <= offset -> offset + SZ_HEADER <= len lb ->
  let entry := take SZ_HEADER (drop offset lb) in
  foreach_verify conf lb offset dive
  = Some ((SZ_HEADER - 5 <=? len dive)
          && (memcmp (bytes_between dive 0 2) (bytes_between entry 0 2) =? 0)
          && (memcmp (bytes_between dive 2 (SZ_HEADER - 5))
                     (bytes_between entry 7 SZ_HEADER) =? 0)).
Proof.
  intros Hv Ho Hl entry. unfold foreach_verify, SZ_HEADER in *.
  destruct (Z.eqb_spec (version conf) 4) as [E | _]; [contradiction|].
  cbn [negb].
  change (23 - 5) with 18. change (23 - 7) with 16.
  destruct (Z.ltb_spec (len dive) 18) as [Hshort | Hlong].
  { destruct (Z.leb_spec 18 (len dive)); [lia | reflexivity]. }
  destruct (Z.leb_spec 18 (len dive)); [|lia]. cbn [andb].
  rewrite !region_ok by lia.
  subst entry. rewrite !between_entry by lia.
  unfold bytes_between.
  change (2 - 0) with 2. change (18 - 2) with 16. change (23 - 7) with 16.
  destruct (memcmp (take 2 (drop 0 dive)) (take 2 (drop (offset + 0) lb)) =? 0);
    [|reflexivity].
  cbn [negb andb].
  destruct (memcmp _ _ =? 0); reflexivity.
Qed.

(** [foreach_verify] for the API version 4, on an entry that lies in the
    logbook and a dive of at least 15 bytes. *)
Lemma verify_v4 conf lb offset dive :
  version conf = 4 ->
  0 <= offset -> offset + 15 <= len lb ->
  15 <= len dive ->
  let entry := take 15 (drop offset lb) in
  foreach_verify conf lb offset dive
  = Some ((array_uint16_le (bytes_between dive 0 2)
           =? array_uint16_le (bytes_between entry 0 2))
          && (memcmp (bytes_between dive 4 10) (bytes_between entry 3 9) =? 0)).
Proof.
  intros Hv Ho Hl Hd entry. unfold foreach_verify.
  rewrite Hv. cbn [Z.eqb Pos.eqb negb].
  rewrite !region_ok by lia.
  subst entry. rewrite !between_entry by lia.
  unfold bytes_between.
  change (2 - 0) with 2. change (10 - 4) with 6. change (9 - 3) with 6.
  replace (offset + 0) with offset by lia.
  destruct (_ =? _); [|reflexivity]. cbn [negb andb].
  destruct (memcmp _ _ =? 0); cbn [negb]; [|reflexivity].
  unfold index.
  destruct (Z.leb_spec 0 14); [|lia].
  destruct (Z.ltb_spec 14 (Z.of_nat (length dive))); [|unfold len in Hd; lia].
  cbn [andb].
  destruct (nth_error dive (Z.to_nat 14)) eqn:Hn; [reflexivity|].
  apply nth_error_None in Hn. unfold len in Hd. lia.
Qed.

Lemma len_between p a b :
  0 <= a <= b -> b <= len p -> len (bytes_between p a b) = b - a.
Proof.
  intros Ha Hb. unfold bytes_between.
  rewrite len_take; [reflexivity|]. rewrite len_drop by lia. lia.
Qed.

Lemma bytes_ok_between p a b :
  bytes_ok p = true -> bytes_ok (bytes_between p a b) = true.
Proof. intros H. unfold bytes_between. apply bytes_ok_take, bytes_ok_drop, H. Qed.

Lemma len_entry lb offset el :
  0 <= offset -> 0 <= el -> offset + el <= len lb ->
  len (take el (drop offset lb)) = el.
Proof.
  intros Ho He Hl. rewrite len_take; [reflexivity|].
  rewrite len_drop by lia. lia.
Qed.

(** C5: on the API version 4 path the comparison of the start date is
    made without a test of the size of the dive, so a mismatch there does
    not always end in [DC_STATUS_DATAFORMAT].  A dive of 9 bytes whose
    number and first five date bytes are those of the logbook entry lacks
    byte 9 of the range [[4, 10)]; the comparison of the six date bytes
    reads that byte outside the 9 bytes of the dive, and the enumeration
    runs into that read instead of returning [DC_STATUS_DATAFORMAT].  On
    the path of the versions 0 to 3 a dive cut to 9 bytes is rejected by
    the size test: the enumeration returns [DC_STATUS_DATAFORMAT] and
    hands nothing to the callback. *)
Theorem foreach_v4_truncated_dive_not_rejected :
  let conf := mk_conf 4 11 15 3 CMD_LOGBOOK_V4 in
  let truncated := [3; 0; 9; 9; 31; 32; 33; 34; 35] in
  len truncated = 9
  /\ region truncated 0 2 = region sample_logbook 45 2
  /\ region truncated 4 5 = region sample_logbook (45 + 3) 5
  /\ region truncated 4 6 = None
  /\ foreach_verify conf sample_logbook 45 truncated = None
  /\ cressi_goa_device_foreach sample_callback tt (sample_device truncated)
     = Undefined
  /\ foreach_verify (mk_conf 0 9 23 0x11 0x21) legacy_logbook 23
                    (take 9 legacy_dive)
     = Some false
  /\ exists d',
       cressi_goa_device_foreach sample_callback tt
         (session_device legacy_id legacy_logbook (take 9 legacy_dive))
       = Done (DC_STATUS_DATAFORMAT, tt, []) d'.
Proof.
  intros conf truncated.
  split; [reflexivity|]. split; [reflexivity|]. split; [reflexivity|].
  split; [reflexivity|]. split; [reflexivity|].
  split; [vm_compute; reflexivity|].
  split; [reflexivity|].
  eexists. vm_compute. reflexivity.
Qed.

(** C9: on the API version 4 path there is no test of the size of the
    dive.  A dive of 4 bytes whose number matches the logbook entry
    reaches the comparison of the start date, which reads the bytes 4 to
    9 of the dive, outside its 4 bytes, and the enumeration runs into
    that read; on the path of the versions 0 to 3 a dive that short is
    rejected by the size test before any comparison. *)
Theorem foreach_v4_short_dive_out_of_bounds :
  let conf := mk_conf 4 11 15 3 CMD_LOGBOOK_V4 in
  let short := [3; 0; 9; 9] in
  region short 0 2 = Some [3; 0]
  /\ region short 4 6 = None
  /\ foreach_verify conf sample_logbook 45 short = None
  /\ cressi_goa_device_foreach sample_callback tt (sample_device short)
     = Undefined
  /\ foreach_verify (mk_conf 0 9 23 0x11 0x21) legacy_logbook 23 [5; 0; 60; 61]
     = Some false.
Proof.
  intros conf short.
  split; [reflexivity|]. split; [reflexivity|]. split; [reflexivity|].
  split; [vm_compute; reflexivity | reflexivity].
Qed.

(** ** The fuel of the model is never exhausted *)

Lemma total_bind {A B} (m : M A) (k : A -> M B) :
  total m -> (forall a, total (k a)) -> total (bind m k).
Proof.
  intros Hm Hk d. unfold bind. specialize (Hm d).
  destruct (m d) as [a d1 | e d1 | |]; try discriminate; [apply Hk | contradiction].
Qed.

Lemma total_read n : total (dc_iostream_read n).
Proof.
  intros d. unfold dc_iostream_read.
  destruct (n <=? len (rx (iostream d))); discriminate.
Qed.

Ltac total_step :=
  match goal with
  | |- total (ret _) => intros ?; discriminate
  | |- total (fail _) => intros ?; discriminate
  | |- total undefined => intros ?; discriminate
  | |- total (dc_iostream_sleep _) => intros ?; discriminate
  | |- total (dc_iostream_write _) => intros ?; discriminate
  | |- total (device_event_emit _) => intros ?; discriminate
  | |- total (dc_iostream_read _) => apply total_read
  | |- total (bind _ _) => apply total_bind; [|intros ?]
  | |- total (if ?c then _ else _) => destruct c
  | |- total (match ?x with _ => _ end) => destruct x
  | |- total (let _ := _ in _) => cbv zeta
  end.

Lemma total_transfer cmd input output buffer progress :
  total (cressi_goa_device_transfer cmd input output buffer progress).
Proof.
  unfold cressi_goa_device_transfer.
  apply total_bind;
    [unfold cressi_goa_device_send; repeat total_step|]. intros _.
  apply total_bind;
    [unfold cressi_goa_device_receive; repeat total_step|]. intros out.
  destruct buffer as [b|]; [|total_step].
  apply total_bind; [intros d; apply download_total|].
  intros [b' p']. total_step.
Qed.

Lemma total_foreach_logbook : total foreach_logbook.
Proof.
  unfold foreach_logbook. cbv zeta.
  apply total_bind; [total_step|]. intros _.
  apply total_bind.
  - unfold cressi_goa_read_id.
    apply total_bind; [apply total_transfer|]. intros [[id b] p].
    repeat total_step.
  - intros [c|]; [|total_step].
    apply total_bind; [apply total_transfer|]. intros [[o b] p]. total_step.
Qed.

Lemma total_foreach_count conf lb :
  1 <= logbook_entry_len conf ->
  forall fuel count offset,
    0 <= offset <= Z.of_nat fuel -> offset < 4294967296 ->
    total (foreach_count fuel conf lb count offset).
Proof.
  intros Hel. induction fuel as [|fuel IH]; intros count offset Hoff Hmax d;
    cbn [foreach_count].
  - destruct (Z.gtb_spec offset (logbook_entry_len conf)); [lia | discriminate].
  - destruct (Z.gtb_spec offset (logbook_entry_len conf)); [|discriminate].
    rewrite uint_small by lia.
    destruct (region lb _ 2); [|discriminate].
    destruct (_ =? 0); [discriminate|].
    destruct (region lb _ _); [|discriminate].
    destruct (_ =? 0); [discriminate|].
    apply IH; lia.
Qed.

Lemma total_foreach_dives (U : Type) conf lb (cb : option (dc_dive_callback_t U)) :
  forall n offset progress u calls,
    total (foreach_dives n conf lb cb offset progress u calls).
Proof.
  induction n as [|n IH]; intros offset progress u calls d;
    cbn [foreach_dives]; [discriminate|].
  destruct (region lb _ 2); [|discriminate].
  unfold handle.
  pose proof (total_transfer CMD_DIVE l None (Some []) (Some progress) d) as Ht.
  destruct (cressi_goa_device_transfer _ _ _ _ _ d)
    as [[[o dive] p'] d1 | e d1 | |]; try discriminate; [|contradiction].
  destruct (foreach_verify _ _ _ _) as [[|]|]; try discriminate.
  destruct (region lb _ _); [|discriminate].
  destruct cb as [f|]; [|apply IH].
  destruct (region _ _ _); [|discriminate].
  destruct (f _ _ u) as [[|] u2]; cbn [negb]; [apply IH | discriminate].
Qed.

(** The enumeration never ends in [Cutoff]: its loops run within the
    fuel the model gives them. *)
Lemma foreach_total (U : Type) (cb : option (dc_dive_callback_t U)) (u : U) :
  total (cressi_goa_device_foreach cb u).
Proof.
  intros d. unfold cressi_goa_device_foreach, handle.
  pose proof (total_foreach_logbook d) as Hl.
  destruct (foreach_logbook d) as [[[conf lb] pr] d1 | e d1 | |] eqn:Hlog;
    try discriminate; [|contradiction].
  destruct (foreach_logbook_conf d conf lb pr d1 Hlog) as [(Hel & _) _].
  apply total_bind.
  - apply total_foreach_count; [lia | |].
    + unfold uint, len.
      pose proof (Z.mod_pos_bound (Z.of_nat (length lb)) 4294967296 ltac:(lia)).
      pose proof (Z.mod_le (Z.of_nat (length lb)) 4294967296 ltac:(lia) ltac:(lia)).
      lia.
    + unfold uint. apply Z.mod_pos_bound. lia.
  - intros count. apply total_bind; [total_step|]. intros _.
    apply total_foreach_dives.
Qed.

(** * Further properties *)

(** ** Bulk transfer on the packets of a device *)

Lemma bulk_packet_eq b :
  (length b <= 512)%nat ->
  exists body,
    bulk_packet b = [0; 0; 0] ++ body ++ le16 (checksum_crc16_ccitt body 0 0)
    /\ len body = 512
    /\ take (len b) body = b.
Proof.
  intros Hb. exists (b ++ repeat 0 (512 - length b)).
  split; [reflexivity|]. split.
  - unfold len. rewrite length_app, repeat_length. lia.
  - apply take_app_exact. reflexivity.
Qed.

Lemma len_bulk_packet b : (length b <= 512)%nat -> len (bulk_packet b) = 517.
Proof.
  intros Hb. destruct (bulk_packet_eq b Hb) as (body & -> & Hlen & _).
  rewrite !len_app, Hlen. reflexivity.
Qed.

Lemma le16_decode c rest :
  0 <= c < 65536 -> array_uint16_le (le16 c ++ rest) = c.
Proof. intros Hc. apply (uint16_le_bytes c rest Hc). Qed.

Lemma bulk_blocks_cons fuel r :
  r <> [] ->
  bulk_blocks (S fuel) r = firstn 512 r :: bulk_blocks fuel (skipn 512 r).
Proof. intros H. destruct r; [contradiction | reflexivity]. Qed.

(** A packet built by the device passes the checksum test of the loop. *)
Lemma bulk_packet_checksum b :
  (length b <= 512)%nat ->
  array_uint16_le (drop 515 (bulk_packet b))
  = checksum_crc16_ccitt (take 512 (drop 3 (bulk_packet b))) 0 0.
Proof.
  intros Hb. destruct (bulk_packet_eq b Hb) as (body & -> & Hlen & _).
  change (drop 3 ([0; 0; 0] ++ ?l)) with l.
  rewrite take_app_exact by exact Hlen.
  replace ([0; 0; 0] ++ body ++ le16 (checksum_crc16_ccitt body 0 0))
    with (([0; 0; 0] ++ body) ++ le16 (checksum_crc16_ccitt body 0 0))
    by (rewrite <- app_assoc; reflexivity).
  rewrite drop_app_exact by (rewrite len_app, Hlen; reflexivity).
  rewrite <- (app_nil_r (le16 _)).
  apply le16_decode, checksum_crc16_ccitt_range.
Qed.

Lemma bulk_packet_payload b :
  (length b <= 512)%nat ->
  take (len b) (drop 3 (bulk_packet b)) = b.
Proof.
  intros Hb. destruct (bulk_packet_eq b Hb) as (body & -> & Hlen & Htake).
  change (drop 3 ([0; 0; 0] ++ ?l)) with l.
  rewrite <- Htake at 2.
  apply (take_drop_app (len b) 0 body); try lia.
  - apply len_nonneg.
  - unfold len in *. lia.
Qed.

Lemma length_firstn_512 (r : list Z) : (length (firstn 512 r) <= 512)%nat.
Proof. rewrite length_firstn. lia. Qed.

(** The loop of [cressi_goa_device_download], after the first packet, on
    the packets of what is left to receive. *)
Lemma download_loop_packets f : forall r g initial total buffer progress d tail,
  (length r <= f)%nat ->
  (length (bulk_blocks f r) <= g)%nat ->
  0 < total - len r -> total < 4294967296 - 512 ->
  rx (iostream d) = concat (map bulk_packet (bulk_blocks f r)) ++ tail ->
  exists progress' d',
    download_loop g initial 0 total (total - len r) buffer progress d
    = Done (buffer ++ r, progress') d'
    /\ rx (iostream d') = tail
    /\ ops (iostream d')
       = ops (iostream d)
         ++ repeat (Write [ACK]) (length (bulk_blocks f r)).
Proof.
  induction f as [|f IH]; intros r g initial total buffer progress d tail
    Hf Hg Hnb Htot Hrx.
  - destruct r; [|cbn in Hf; lia]. cbn [bulk_blocks map concat app length repeat] in *.
    exists progress, d. rewrite !app_nil_r.
    replace (total - len []) with total by (unfold len; cbn; lia).
    destruct g; cbn [download_loop]; rewrite Z.ltb_irrefl; auto.
  - destruct r as [|x r0].
    { cbn [bulk_blocks map concat app length repeat] in *.
      exists progress, d. rewrite !app_nil_r.
      replace (total - len []) with total by (unfold len; cbn; lia).
      destruct g; cbn [download_loop]; rewrite Z.ltb_irrefl; auto. }
    set (r := x :: r0) in *.
    assert (Hne : r <> []) by discriminate.
    rewrite (bulk_blocks_cons f r Hne) in *.
    set (b := firstn 512 r) in *. set (r' := skipn 512 r) in *.
    assert (Hb : (length b <= 512)%nat) by apply length_firstn_512.
    assert (Hbr : b ++ r' = r) by apply firstn_skipn.
    assert (Hlb : 0 < len b).
    { unfold len. subst b. rewrite length_firstn. subst r. cbn [length]. lia. }
    assert (Hlr : len r = len b + len r') by (rewrite <- Hbr, len_app; reflexivity).
    assert (Hmin : len b = Z.min 512 (len r)).
    { unfold len. subst b. rewrite length_firstn. lia. }
    cbn [map concat length] in Hrx, Hg. rewrite <- app_assoc in Hrx.
    destruct g as [|g]; [lia|].
    pose proof (len_bulk_packet b Hb) as Hlp.
    pose proof (len_nonneg r') as Hr'.
    rewrite download_loop_step;
      [| lia | rewrite Hrx, len_app, Hlp;
               pose proof (len_nonneg (concat (map bulk_packet (bulk_blocks f r')) ++ tail));
               lia].
    cbv zeta.
    rewrite Hrx. rewrite take_app_exact by exact Hlp.
    rewrite bulk_packet_checksum by exact Hb. rewrite Z.eqb_refl. cbn [negb].
    destruct (Z.eqb_spec (total - len r) 0) as [E | _]; [lia|].
    rewrite (uint_small (total - (total - len r))) by lia.
    replace (if total - (total - len r) >? SZ_DATA then SZ_DATA
             else total - (total - len r)) with (len b)
      by (unfold SZ_DATA; destruct (Z.gtb_spec (total - (total - len r)) 512); lia).
    rewrite (uint_small (len b - 0)) by lia.
    rewrite region_ok by (rewrite ?Hlp; lia).
    replace (len b - 0) with (len b) by lia.
    change (3 + 0) with 3.
    rewrite bulk_packet_payload by exact Hb.
    rewrite (uint_small (total - len r + len b)) by lia.
    replace (total - len r + len b) with (total - len r') by lia.
    assert (Hnext : forall evs p,
      exists progress' d',
        download_loop g initial 0 total (total - len r') (buffer ++ b) p
                      (after_chunk d evs)
        = Done (buffer ++ r, progress') d'
        /\ rx (iostream d') = tail
        /\ ops (iostream d')
           = ops (iostream d)
             ++ repeat (Write [ACK]) (S (length (bulk_blocks f r')))).
    { intros evs p.
      destruct (IH r' g initial total (buffer ++ b) p (after_chunk d evs) tail)
        as (p2 & d2 & Hrun & Hrx2 & Hops2).
      - subst r'. rewrite length_skipn. subst r. cbn [length] in *. lia.
      - lia.
      - lia.
      - lia.
      - cbn [after_chunk iostream rx]. rewrite Hrx.
        apply drop_app_exact. exact Hlp.
      - exists p2, d2. split; [|split].
        + rewrite Hrun, <- app_assoc, Hbr. reflexivity.
        + exact Hrx2.
        + rewrite Hops2. cbn [after_chunk iostream ops repeat].
          rewrite <- app_assoc. reflexivity. }
    destruct progress as [p|]; apply Hnext.
Qed.

Lemma bulk_packet_first_size c x :
  0 <= c < 65536 ->
  array_uint16_le (drop 3 (bulk_packet (le16 c ++ x))) = c.
Proof.
  intros Hc. unfold bulk_packet. cbv zeta.
  change (drop 3 ([0; 0; 0] ++ ?l)) with l.
  rewrite <- !app_assoc. apply le16_decode, Hc.
Qed.

Lemma bulk_packet_first_payload c x :
  take (len x) (drop 5 (bulk_packet (le16 c ++ x))) = x.
Proof.
  unfold bulk_packet. cbv zeta.
  change (drop 5 ([0; 0; 0] ++ ((le16 c ++ x) ++ ?p) ++ ?q))
    with ((x ++ p) ++ q).
  rewrite <- app_assoc. apply take_app_exact. reflexivity.
Qed.

(** The whole loop of [cressi_goa_device_download] on the packets that
    carry [data]. *)
Lemma download_loop_data data g initial progress d tail :
  len data < 65536 ->
  let full := le16 (len data) ++ data in
  (length (bulk_blocks (length full) full) <= g)%nat ->
  rx (iostream d) = bulk_packets full ++ tail ->
  exists progress' d',
    download_loop g initial 2 2 0 [] progress d = Done (data, progress') d'
    /\ rx (iostream d') = tail
    /\ ops (iostream d')
       = ops (iostream d)
         ++ repeat (Write [ACK]) (length (bulk_blocks (length full) full)).
Proof.
  intros Hsz full Hg Hrx.
  pose proof (len_nonneg data) as Hd0.
  unfold bulk_packets in Hrx.
  assert (Hlen_full : length full = S (S (length data))) by reflexivity.
  rewrite Hlen_full in *.
  assert (Hne : full <> []) by discriminate.
  rewrite (bulk_blocks_cons (S (length data)) full Hne) in *.
  set (x := firstn 510 data).
  assert (Hb : firstn 512 full = le16 (len data) ++ x) by reflexivity.
  assert (Hr' : skipn 512 full = skipn 510 data) by reflexivity.
  rewrite Hb, Hr' in *.
  set (b := le16 (len data) ++ x) in *. set (r' := skipn 510 data) in *.
  assert (Hxr : x ++ r' = data) by apply firstn_skipn.
  assert (Hlenb : len b = 2 + len x) by (subst b; rewrite len_app; reflexivity).
  assert (Hlx : 0 <= len x <= 510).
  { unfold len. subst x. rewrite length_firstn. lia. }
  assert (Hbl : (length b <= 512)%nat) by (unfold len in *; lia).
  assert (Hld : len data = len x + len r') by (rewrite <- Hxr, len_app; reflexivity).
  assert (Hmin : len b = Z.min 512 (2 + len data)).
  { rewrite Hlenb. unfold len. subst x. rewrite length_firstn. lia. }
  cbn [map concat length] in Hrx, Hg. rewrite <- app_assoc in Hrx.
  destruct g as [|g]; [lia|].
  pose proof (len_bulk_packet b Hbl) as Hlp.
  pose proof (len_nonneg r') as Hr0.
  rewrite download_loop_step;
    [| lia | rewrite Hrx, len_app, Hlp;
             pose proof (len_nonneg (concat (map bulk_packet
                            (bulk_blocks (S (length data)) r')) ++ tail));
             lia].
  cbv zeta.
  rewrite Hrx. rewrite take_app_exact by exact Hlp.
  rewrite bulk_packet_checksum by exact Hbl. rewrite Z.eqb_refl.
  cbn [negb Z.eqb].
  subst b. rewrite bulk_packet_first_size by lia.
  set (b := le16 (len data) ++ x) in *.
  rewrite (uint_small (2 + len data)) by lia.
  rewrite (uint_small (2 + len data - 0)) by lia.
  replace (if 2 + len data - 0 >? SZ_DATA then SZ_DATA else 2 + len data - 0)
    with (len b)
    by (unfold SZ_DATA; destruct (Z.gtb_spec (2 + len data - 0) 512); lia).
  rewrite (uint_small (len b - 2)) by lia.
  rewrite region_ok by (rewrite ?Hlp; lia).
  replace (len b - 2) with (len x) by lia.
  change (3 + 2) with 5.
  subst b. rewrite bulk_packet_first_payload.
  set (b := le16 (len data) ++ x) in *.
  rewrite (uint_small (0 + len b)) by lia.
  replace (0 + len b) with (2 + len data - len r') by lia.
  cbn [app dc_buffer_append].
  assert (Hnext : forall evs p,
    exists progress' d',
      download_loop g initial 0 (2 + len data) (2 + len data - len r') x p
                    (after_chunk d evs)
      = Done (data, progress') d'
      /\ rx (iostream d') = tail
      /\ ops (iostream d')
         = ops (iostream d)
           ++ repeat (Write [ACK])
                (S (length (bulk_blocks (S (length data)) r')))).
  { intros evs p.
    destruct (download_loop_packets (S (length data)) r' g initial
                (2 + len data) x p (after_chunk d evs) tail)
      as (p2 & d2 & Hrun & Hrx2 & Hops2).
    - subst r'. rewrite length_skipn. lia.
    - lia.
    - lia.
    - lia.
    - cbn [after_chunk iostream rx]. rewrite Hrx.
      apply drop_app_exact. exact Hlp.
    - exists p2, d2. split; [|split].
      + rewrite Hrun, Hxr. reflexivity.
      + exact Hrx2.
      + rewrite Hops2. cbn [after_chunk iostream ops repeat].
        rewrite <- app_assoc. reflexivity. }
  destruct progress as [p|]; apply Hnext.
Qed.

Lemma length_bulk_packets_ge (blocks : list (list Z)) :
  (length blocks <= length (concat (map bulk_packet blocks)))%nat.
Proof.
  induction blocks as [|b blocks IH]; [reflexivity|].
  cbn [map concat length]. rewrite length_app.
  unfold bulk_packet at 1. cbv zeta. rewrite length_app. cbn [length]. lia.
Qed.

(** [cressi_goa_device_download] on the packets that carry [data],
    followed by the byte [e]. *)
Lemma download_packets data e tail buffer progress d :
  len data < 65536 ->
  let full := le16 (len data) ++ data in
  let n := length (bulk_blocks (length full) full) in
  rx (iostream d) = bulk_packets full ++ e :: tail ->
  exists progress' d',
    cressi_goa_device_download buffer progress d
    = (if e =? END then Done (data, progress') d'
       else Fail DC_STATUS_PROTOCOL d')
    /\ rx (iostream d') = tail
    /\ ops (iostream d')
       = ops (iostream d) ++ repeat (Write [ACK]) n
         ++ (if e =? END then [Write [ACK]] else [])
    /\ fingerprint d' = fingerprint d.
Proof.
  intros Hsz full n Hrx.
  unfold cressi_goa_device_download. unfold bind at 1.
  destruct (download_loop_data data (S (length (rx (iostream d))))
              (match progress with Some p => current p | None => 0 end)
              progress d (e :: tail) Hsz) as (p1 & d1 & Hloop & Hrx1 & Hops1).
  { fold full. rewrite Hrx, length_app. unfold bulk_packets.
    pose proof (length_bulk_packets_ge (bulk_blocks (length full) full)). lia. }
  { exact Hrx. }
  pose proof (proper_download_loop (S (length (rx (iostream d))))
                (match progress with Some p => current p | None => 0 end)
                2 2 0 [] progress d) as Hfp.
  rewrite Hloop in *. cbv beta iota in Hfp.
  unfold bind at 1.
  rewrite read_ok by (rewrite Hrx1; unfold len; cbn [length]; lia).
  rewrite Hrx1. change (take 1 (e :: tail)) with [e].
  change (drop 1 (e :: tail)) with tail. cbn [nth].
  destruct (e =? END); cbn [negb].
  - exists p1. eexists. split; [reflexivity|].
    cbn [with_rx iostream rx ops fingerprint].
    split; [reflexivity|]. split; [|exact Hfp].
    rewrite Hops1. fold full n. rewrite <- app_assoc. reflexivity.
  - exists p1. eexists. split; [reflexivity|].
    cbn [with_rx iostream rx ops fingerprint].
    split; [reflexivity|]. split; [|exact Hfp].
    rewrite Hops1. fold full n. rewrite app_nil_r. reflexivity.
Qed.

(** X1: round trip of the bulk transfer.  When the stream holds the
    packets in which a device sends [data] (fewer than 65536 bytes: its
    16-bit size, then the data, in checksummed packets of 512 bytes,
    then the end byte), [cressi_goa_device_download] succeeds, returns
    exactly [data] whatever the buffer held before, and leaves what
    follows the end byte in the stream. *)
Theorem download_bulk_stream_round_trip
    (data tail buffer : list Z) (progress : option dc_event_progress_t)
    (d : cressi_goa_device_t) :
  len data < 65536 ->
  rx (iostream d) = bulk_stream data ++ tail ->
  exists progress' d',
    cressi_goa_device_download buffer progress d = Done (data, progress') d'
    /\ rx (iostream d') = tail
    /\ fingerprint d' = fingerprint d.
Proof.
  intros Hsz Hrx.
  destruct (download_packets data END tail buffer progress d Hsz)
    as (p' & d' & Hrun & Hrx' & _ & Hfp).
  { rewrite Hrx. unfold bulk_stream, bulk_packets. cbv zeta.
    rewrite <- app_assoc. reflexivity. }
  rewrite Z.eqb_refl in Hrun. exists p', d'. auto.
Qed.

(** X2: when the packets of a bulk transfer are followed by a byte that
    is not the end byte 0x04, [cressi_goa_device_download] fails with
    [DC_STATUS_PROTOCOL]; every packet was acknowledged, the wrong end
    byte is consumed and not acknowledged. *)
Theorem download_wrong_end_byte
    (data tail buffer : list Z) (e : Z) (progress : option dc_event_progress_t)
    (d : cressi_goa_device_t) :
  len data < 65536 ->
  e <> END ->
  let full := le16 (len data) ++ data in
  rx (iostream d) = bulk_packets full ++ e :: tail ->
  exists d',
    cressi_goa_device_download buffer progress d = Fail DC_STATUS_PROTOCOL d'
    /\ rx (iostream d') = tail
    /\ ops (iostream d')
       = ops (iostream d)
         ++ repeat (Write [ACK]) (length (bulk_blocks (length full) full)).
Proof.
  intros Hsz He full Hrx.
  destruct (download_packets data e tail buffer progress d Hsz Hrx)
    as (p' & d' & Hrun & Hrx' & Hops & _).
  destruct (Z.eqb_spec e END) as [E | _]; [contradiction|].
  exists d'. rewrite app_nil_r in Hops. auto.
Qed.

Lemma transfer_bulk
    (cmd c : Z) (input payload data tail : list Z) (out : option (list Z))
    (buffer : list Z) (progress : option dc_event_progress_t)
    (d : cressi_goa_device_t) :
  len input <= SZ_PACKET ->
  len payload <= SZ_PACKET ->
  len data < 65536 ->
  rx (iostream d) = send_packet c payload ++ bulk_stream data ++ tail ->
  exists progress' d',
    cressi_goa_device_transfer cmd input out (Some buffer) progress d
    = Done (option_map (fun _ => payload) out, Some data, progress') d'
    /\ rx (iostream d') = tail
    /\ fingerprint d' = fingerprint d.
Proof.
  intros Hin Hpl Hsz Hrx.
  unfold cressi_goa_device_transfer, bind.
  rewrite send_ok by exact Hin.
  rewrite (receive_send_packet c payload (bulk_stream data ++ tail))
    by assumption.
  destruct (download_packets data END tail buffer progress
              (with_rx
                 (mk_device (base d)
                    (mk_iostream (rx (iostream d))
                       (ops (iostream d)
                        ++ [Sleep 100; Write (send_packet cmd input)]))
                    (fingerprint d))
                 (bulk_stream data ++ tail)) Hsz)
    as (p' & d' & Hrun & Hrx' & _ & Hfp).
  { unfold bulk_stream, bulk_packets. cbv zeta. cbn [with_rx iostream rx].
    rewrite <- app_assoc. reflexivity. }
  rewrite Z.eqb_refl in Hrun.
  rewrite Hrun. exists p', d'. auto.
Qed.

(** X5: [cressi_goa_device_transfer] with a bulk buffer composes the
    framed exchange and the bulk transfer: when the device answers with a
    packet carrying [payload] followed by the packets of [data], the
    transfer returns [payload] in the answer buffer (when there is one)
    and [data] in the bulk buffer, and consumes exactly these bytes. *)
Theorem transfer_answer_and_bulk
    (cmd c : Z) (input payload data tail : list Z) (out : option (list Z))
    (buffer : list Z) (progress : option dc_event_progress_t)
    (d : cressi_goa_device_t) :
  len input <= SZ_PACKET ->
  len payload <= SZ_PACKET ->
  len data < 65536 ->
  rx (iostream d) = send_packet c payload ++ bulk_stream data ++ tail ->
  exists progress' d',
    cressi_goa_device_transfer cmd input out (Some buffer) progress d
    = Done (option_map (fun _ => payload) out, Some data, progress') d'
    /\ rx (iostream d') = tail
    /\ fingerprint d' = fingerprint d.
Proof. apply transfer_bulk. Qed.

Lemma loop_account_shift {A : Type} d evs (r : result A) :
  517 <= len (rx (iostream d)) ->
  loop_account (after_chunk d evs) r -> loop_account d r.
Proof.
  intros Hav. pose proof (len_nonneg (rx (iostream d))) as H0.
  destruct r as [a d' | e d' | |]; cbn [loop_account]; auto;
    cbn [after_chunk iostream rx ops].
  - intros (k & Hops & Hrx & Hle). exists (S k).
    rewrite len_drop in Hle by lia.
    split; [rewrite Hops, <- app_assoc; reflexivity|].
    split; [rewrite Hrx, drop_drop by lia; f_equal; lia | lia].
  - intros (k & Hops & Hcase). exists (S k).
    split; [rewrite Hops, <- app_assoc; reflexivity|].
    rewrite len_drop in Hcase by lia.
    destruct Hcase as [(He & Hrx & Hle) | (He & Hrx & Hlt)]; [left | right].
    + split; [exact He|].
      split; [rewrite Hrx, drop_drop by lia; f_equal; lia | lia].
    + split; [exact He|]. split; [exact Hrx | lia].
Qed.

Lemma download_loop_account fuel :
  forall initial skip size nbytes buffer progress d,
    loop_account d
      (download_loop fuel initial skip size nbytes buffer progress d).
Proof.
  induction fuel as [|fuel IH]; intros initial skip size nbytes buffer progress d.
  - cbn [download_loop]. destruct (nbytes <? size); cbn; auto.
    exists O. rewrite app_nil_r. change (517 * Z.of_nat 0) with 0.
    pose proof (len_nonneg (rx (iostream d))). repeat split; auto.
  - destruct (Z.ltb_spec nbytes size) as [Hlt | Hge].
    2:{ cbn [download_loop]. destruct (Z.ltb_spec nbytes size); [lia|].
        cbn. exists O. rewrite app_nil_r. change (517 * Z.of_nat 0) with 0.
        pose proof (len_nonneg (rx (iostream d))). repeat split; auto. }
    destruct (Z.le_gt_cases 517 (len (rx (iostream d)))) as [Hav | Hshort].
    2:{ cbn [download_loop]. destruct (Z.ltb_spec nbytes size); [|lia].
        unfold bind at 1. change (3 + SZ_DATA + 2) with 517.
        rewrite read_short by lia. cbn [loop_account iostream rx ops].
        exists O. rewrite app_nil_r. split; [reflexivity|]. right.
        repeat split; auto; lia. }
    rewrite download_loop_step by assumption. cbv zeta.
    destruct (negb _).
    { cbn [loop_account with_rx iostream rx ops].
      exists O. rewrite app_nil_r. split; [reflexivity|]. left.
      repeat split; auto. }
    destruct (region _ _ _) as [payload|]; [|exact I].
    destruct progress as [p|]; eapply loop_account_shift; try exact Hav;
      apply IH.
Qed.

(** X3: whenever [cressi_goa_device_download] fails with
    [DC_STATUS_PROTOCOL], what it wrote is one acknowledgement byte for
    each of the [k] packets it accepted and nothing else, and what it
    consumed is these [k] packets and the input it rejected, a whole
    packet (bad checksum) or one byte (bad end byte): rejected input is
    never acknowledged. *)
Theorem download_never_acknowledges_rejected_input
    (buffer : list Z) (progress : option dc_event_progress_t)
    (d d' : cressi_goa_device_t) :
  cressi_goa_device_download buffer progress d = Fail DC_STATUS_PROTOCOL d' ->
  exists k : nat,
    ops (iostream d') = ops (iostream d) ++ repeat (Write [ACK]) k
    /\ (rx (iostream d') = drop (517 * Z.of_nat k + 517) (rx (iostream d))
        \/ rx (iostream d') = drop (517 * Z.of_nat k + 1) (rx (iostream d))).
Proof.
  intros Hrun. unfold cressi_goa_device_download in Hrun.
  unfold bind at 1 in Hrun.
  pose proof (download_loop_account (S (length (rx (iostream d))))
                (match progress with Some p => current p | None => 0 end)
                2 2 0 [] progress d) as Hacc.
  destruct (download_loop _ _ _ _ _ _ _ d) as [[out1 pr1] d1 | e d1 | |];
    try discriminate; cbn [loop_account] in Hacc.
  - destruct Hacc as (k & Hops & Hrx & Hle).
    unfold bind at 1 in Hrun. unfold dc_iostream_read in Hrun.
    destruct (Z.leb_spec 1 (len (rx (iostream d1)))); [|discriminate].
    cbn [iostream rx ops base fingerprint] in Hrun.
    destruct (negb _) in Hrun.
    + injection Hrun as <-. cbn [iostream rx ops]. exists k.
      split; [exact Hops|]. right. rewrite Hrx, drop_drop by lia. reflexivity.
    + unfold bind, dc_iostream_write, ret in Hrun. discriminate.
  - injection Hrun as -> <-.
    destruct Hacc as (k & Hops & [(_ & Hrx & _) | (He & _)]); [|discriminate].
    exists k. split; [exact Hops|]. left. rewrite Hrx. f_equal. lia.
Qed.

Lemma STEP_full total :
  0 < total < 65538 -> STEP total total = NSTEPS.
Proof.
  intros H. unfold STEP, NSTEPS. rewrite uint_small by lia.
  apply Z.div_mul. lia.
Qed.

(** The progress after the loop of [cressi_goa_device_download], from the
    second packet on. *)
Lemma download_loop_progress fuel :
  forall initial total nbytes buffer p d out progress' d',
    0 < nbytes <= total -> total < 65538 ->
    download_loop fuel initial 0 total nbytes buffer (Some p) d
    = Done (out, progress') d' ->
    (nbytes = total /\ progress' = Some p /\ events (base d') = events (base d))
    \/ (nbytes < total
        /\ progress'
           = Some (mk_progress (uint (initial + NSTEPS)) (maximum p))
        /\ exists evs,
             events (base d')
             = events (base d) ++ evs
               ++ [DC_EVENT_PROGRESS
                     (mk_progress (uint (initial + NSTEPS)) (maximum p))]).
Proof.
  induction fuel as [|fuel IH]; intros initial total nbytes buffer p d out
    progress' d' Hnb Htot Hrun.
  - cbn [download_loop] in Hrun.
    destruct (Z.ltb_spec nbytes total); [discriminate|].
    unfold ret in Hrun. injection Hrun as _ <- <-. left.
    repeat split; auto. lia.
  - destruct (Z.ltb_spec nbytes total) as [Hlt | Hge].
    2:{ cbn [download_loop] in Hrun.
        destruct (Z.ltb_spec nbytes total); [lia|].
        unfold ret in Hrun. injection Hrun as _ <- <-. left.
        repeat split; auto. lia. }
    right. split; [exact Hlt|].
    destruct (Z.le_gt_cases 517 (len (rx (iostream d)))) as [Hav | Hshort].
    2:{ destruct (download_loop_short fuel initial 0 total nbytes buffer
                    (Some p) d Hlt) as [dx Hx]; [lia|].
        rewrite Hx in Hrun. discriminate. }
    rewrite download_loop_step in Hrun by assumption. cbv zeta in Hrun.
    destruct (negb _) in Hrun; [discriminate|].
    destruct (Z.eqb_spec nbytes 0) as [E0 | _]; [lia|].
    rewrite (uint_small (total - nbytes)) in Hrun by lia.
    set (contribution :=
           if total - nbytes >? SZ_DATA then SZ_DATA else total - nbytes) in *.
    assert (Hc : 0 < contribution <= total - nbytes).
    { subst contribution. unfold SZ_DATA.
      destruct (Z.gtb_spec (total - nbytes) 512); lia. }
    destruct (region _ _ _) as [payload|] in Hrun; [|discriminate].
    rewrite (uint_small (nbytes + contribution)) in Hrun by lia.
    apply IH in Hrun; [|lia|lia].
    cbn [after_chunk base events maximum] in Hrun.
    destruct Hrun as [(Hend & Hp & Hev) | (Hmore & Hp & evs & Hev)].
    + rewrite Hend, STEP_full in Hp by lia. rewrite Hend, STEP_full in Hev by lia.
      split; [exact Hp|]. exists []. exact Hev.
    + split; [exact Hp|].
      eexists (_ :: evs). rewrite Hev, <- app_assoc. reflexivity.
Qed.

(** X4: a successful [cressi_goa_device_download] with a progress record
    leaves its maximum as it was and its current value exactly [NSTEPS]
    above the value at entry, and the last event it emitted is the
    progress event with these values. *)
Theorem download_progress_advances_by_nsteps
    (buffer : list Z) (p : dc_event_progress_t) (d : cressi_goa_device_t)
    (out : list Z) (progress' : option dc_event_progress_t)
    (d' : cressi_goa_device_t) :
  bytes_ok (rx (iostream d)) = true ->
  cressi_goa_device_download buffer (Some p) d = Done (out, progress') d' ->
  let final := mk_progress (uint (current p + NSTEPS)) (maximum p) in
  progress' = Some final
  /\ exists evs,
       events (base d') = events (base d) ++ evs ++ [DC_EVENT_PROGRESS final].
Proof.
  intros Hbytes Hrun final.
  assert (HE : 0 <= array_uint16_le (drop 3 (rx (iostream d))) < 65536)
    by (apply uint16_le_range, bytes_ok_drop, Hbytes).
  unfold cressi_goa_device_download in Hrun. unfold bind at 1 in Hrun.
  destruct (download_loop _ _ _ _ _ _ _ d) as [[out1 pr1] d1| | |] eqn:Hloop;
    try discriminate.
  assert (Hloop' : pr1 = Some final
                   /\ exists evs,
                        events (base d1)
                        = events (base d) ++ evs ++ [DC_EVENT_PROGRESS final]).
  { destruct (Z.le_gt_cases 517 (len (rx (iostream d)))) as [Hav | Hshort].
    2:{ destruct (download_loop_short (length (rx (iostream d))) (current p)
                    2 2 0 [] (Some p) d) as [dx Hx]; [lia|lia|].
        rewrite Hx in Hloop. discriminate. }
    rewrite download_loop_step in Hloop by lia. cbv zeta in Hloop.
    destruct (negb _) in Hloop; [discriminate|].
    cbn [Z.eqb] in Hloop.
    rewrite (uint16_le_drop_take 3 517) in Hloop by lia.
    set (E := array_uint16_le (drop 3 (rx (iostream d)))) in *.
    rewrite (uint_small (2 + E)) in Hloop by lia.
    rewrite (uint_small (2 + E - 0)) in Hloop by lia.
    set (contribution :=
           if 2 + E - 0 >? SZ_DATA then SZ_DATA else 2 + E - 0) in *.
    assert (Hc : 2 <= contribution <= 2 + E).
    { subst contribution. unfold SZ_DATA.
      destruct (Z.gtb_spec (2 + E - 0) 512); lia. }
    destruct (region _ _ _) as [payload|] in Hloop; [|discriminate].
    rewrite (uint_small (0 + contribution)) in Hloop by lia.
    apply download_loop_progress in Hloop; [|lia|lia].
    cbn [after_chunk base events maximum] in Hloop.
    destruct Hloop as [(Hend & Hp & Hev) | (Hmore & Hp & evs & Hev)].
    - rewrite Hend, STEP_full in Hp by lia.
      rewrite Hend, STEP_full in Hev by lia.
      split; [exact Hp|]. exists []. exact Hev.
    - split; [exact Hp|].
      eexists (_ :: evs). rewrite Hev, <- app_assoc. reflexivity. }
  destruct Hloop' as (-> & evs & Hev).
  unfold bind at 1 in Hrun. unfold dc_iostream_read in Hrun.
  destruct (1 <=? len (rx (iostream d1))); [|discriminate].
  destruct (negb _) in Hrun; [discriminate|].
  unfold bind, dc_iostream_write, ret in Hrun.
  cbn [iostream rx ops base fingerprint] in Hrun.
  injection Hrun as _ <- <-. cbn [base].
  split; [reflexivity|]. exists evs. exact Hev.
Qed.

(** ** Version negotiation *)

Lemma firmware_version_range fw v :
  firmware_version fw = Some v -> 0 <= v <= 4.
Proof.
  unfold firmware_version.
  repeat match goal with
         | |- context [if ?c then _ else _] => destruct c
         end; intros H; inversion H; lia.
Qed.

Lemma api_version_unfold m fw s :
  cressi_goa_irda_api_version (mk_devinfo m fw s) =
  if m >? 11 then Some (-1)
  else match firmware_version fw with
       | None => Some (-1)
       | Some v =>
           match index version_support_on_model v with
           | None => None
           | Some row =>
               match index row (uint (m - 1)) with
               | None => None
               | Some supported => if negb supported then Some (-1) else Some v
               end
           end
       end.
Proof. reflexivity. Qed.

Lemma api_version_result m fw s v :
  cressi_goa_irda_api_version (mk_devinfo m fw s) = Some v ->
  v = -1 \/ (firmware_version fw = Some v /\ 0 <= v <= 4).
Proof.
  rewrite api_version_unfold.
  destruct (m >? 11); [intros H; inversion H; auto|].
  destruct (firmware_version fw) as [w|] eqn:Hfw; [|intros H; inversion H; auto].
  destruct (index version_support_on_model w) as [row|]; [|discriminate].
  destruct (index row (uint (m - 1))) as [[|]|]; try discriminate;
    cbn [negb]; intros H; inversion H; subst; auto.
  right. split; [reflexivity|]. eapply firmware_version_range; eassumption.
Qed.

(** X8: [cressi_goa_irda_api_version] returns a version other than -1
    exactly when the firmware lies in one of the recognised ranges, which
    fixes the version, and the model is one the matrix supports for that
    version: models 1 and 2 always, every model from 1 to 11 for version
    3, model 9 for version 2, and models 4, 5, 9 and 10 for version 4. *)
Theorem api_version_accepts_exactly_supported (m fw s v : Z) :
  0 <= m < 4294967296 ->
  v <> -1 ->
  cressi_goa_irda_api_version (mk_devinfo m fw s) = Some v
  <-> firmware_version fw = Some v /\ supported m v.
Proof.
  intros Hm Hv. split.
  - intros Hrun.
    destruct (api_version_result m fw s v Hrun) as [E | (Hfw & Hrange)];
      [contradiction|].
    rewrite api_version_unfold in Hrun.
    destruct (Z.gtb_spec m 11) as [Hbig | Hsmall];
      [inversion Hrun; subst; contradiction|].
    rewrite Hfw in Hrun.
    assert (Hm0 : m <> 0).
    { intros ->. change (uint (0 - 1)) with 4294967295 in Hrun.
      destruct (index version_support_on_model v) as [row|] eqn:Hrow;
        [|discriminate].
      assert (Hv5 : v = 0 \/ v = 1 \/ v = 2 \/ v = 3 \/ v = 4) by lia.
      destruct Hv5 as [-> | [-> | [-> | [-> | ->]]]];
        vm_compute in Hrow; inversion Hrow; subst; vm_compute in Hrun;
        discriminate. }
    split; [exact Hfw|]. unfold supported. split; [lia|].
    assert (Hm11 : m = 1 \/ m = 2 \/ m = 3 \/ m = 4 \/ m = 5 \/ m = 6 \/ m = 7
                   \/ m = 8 \/ m = 9 \/ m = 10 \/ m = 11) by lia.
    assert (Hv5 : v = 0 \/ v = 1 \/ v = 2 \/ v = 3 \/ v = 4) by lia.
    destruct Hv5 as [-> | [-> | [-> | [-> | ->]]]];
      repeat (destruct Hm11 as [-> | Hm11]); try subst m;
      vm_compute in Hrun; try discriminate; lia.
  - intros (Hfw & (Hm11 & Hs)).
    pose proof (firmware_version_range fw v Hfw) as Hrange.
    rewrite api_version_unfold, Hfw.
    destruct (Z.gtb_spec m 11) as [Hbig | _]; [lia|].
    assert (Hm11' : m = 1 \/ m = 2 \/ m = 3 \/ m = 4 \/ m = 5 \/ m = 6 \/ m = 7
                    \/ m = 8 \/ m = 9 \/ m = 10 \/ m = 11) by lia.
    assert (Hv5 : v = 0 \/ v = 1 \/ v = 2 \/ v = 3 \/ v = 4) by lia.
    destruct Hv5 as [-> | [-> | [-> | [-> | ->]]]];
      repeat (destruct Hm11' as [-> | Hm11']); try subst m;
      try reflexivity; exfalso; lia.
Qed.

Lemma api_version_accepts_exactly_supported_witness :
  0 <= 9 < 4294967296
  /\ 4 <> -1
  /\ (cressi_goa_irda_api_version (mk_devinfo 9 202 0) = Some 4
      <-> firmware_version 202 = Some 4 /\ supported 9 4).
Proof.
  assert (H1 : 0 <= 9 < 4294967296) by lia.
  assert (H2 : 4 <> -1) by discriminate.
  split; [exact H1|]. split; [exact H2|].
  exact (api_version_accepts_exactly_supported 9 202 0 4 H1 H2).
Defined.

(** ** Identification *)

Lemma silent_bind {A B} (m : M A) (k : A -> M B) :
  silent m -> (forall a, silent (k a)) -> silent (bind m k).
Proof.
  intros Hm Hk d. unfold bind. specialize (Hm d).
  destruct (m d) as [a d1 | e d1 | |]; try exact Hm; try exact I.
  specialize (Hk a d1). destruct (k a d1); try exact I; congruence.
Qed.

Lemma silent_read n : silent (dc_iostream_read n).
Proof.
  intros d. unfold dc_iostream_read.
  destruct (n <=? len (rx (iostream d))); reflexivity.
Qed.

Ltac silent_step :=
  match goal with
  | |- silent (ret _) => intros ?; reflexivity
  | |- silent (fail _) => intros ?; reflexivity
  | |- silent undefined => intros ?; exact I
  | |- silent (dc_iostream_sleep _) => intros ?; reflexivity
  | |- silent (dc_iostream_write _) => intros ?; reflexivity
  | |- silent (dc_iostream_read _) => apply silent_read
  | |- silent (bind _ _) => apply silent_bind; [|intros ?]
  | |- silent (if ?c then _ else _) => destruct c
  | |- silent (match ?x with _ => _ end) => destruct x
  | |- silent (let _ := _ in _) => cbv zeta
  end.

Lemma silent_transfer cmd input output progress :
  silent (cressi_goa_device_transfer cmd input output None progress).
Proof.
  unfold cressi_goa_device_transfer.
  apply silent_bind;
    [unfold cressi_goa_device_send; repeat silent_step|]. intros _.
  apply silent_bind;
    [unfold cressi_goa_device_receive; repeat silent_step|]. intros out.
  silent_step.
Qed.

(** What a run of [cressi_goa_read_id] that returns amounts to. *)
Lemma read_id_result emit conf0 d :
  match cressi_goa_read_id emit conf0 d with
  | Done c d' =>
      (c = conf0 /\ events (base d') = events (base d))
      \/ exists conf id,
           c = Some conf
           /\ len id = idlen conf
           /\ 0 <= version conf <= 4
           /\ conf_family conf
           /\ events (base d') = events (base d) ++ id_events emit id
  | Fail e d' => events (base d') = events (base d)
  | Undefined => True
  | Cutoff => True
  end.
Proof.
  unfold cressi_goa_read_id, bind.
  pose proof (silent_transfer CMD_VERSION [] (Some []) None d) as Hsil.
  destruct (cressi_goa_device_transfer _ _ _ _ _ d)
    as [[[id b] p] d1 | e d1 | |]; auto.
  set (id' := match id with Some b0 => b0 | None => [] end).
  unfold version_conf. cbn [find idlen].
  assert (Hbranch : forall conf_,
    conf_family conf_ -> len id' = idlen conf_ ->
    match
      (match
         cressi_goa_irda_api_version
           (mk_devinfo (nth 4 id' 0) (array_uint16_le (drop 5 id'))
                       (array_uint32_le (drop 0 id')))
       with
       | None => undefined
       | Some version0 =>
           if version0 =? -1 then fail DC_STATUS_UNSUPPORTED
           else
             (if emit
              then device_event_emit (DC_EVENT_VENDOR id') ;;
                   device_event_emit
                     (DC_EVENT_DEVINFO
                        (mk_devinfo (nth 4 id' 0) (array_uint16_le (drop 5 id'))
                                    (array_uint32_le (drop 0 id'))))
              else ret tt) ;;
             ret (Some (mk_conf version0 (idlen conf_)
                                (logbook_entry_len conf_)
                                (logbook_fp_offset conf_) (cmd_logbook conf_)))
       end) d1
    with
    | Done c d' =>
        (c = conf0 /\ events (base d') = events (base d))
        \/ exists conf id0,
             c = Some conf /\ len id0 = idlen conf /\ 0 <= version conf <= 4
             /\ conf_family conf
             /\ events (base d') = events (base d) ++ id_events emit id0
    | Fail e d' => events (base d') = events (base d)
    | _ => True
    end).
  { intros conf_ Hshape Hlen.
    destruct (cressi_goa_irda_api_version _) as [v|] eqn:Hv; [|exact I].
    destruct (Z.eqb_spec v (-1)) as [E | Hne]; [exact Hsil|].
    destruct (api_version_result _ _ _ _ Hv) as [E | (_ & Hr)]; [contradiction|].
    destruct emit; unfold bind, device_event_emit, ret, id_events;
      cbn [base events iostream fingerprint]; right;
      exists (mk_conf v (idlen conf_) (logbook_entry_len conf_)
                      (logbook_fp_offset conf_) (cmd_logbook conf_)), id';
      (split; [reflexivity|]); (split; [exact Hlen|]); (split; [exact Hr|]);
      (split; [exact Hshape|]).
    - rewrite Hsil, <- app_assoc. reflexivity.
    - rewrite Hsil, app_nil_r. reflexivity. }
  destruct (Z.eqb_spec (len id') 9) as [H9 | N9].
  - apply (Hbranch (mk_conf 0 9 SZ_HEADER FP_OFFSET CMD_LOGBOOK)); [|exact H9].
    left. repeat split.
  - destruct (Z.eqb_spec (len id') 11) as [H11 | N11].
    + apply (Hbranch (mk_conf 4 11 15 3 CMD_LOGBOOK_V4)); [|exact H11].
      right. repeat split.
    + left. split; [reflexivity | exact Hsil].
Qed.

(** X9: a configuration written by [cressi_goa_read_id] carries a version
    between 0 and 4 and the lengths, offset and logbook command of one of
    the two families of [version_conf]; its fingerprint slice lies inside
    a logbook entry, and the stored fingerprint is untouched. *)
Theorem read_id_configuration
    (emit : bool) (d : cressi_goa_device_t)
    (conf : cressi_goa_irda_api_conf) (d' : cressi_goa_device_t) :
  cressi_goa_read_id emit None d = Done (Some conf) d' ->
  0 <= version conf <= 4
  /\ conf_family conf
  /\ 2 <= logbook_entry_len conf
  /\ logbook_fp_offset conf + FP_SIZE <= logbook_entry_len conf
  /\ fingerprint d' = fingerprint d.
Proof.
  intros Hrun.
  pose proof (read_id_result emit None d) as Hres.
  pose proof (proper_read_id emit None d) as Hfp.
  rewrite Hrun in Hres, Hfp.
  destruct Hres as [(Hc & _) | (conf1 & id & Hc & _ & Hv & Hfam & _)];
    [discriminate|].
  injection Hc as <-.
  split; [exact Hv|]. split; [exact Hfam|].
  unfold FP_SIZE.
  destruct Hfam as [(_ & -> & -> & _) | (_ & -> & -> & _)];
    repeat split; try lia; exact Hfp.
Qed.

(** X10: [cressi_goa_read_id] emits events only for an accepted device and
    only when asked to.  A failing run and a run with [emit_events] false
    emit none.  When the device answers the version command with the
    payload [id], a run with [emit_events] true that returns success
    writes no configuration and emits nothing if the length of [id] is
    neither 9 nor 11, and otherwise writes a configuration and emits
    exactly the vendor event that carries [id], followed by the device
    information decoded from [id]: the model from offset 4, the firmware
    from offset 5 and the serial number from offset 0. *)
Theorem read_id_events
    (emit : bool) (conf0 : option cressi_goa_irda_api_conf)
    (d : cressi_goa_device_t) :
  (forall e d', cressi_goa_read_id emit conf0 d = Fail e d' ->
                events (base d') = events (base d))
  /\ (forall c d', cressi_goa_read_id false conf0 d = Done c d' ->
                   events (base d') = events (base d))
  /\ (forall cmd id rest c d',
         len id <= SZ_PACKET ->
         rx (iostream d) = send_packet cmd id ++ rest ->
         cressi_goa_read_id true conf0 d = Done c d' ->
         (len id <> 9 /\ len id <> 11 ->
          c = conf0 /\ events (base d') = events (base d))
         /\ (len id = 9 \/ len id = 11 ->
             (exists conf, c = Some conf /\ idlen conf = len id)
             /\ events (base d')
                = events (base d)
                  ++ [DC_EVENT_VENDOR id;
                      DC_EVENT_DEVINFO
                        (mk_devinfo (nth 4 id 0)
                                    (array_uint16_le (drop 5 id))
                                    (array_uint32_le id))])).
Proof.
  split; [|split].
  - intros e d' Hrun. pose proof (read_id_result emit conf0 d) as Hres.
    rewrite Hrun in Hres. exact Hres.
  - intros c d' Hrun. pose proof (read_id_result false conf0 d) as Hres.
    rewrite Hrun in Hres.
    destruct Hres as [(_ & Hev) | (conf & id & _ & _ & _ & _ & Hev)];
      [exact Hev|].
    rewrite Hev. apply app_nil_r.
  - intros cmd id rest c d' Hle Hrx Hrun.
    rewrite (read_id_answer true conf0 cmd id rest d Hle Hrx) in Hrun.
    cbv zeta in Hrun. unfold version_conf in Hrun. cbn [find idlen] in Hrun.
    change (drop 0 id) with id in Hrun.
    destruct (Z.eqb_spec (len id) 9) as [H9 | N9];
      [|destruct (Z.eqb_spec (len id) 11) as [H11 | N11]].
    + destruct (cressi_goa_irda_api_version _) as [v|]; [|discriminate].
      destruct (v =? -1); [discriminate|].
      injection Hrun as <- <-. split; [intros [N _]; contradiction|].
      intros _. split; [|reflexivity].
      eexists. split; [reflexivity|]. cbn [idlen]. symmetry. exact H9.
    + destruct (cressi_goa_irda_api_version _) as [v|]; [|discriminate].
      destruct (v =? -1); [discriminate|].
      injection Hrun as <- <-. split; [intros [_ N]; contradiction|].
      intros _. split; [|reflexivity].
      eexists. split; [reflexivity|]. cbn [idlen]. symmetry. exact H11.
    + injection Hrun as <- <-. split; [|intros [E | E]; contradiction].
      intros _. split; reflexivity.
Qed.

(** ** Enumeration *)

(** [cressi_goa_device_foreach] once the logbook is downloaded: the scan
    counts [c] entries and the download loop runs [c] times. *)
Lemma foreach_after_logbook
    (U : Type) (cb : option (dc_dive_callback_t U)) (u : U)
    d conf lb pr d1 :
  foreach_logbook d = Done (conf, lb, pr) d1 ->
  len lb < 4294967296 ->
  len (fingerprint d) = FP_SIZE ->
  exists c,
    0 <= c
    /\ (forall k, 1 <= k <= c -> pending conf lb (fingerprint d) k)
    /\ ~ pending conf lb (fingerprint d) (c + 1)
    /\ conf_wf conf
    /\ cressi_goa_device_foreach cb u d
       = foreach_dives (Z.to_nat c) conf lb cb (entry_offset conf lb 0)
           (mk_progress (current pr) (uint ((c + 1) * NSTEPS))) u []
           (with_event d1
              (DC_EVENT_PROGRESS
                 (mk_progress (current pr) (uint ((c + 1) * NSTEPS))))).
Proof.
  intros Hlog Hlb Hfp.
  destruct (foreach_logbook_conf d conf lb pr d1 Hlog) as [Hwf Hfp1].
  assert (Hfp1' : len (fingerprint d1) = FP_SIZE) by (rewrite Hfp1; exact Hfp).
  destruct (foreach_count_spec conf lb d1 Hwf Hlb Hfp1' (length lb) 0)
    as (c & Hc & H0c & Hall & Hstop).
  { lia. }
  { unfold entry_offset, len. lia. }
  rewrite Hfp1 in Hall, Hstop.
  exists c. split; [exact H0c|].
  split; [intros k Hk; apply Hall; lia|].
  split; [exact Hstop|]. split; [exact Hwf|].
  unfold cressi_goa_device_foreach, handle.
  rewrite Hlog. unfold bind at 1.
  replace (uint (len lb)) with (entry_offset conf lb 0)
    by (unfold entry_offset; rewrite uint_small; [lia|];
        pose proof (len_nonneg lb); lia).
  rewrite Hc. unfold bind, device_event_emit, with_event.
  replace (entry_offset conf lb 0) with (len lb)
    by (unfold entry_offset; lia).
  reflexivity.
Qed.

(** X11: when the downloaded logbook holds nothing to fetch (it is not
    longer than one entry, or its last entry is empty, or its last entry
    carries the stored fingerprint), [cressi_goa_device_foreach] returns
    success without calling the callback and without sending any dive
    command; it only emits the progress event with maximum [NSTEPS]. *)
Theorem foreach_nothing_new
    (U : Type) (callback : option (dc_dive_callback_t U)) (userdata : U)
    (d : cressi_goa_device_t) (conf : cressi_goa_irda_api_conf)
    (lb : list Z) (pr : dc_event_progress_t) (d1 : cressi_goa_device_t) :
  foreach_logbook d = Done (conf, lb, pr) d1 ->
  len lb < 4294967296 ->
  len (fingerprint d) = FP_SIZE ->
  len lb <= logbook_entry_len conf
  \/ entry_number conf lb 1 = 0
  \/ entry_fingerprint conf lb 1 = fingerprint d ->
  cressi_goa_device_foreach callback userdata d
  = Done (DC_STATUS_SUCCESS, userdata, [])
         (with_event d1 (DC_EVENT_PROGRESS (mk_progress (current pr) NSTEPS))).
Proof.
  intros Hlog Hlb Hfp Hnew.
  destruct (foreach_after_logbook U callback userdata d conf lb pr d1
              Hlog Hlb Hfp) as (c & H0c & Hall & _ & _ & Hrun).
  assert (Hc : c = 0).
  { destruct (Z.eq_dec c 0) as [E | N]; [exact E|]. exfalso.
    destruct (Hall 1) as ((_ & Hs) & Hn & Hf); [lia|].
    unfold entry_offset in Hs.
    destruct Hnew as [H | [H | H]]; [lia | contradiction | contradiction]. }
  subst c. rewrite Hrun. reflexivity.
Qed.

(** X12: after [cressi_goa_device_set_fingerprint] stored the 6 bytes
    that are the fingerprint of entry [j] of the logbook (counted from
    its end), an enumeration hands to the callback only entries that are
    newer than entry [j], in order from the newest. *)
Theorem set_fingerprint_then_foreach
    (U : Type) (callback : option (dc_dive_callback_t U)) (userdata : U)
    (d d0 : cressi_goa_device_t) (data : list Z)
    (conf : cressi_goa_irda_api_conf) (lb : list Z)
    (pr : dc_event_progress_t) (d1 : cressi_goa_device_t) (j : nat) :
  len data = FP_SIZE ->
  cressi_goa_device_set_fingerprint data FP_SIZE d = Done tt d0 ->
  foreach_logbook d0 = Done (conf, lb, pr) d1 ->
  len lb < 4294967296 ->
  (1 <= j)%nat ->
  entry_fingerprint conf lb (Z.of_nat j) = data ->
  forall st u' calls d',
    cressi_goa_device_foreach callback userdata d0 = Done (st, u', calls) d' ->
    exists m,
      (m < j)%nat /\ Forall2 (call_of_entry conf lb) (seq 1 m) calls.
Proof.
  intros Hlen Hset Hlog Hlb Hj Hmatch st u' calls d' Hrun.
  assert (Hfp0 : fingerprint d0 = data).
  { unfold cressi_goa_device_set_fingerprint in Hset.
    unfold FP_SIZE in Hset, Hlen.
    cbn [Z.eqb Pos.eqb negb andb] in Hset.
    rewrite region_ok in Hset by lia.
    change (drop 0 data) with data in Hset.
    rewrite take_all in Hset by exact Hlen.
    injection Hset as <-. reflexivity. }
  assert (Hfp : len (fingerprint d0) = FP_SIZE) by (rewrite Hfp0; exact Hlen).
  destruct (foreach_after_logbook U callback userdata d0 conf lb pr d1
              Hlog Hlb Hfp) as (c & H0c & Hall & _ & Hwf & Heq).
  rewrite Hfp0 in Hall.
  assert (Hcj : c < Z.of_nat j).
  { destruct (Z.lt_ge_cases c (Z.of_nat j)) as [H | H]; [exact H|].
    destruct (Hall (Z.of_nat j)) as (_ & _ & Hne); [lia|]. contradiction. }
  rewrite Heq in Hrun.
  apply (foreach_dives_spec U conf lb callback Hwf Hlb (Z.to_nat c) O) in Hrun.
  - destruct Hrun as (m & new & Hm & Hcalls & Hf2 & _).
    cbn [app] in Hcalls. subst new. exists m. split; [lia | exact Hf2].
  - intros k Hk. destruct (Hall k) as [Hs _]; [lia | exact Hs].
Qed.

(** X13: when the device answers the version command with a payload
    whose length is neither 9 nor 11, [cressi_goa_read_id] returns
    success without writing the configuration, and
    [cressi_goa_device_foreach] goes on to use that configuration, which
    was never initialised. *)
Theorem foreach_unidentified_configuration
    (U : Type) (callback : option (dc_dive_callback_t U)) (userdata : U)
    (c : Z) (id rest : list Z) (d : cressi_goa_device_t) :
  len id <= SZ_PACKET ->
  len id <> 9 ->
  len id <> 11 ->
  rx (iostream d) = send_packet c id ++ rest ->
  cressi_goa_device_foreach callback userdata d = Undefined.
Proof.
  intros Hsz H9 H11 Hrx.
  unfold cressi_goa_device_foreach, handle, foreach_logbook.
  cbv zeta. unfold bind at 1. unfold device_event_emit at 1.
  unfold bind at 1.
  rewrite (read_id_answer false None c id rest) by assumption.
  unfold version_conf. cbn [find idlen].
  destruct (Z.eqb_spec (len id) 9) as [E | _]; [contradiction|].
  destruct (Z.eqb_spec (len id) 11) as [E | _]; [contradiction|].
  reflexivity.
Qed.

(** A callback that asks to stop ends the download loop after one call. *)
Lemma foreach_dives_stop (U : Type) (f : dc_dive_callback_t U) n conf lb
      offset progress u calls0 d st u' calls d' :
  (forall data fp u0, fst (f data fp u0) = false) ->
  foreach_dives n conf lb (Some f) offset progress u calls0 d
  = Done (st, u', calls) d' ->
  calls = calls0
  \/ exists call, calls = calls0 ++ [call] /\ st = DC_STATUS_SUCCESS.
Proof.
  intros Hstop Hrun. destruct n as [|n]; cbn [foreach_dives] in Hrun.
  - unfold ret in Hrun. injection Hrun as _ _ <- _. left. reflexivity.
  - destruct (region lb _ 2); [|discriminate].
    unfold handle in Hrun.
    destruct (cressi_goa_device_transfer _ _ _ _ _ d)
      as [[[o dive] p'] dx | e dx | |]; try discriminate.
    + destruct (foreach_verify _ _ _ _) as [[|]|]; try discriminate.
      * destruct (region lb _ _); [|discriminate].
        destruct (region _ _ FP_SIZE) as [fp|]; [|discriminate].
        specialize (Hstop
          (dc_buffer_insert
             (dc_buffer_insert match dive with Some b => b | None => [] end 0
                [220; 220; version conf; logbook_entry_len conf]) 4 l0) fp u).
        destruct (f _ fp u) as [continue u2]. cbn [fst] in Hstop. subst continue.
        cbn [negb] in Hrun. unfold ret in Hrun.
        injection Hrun as <- _ <- _. right. eexists. split; reflexivity.
      * unfold ret in Hrun. injection Hrun as _ _ <- _. left. reflexivity.
    + injection Hrun as _ _ <- _. left. reflexivity.
Qed.

(** X14: when the callback asks to stop, the enumeration ends at once:
    with a callback that always stops, at most one dive is handed over,
    and the status is then success. *)
Theorem foreach_callback_stop
    (U : Type) (f : dc_dive_callback_t U) (userdata : U)
    (d : cressi_goa_device_t) st u' calls d' :
  (forall data fp u0, fst (f data fp u0) = false) ->
  cressi_goa_device_foreach (Some f) userdata d = Done (st, u', calls) d' ->
  calls = [] \/ exists call, calls = [call] /\ st = DC_STATUS_SUCCESS.
Proof.
  intros Hstop Hrun.
  unfold cressi_goa_device_foreach, handle in Hrun.
  destruct (foreach_logbook d) as [[[conf lb] pr] d1 | e d1 | |];
    try discriminate.
  - unfold bind at 1 in Hrun.
    destruct (foreach_count _ _ _ _ _ d1) as [c d2 | | |]; try discriminate.
    unfold bind, device_event_emit in Hrun.
    apply (foreach_dives_stop U f) in Hrun; [|exact Hstop].
    destruct Hrun as [-> | (call & -> & ->)]; [left; reflexivity|].
    right. exists call. split; reflexivity.
  - injection Hrun as _ _ <- _. left. reflexivity.
Qed.

Lemma foreach_dives_complete (U : Type) conf lb (f : dc_dive_callback_t U) :
  conf_wf conf ->
  len lb < 4294967296 ->
  (forall data fp u0, fst (f data fp u0) = true) ->
  forall dives i progress u calls d tail,
    (forall k, Z.of_nat i < k <= Z.of_nat (i + length dives) ->
               scanned conf lb k) ->
    dives_accepted conf lb i dives ->
    rx (iostream d) = dive_answers dives ++ tail ->
    exists u' d',
      foreach_dives (length dives) conf lb (Some f)
                    (entry_offset conf lb (Z.of_nat i)) progress u calls d
      = Done (DC_STATUS_SUCCESS, u', calls ++ dive_records conf lb i dives) d'
      /\ rx (iostream d') = tail.
Proof.
  intros (Hel & Hfpo & Hfpe) Hlb Hcont. unfold FP_SIZE in Hfpe.
  induction dives as [|dive rest IH]; intros i progress u calls d tail
    Hsc Hacc Hrx.
  - cbn [length foreach_dives dive_records]. rewrite app_nil_r.
    exists u, d. split; [reflexivity | exact Hrx].
  - cbn [length foreach_dives].
    destruct Hacc as (Hsz & Hver & Hacc).
    assert (Hs : scanned conf lb (Z.of_nat (S i)))
      by (apply Hsc; cbn [length]; lia).
    destruct Hs as [_ Hpos].
    assert (Hnext : entry_offset conf lb (Z.of_nat (S i))
                    = entry_offset conf lb (Z.of_nat i) - logbook_entry_len conf)
      by (unfold entry_offset; lia).
    rewrite <- Hnext.
    set (off := entry_offset conf lb (Z.of_nat (S i))) in *.
    assert (Hend : off + logbook_entry_len conf <= len lb).
    { subst off. unfold entry_offset.
      pose proof (Z.mul_nonneg_nonneg (Z.of_nat i) (logbook_entry_len conf)).
      lia. }
    rewrite uint_small by lia.
    rewrite region_ok by lia.
    unfold handle.
    cbn [dive_answers map concat] in Hrx. rewrite <- !app_assoc in Hrx.
    fold (dive_answers rest) in Hrx.
    destruct (transfer_bulk CMD_DIVE CMD_DIVE (take 2 (drop off lb)) [] dive
                (dive_answers rest ++ tail) None [] (Some progress) d)
      as (p' & d2 & Htr & Hrx2 & _).
    { rewrite len_take; [unfold SZ_PACKET; lia|]. rewrite len_drop by lia. lia. }
    { vm_compute. discriminate. }
    { exact Hsz. }
    { exact Hrx. }
    rewrite Htr. cbn [option_map]. rewrite Hver.
    rewrite region_ok by lia.
    set (entry := take (logbook_entry_len conf) (drop off lb)).
    set (prog := match p' with Some p => p | None => progress end).
    assert (Hrec : dc_buffer_insert
                     (dc_buffer_insert dive 0
                        [0xdc; 0xdc; version conf; logbook_entry_len conf])
                     4 entry
                   = [0xdc; 0xdc; version conf; logbook_entry_len conf]
                     ++ entry ++ dive) by reflexivity.
    rewrite Hrec. clear Hrec.
    set (record := [0xdc; 0xdc; version conf; logbook_entry_len conf]
                   ++ entry ++ dive).
    assert (Hlen_entry : len entry = logbook_entry_len conf).
    { subst entry. rewrite len_take; [reflexivity|].
      rewrite len_drop by lia. lia. }
    assert (Hreg : region record (4 + logbook_fp_offset conf) FP_SIZE
                   = Some (entry_fingerprint conf lb (Z.of_nat (S i)))).
    { rewrite region_ok.
      - f_equal. subst record.
        change ([220; 220; version conf; logbook_entry_len conf] ++ entry ++ dive)
          with (220 :: 220 :: version conf :: logbook_entry_len conf
                  :: entry ++ dive).
        unfold FP_SIZE. rewrite 4!drop_cons by lia.
        replace (4 + logbook_fp_offset conf - 1 - 1 - 1 - 1)
          with (logbook_fp_offset conf) by lia.
        rewrite take_drop_app by lia.
        subst entry. rewrite take_drop_take by lia.
        rewrite drop_drop by lia. reflexivity.
      - lia.
      - unfold FP_SIZE. lia.
      - unfold FP_SIZE. subst record. rewrite !len_app, Hlen_entry.
        change (len [220; 220; version conf; logbook_entry_len conf]) with 4.
        pose proof (len_nonneg dive). lia. }
    rewrite Hreg.
    pose proof (Hcont record (entry_fingerprint conf lb (Z.of_nat (S i))) u)
      as Hc.
    destruct (f record (entry_fingerprint conf lb (Z.of_nat (S i))) u)
      as [continue u2].
    cbn [fst] in Hc. subst continue. cbn [negb].
    destruct (IH (S i) prog u2
                (calls ++ [(record, entry_fingerprint conf lb (Z.of_nat (S i)))])
                d2 tail) as (u' & d' & Hrun & Hrx').
    { intros k Hk. apply Hsc. cbn [length]. lia. }
    { exact Hacc. }
    { exact Hrx2. }
    exists u', d'. split; [|exact Hrx'].
    subst off. rewrite Hrun. cbn [dive_records]. rewrite <- app_assoc. reflexivity.
Qed.

(** X16: the enumeration fetches every pending dive.  When the logbook
    has been downloaded, exactly the entries 1 .. n are pending (entry
    n + 1 is missing, empty or carries the stored fingerprint), the
    stream holds for each of them the answer to the dive command and the
    bulk transfer of a dive that passes the check against its entry, and
    the callback never asks to stop, then
    [cressi_goa_device_foreach] returns DC_STATUS_SUCCESS after handing
    over, newest first, one record per entry: the four header bytes
    0xDC 0xDC version entry-length, the logbook entry and the dive data,
    with the fingerprint of the entry; the stream is consumed up to
    what follows the last dive. *)
Theorem foreach_enumerates_pending_dives
    (U : Type) (f : dc_dive_callback_t U) (userdata : U)
    (d : cressi_goa_device_t) (conf : cressi_goa_irda_api_conf)
    (lb : list Z) (pr : dc_event_progress_t) (d1 : cressi_goa_device_t)
    (dives : list (list Z)) (tail : list Z) :
  foreach_logbook d = Done (conf, lb, pr) d1 ->
  len lb < 4294967296 ->
  len (fingerprint d) = FP_SIZE ->
  (forall data fp u0, fst (f data fp u0) = true) ->
  (forall k, 1 <= k <= Z.of_nat (length dives) ->
             pending conf lb (fingerprint d) k) ->
  ~ pending conf lb (fingerprint d) (Z.of_nat (length dives) + 1) ->
  dives_accepted conf lb 0 dives ->
  rx (iostream d1) = dive_answers dives ++ tail ->
  exists u' d',
    cressi_goa_device_foreach (Some f) userdata d
    = Done (DC_STATUS_SUCCESS, u', dive_records conf lb 0 dives) d'
    /\ rx (iostream d') = tail.
Proof.
  intros Hlog Hlb Hfp Hcont Hpend Hstop Hacc Hrx.
  destruct (foreach_after_logbook U (Some f) userdata d conf lb pr d1
              Hlog Hlb Hfp) as (c & H0c & Hall & Hnot & Hwf & Heq).
  assert (Hc : c = Z.of_nat (length dives)).
  { destruct (Z.lt_trichotomy c (Z.of_nat (length dives))) as [H | [H | H]].
    - exfalso. apply Hnot. apply Hpend. lia.
    - exact H.
    - exfalso. apply Hstop. apply Hall. lia. }
  rewrite Heq, Hc, Nat2Z.id.
  destruct (foreach_dives_complete U conf lb f Hwf Hlb Hcont dives O
              (mk_progress (current pr)
                 (uint ((Z.of_nat (length dives) + 1) * NSTEPS)))
              userdata []
              (with_event d1
                 (DC_EVENT_PROGRESS
                    (mk_progress (current pr)
                       (uint ((Z.of_nat (length dives) + 1) * NSTEPS)))))
              tail) as (u' & d' & Hrun & Hrx').
  - intros k Hk. destruct (Hpend k) as [Hs _]; [lia | exact Hs].
  - exact Hacc.
  - exact Hrx.
  - exists u', d'. split; [exact Hrun | exact Hrx'].
Qed.

(** X17: the header check decides by exactly these comparisons, whatever
    the configured entry length.  On the path of the API versions 0 to 3,
    when the 23 bytes at the offset of the entry lie in the logbook, a
    dive is accepted exactly when it has at least 18 bytes, its bytes
    [[0, 2)] equal the bytes [[0, 2)] at the offset and its bytes
    [[2, 18)] equal the bytes [[7, 23)] at the offset.  On the path of the
    API version 4, when 15 bytes at the offset lie in the logbook and the
    dive has at least 15 bytes, a dive is accepted exactly when its bytes
    [[0, 2)] equal the bytes [[0, 2)] at the offset and its bytes
    [[4, 10)] equal the bytes [[3, 9)] at the offset.  In both cases a
    dive that is not accepted is rejected, and a rejected dive makes the
    enumeration return [DC_STATUS_DATAFORMAT] at once, with no further
    call of the callback. *)
Theorem foreach_header_check
    (U : Type) (conf : cressi_goa_irda_api_conf) (lb : list Z) (offset : Z)
    (dive : list Z) :
  0 <= offset ->
  (version conf <> 4 -> offset + SZ_HEADER <= len lb ->
   let entry := take SZ_HEADER (drop offset lb) in
   (foreach_verify conf lb offset dive = Some true <->
    SZ_HEADER - 5 <= len dive
    /\ bytes_between dive 0 2 = bytes_between entry 0 2
    /\ bytes_between dive 2 (SZ_HEADER - 5) = bytes_between entry 7 SZ_HEADER)
   /\ (foreach_verify conf lb offset dive <> Some true ->
       foreach_verify conf lb offset dive = Some false))
  /\ (version conf = 4 -> offset + 15 <= len lb -> 15 <= len dive ->
      bytes_ok lb = true -> bytes_ok dive = true ->
      let entry := take 15 (drop offset lb) in
      (foreach_verify conf lb offset dive = Some true <->
       bytes_between dive 0 2 = bytes_between entry 0 2
       /\ bytes_between dive 4 10 = bytes_between entry 3 9)
      /\ (foreach_verify conf lb offset dive <> Some true ->
          foreach_verify conf lb offset dive = Some false))
  /\ (forall (n : nat) (callback : option (dc_dive_callback_t U))
             (progress : dc_event_progress_t) (userdata : U)
             (calls : list dive_call) (d : cressi_goa_device_t) (prev : Z)
             number o p' d1,
         uint (prev - logbook_entry_len conf) = offset ->
         region lb offset 2 = Some number ->
         cressi_goa_device_transfer CMD_DIVE number None
                                    (Some []) (Some progress) d
         = Done (o, Some dive, p') d1 ->
         foreach_verify conf lb offset dive = Some false ->
         foreach_dives (S n) conf lb callback prev progress userdata calls d
         = Done (DC_STATUS_DATAFORMAT, userdata, calls) d1).
Proof.
  intros Ho. split; [|split].
  - intros Hv Hl'.
    rewrite (verify_legacy conf lb offset dive Hv Ho Hl'). cbv zeta.
    set (entry := take SZ_HEADER (drop offset lb)).
    assert (Hentry : len entry = 23)
      by (apply len_entry; unfold SZ_HEADER in *; lia).
    unfold SZ_HEADER in *. change (23 - 5) with 18.
    split.
    + split.
      * intros H. injection H as H.
        apply andb_prop in H as [H H3]. apply andb_prop in H as [H1 H2].
        apply Z.leb_le in H1.
        split; [exact H1|]. split.
        -- apply memcmp_eqb; [|exact H2]. rewrite !len_between by lia. reflexivity.
        -- apply memcmp_eqb; [|exact H3]. rewrite !len_between by lia. reflexivity.
      * intros (H1 & H2 & H3). f_equal.
        apply andb_true_intro. split; [apply andb_true_intro; split|].
        -- apply Z.leb_le. exact H1.
        -- apply memcmp_eqb; [|exact H2]. rewrite !len_between by lia. reflexivity.
        -- apply memcmp_eqb; [|exact H3]. rewrite !len_between by lia. reflexivity.
    + intros H. destruct (_ && _); [contradiction H; reflexivity | reflexivity].
  - intros Hv Hl' Hd Hblb Hbd.
    rewrite (verify_v4 conf lb offset dive Hv Ho Hl' Hd). cbv zeta.
    set (entry := take 15 (drop offset lb)).
    assert (Hentry : len entry = 15) by (apply len_entry; lia).
    assert (Hbe : bytes_ok entry = true)
      by (apply bytes_ok_take, bytes_ok_drop, Hblb).
    assert (Hid : array_uint16_le (bytes_between dive 0 2)
                  = array_uint16_le (bytes_between entry 0 2)
                  <-> bytes_between dive 0 2 = bytes_between entry 0 2).
    { apply uint16_le_inj; try (apply bytes_ok_between; assumption);
        rewrite len_between by lia; reflexivity. }
    split.
    + split.
      * intros H. injection H as H. apply andb_prop in H as [H1 H2].
        apply Z.eqb_eq in H1. split; [apply Hid, H1|].
        apply memcmp_eqb; [|exact H2]. rewrite !len_between by lia. reflexivity.
      * intros (H1 & H2). f_equal. apply andb_true_intro. split.
        -- apply Z.eqb_eq, Hid, H1.
        -- apply memcmp_eqb; [|exact H2]. rewrite !len_between by lia. reflexivity.
    + intros H. destruct (_ && _); [contradiction H; reflexivity | reflexivity].
  - intros n callback progress userdata calls d prev number o p' d1
           Hoff Hreg Htr Hver.
    cbn [foreach_dives]. rewrite Hoff, Hreg.
    unfold handle. rewrite Htr, Hver. reflexivity.
Qed.

(** ** Framing *)

(** X6: a command payload of more than 12 bytes is rejected with
    [DC_STATUS_INVALIDARGS] before any input or output: the device
    instance, stream included, is left as it was, by
    [cressi_goa_device_send] and by [cressi_goa_device_transfer]. *)
Theorem transfer_oversized_command
    (cmd : Z) (input : list Z) (output buffer : option (list Z))
    (progress : option dc_event_progress_t) (d : cressi_goa_device_t) :
  SZ_PACKET < len input ->
  cressi_goa_device_send cmd input d = Fail DC_STATUS_INVALIDARGS d
  /\ cressi_goa_device_transfer cmd input output buffer progress d
     = Fail DC_STATUS_INVALIDARGS d.
Proof.
  intros Hsz.
  assert (Hsend : cressi_goa_device_send cmd input d
                  = Fail DC_STATUS_INVALIDARGS d).
  { unfold cressi_goa_device_send.
    destruct (Z.gtb_spec (len input) SZ_PACKET); [reflexivity | lia]. }
  split; [exact Hsend|].
  unfold cressi_goa_device_transfer, bind. rewrite Hsend. reflexivity.
Qed.

(** X7: when a header byte is not 0xAA or the length byte exceeds 12,
    [cressi_goa_device_receive] fails after the four header bytes: the
    rest of the stream is left unread. *)
Theorem receive_rejects_before_reading_body
    (out : option (list Z)) (d : cressi_goa_device_t)
    (h0 h1 h2 n : Z) (tl : list Z) :
  rx (iostream d) = h0 :: h1 :: h2 :: n :: tl ->
  h0 <> HEADER \/ h1 <> HEADER \/ h2 <> HEADER \/ SZ_PACKET < n ->
  cressi_goa_device_receive out d = Fail DC_STATUS_PROTOCOL (with_rx d tl).
Proof.
  intros Hrx Hbad.
  unfold cressi_goa_device_receive, bind.
  pose proof (read_app [h0; h1; h2; n] tl d Hrx) as R.
  change (len [h0; h1; h2; n]) with 4 in R. rewrite R. clear R.
  cbn [nth].
  destruct (Z.eqb_spec h0 HEADER) as [E0 | N0]; [|reflexivity].
  destruct (Z.eqb_spec h1 HEADER) as [E1 | N1]; [|reflexivity].
  destruct (Z.eqb_spec h2 HEADER) as [E2 | N2]; [|reflexivity].
  cbn [negb orb].
  destruct (Z.gtb_spec n SZ_PACKET) as [Hbig | Hsmall]; [reflexivity|].
  destruct Hbad as [H | [H | [H | H]]]; try contradiction. lia.
Qed.

(** ** Time synchronisation *)

Lemma land_byte b : 0 <= b < 256 -> Z.land b 0xFF = b.
Proof.
  intros H. change 0xFF with (Z.ones 8). rewrite Z.land_ones by lia.
  apply Z.mod_small. exact H.
Qed.

(** X15: for a date whose year fits 16 bits and whose other fields are
    bytes, and a device that answers with a framed packet,
    [cressi_goa_device_timesync] succeeds after writing one packet of
    command 0x13 whose 7 payload bytes are the year in little-endian
    order followed by month, day, hour, minute and second; the year
    decodes back from the first two bytes. *)
Theorem timesync_sends_date
    (datetime : dc_datetime_t) (c : Z) (payload tail : list Z)
    (d : cressi_goa_device_t) :
  0 <= year datetime < 65536 ->
  bytes_ok [month datetime; day datetime; hour datetime; minute datetime;
            second datetime] = true ->
  len payload <= SZ_PACKET ->
  rx (iostream d) = send_packet c payload ++ tail ->
  let new_time :=
    array_uint16_le_set (year datetime)
    ++ [month datetime; day datetime; hour datetime; minute datetime;
        second datetime] in
  cressi_goa_device_timesync datetime d
  = Done tt (after_command d CMD_SET_TIME new_time tail)
  /\ len new_time = 7
  /\ array_uint16_le new_time = year datetime.
Proof.
  intros Hy Hb Hpl Hrx new_time.
  assert (Hfields : [Z.land (month datetime) 0xFF; Z.land (day datetime) 0xFF;
                     Z.land (hour datetime) 0xFF; Z.land (minute datetime) 0xFF;
                     Z.land (second datetime) 0xFF]
                    = [month datetime; day datetime; hour datetime;
                       minute datetime; second datetime]).
  { pose proof (is_byte_range _ (nth_is_byte _ 0 Hb)) as H0.
    pose proof (is_byte_range _ (nth_is_byte _ 1 Hb)) as H1.
    pose proof (is_byte_range _ (nth_is_byte _ 2 Hb)) as H2.
    pose proof (is_byte_range _ (nth_is_byte _ 3 Hb)) as H3.
    pose proof (is_byte_range _ (nth_is_byte _ 4 Hb)) as H4.
    cbn [nth] in *. rewrite !land_byte by assumption. reflexivity. }
  split; [|split].
  - unfold cressi_goa_device_timesync. cbv zeta. rewrite Hfields.
    fold new_time. unfold bind.
    rewrite (transfer_answer CMD_SET_TIME new_time c payload tail None None d);
      [reflexivity | vm_compute; discriminate | exact Hpl | exact Hrx].
  - reflexivity.
  - apply (uint16_le_bytes (year datetime) _ Hy).
Qed.

(** ** Witnesses of the further properties *)

Lemma download_bulk_stream_round_trip_witness :
  let data := [1; 2; 3; 4; 5; 6; 7; 8; 9; 10] in
  let d := mk_device (mk_base []) (mk_iostream (bulk_stream data ++ [9]) [])
             [0; 0; 0; 0; 0; 0] in
  len data < 65536
  /\ exists progress' d',
       cressi_goa_device_download [7; 7] None d = Done (data, progress') d'
       /\ rx (iostream d') = [9].
Proof.
  intros data d.
  assert (Hsz : len data < 65536) by (vm_compute; reflexivity).
  split; [exact Hsz|].
  destruct (download_bulk_stream_round_trip data [9] [7; 7] None d Hsz eq_refl)
    as (p & d' & Hrun & Hrx & _).
  exists p, d'. split; assumption.
Defined.

Lemma download_wrong_end_byte_witness :
  let data := [1; 2; 3] in
  let d := mk_device (mk_base [])
             (mk_iostream (bulk_packets (le16 (len data) ++ data) ++ [0]) [])
             [0; 0; 0; 0; 0; 0] in
  len data < 65536
  /\ 0 <> END
  /\ exists d',
       cressi_goa_device_download [] None d = Fail DC_STATUS_PROTOCOL d'
       /\ rx (iostream d') = [].
Proof.
  intros data d.
  assert (Hsz : len data < 65536) by (vm_compute; reflexivity).
  assert (He : 0 <> END) by discriminate.
  split; [exact Hsz|]. split; [exact He|].
  destruct (download_wrong_end_byte data [] [] 0 None d Hsz He eq_refl)
    as (d' & Hrun & Hrx & _).
  exists d'. split; assumption.
Defined.

Lemma download_never_acknowledges_rejected_input_witness :
  let d := mk_device (mk_base []) (mk_iostream (repeat 0 516 ++ [1; 5]) [])
             [0; 0; 0; 0; 0; 0] in
  cressi_goa_device_download [] None d = Fail DC_STATUS_PROTOCOL (with_rx d [5])
  /\ exists k : nat,
       ops (iostream (with_rx d [5]))
       = ops (iostream d) ++ repeat (Write [ACK]) k.
Proof.
  intros d.
  assert (Hrun : cressi_goa_device_download [] None d
                 = Fail DC_STATUS_PROTOCOL (with_rx d [5]))
    by (vm_compute; reflexivity).
  split; [exact Hrun|].
  destruct (download_never_acknowledges_rejected_input [] None d
              (with_rx d [5]) Hrun) as (k & Hops & _).
  exists k. exact Hops.
Defined.

Lemma download_progress_advances_by_nsteps_witness :
  let p := mk_progress 2000 5000 in
  let d := mk_device (mk_base [])
             (mk_iostream (bulk_stream [1; 2; 3; 4; 5; 6; 7; 8; 9; 10]) [])
             [0; 0; 0; 0; 0; 0] in
  bytes_ok (rx (iostream d)) = true
  /\ exists out d',
       cressi_goa_device_download [] (Some p) d
       = Done (out, Some (mk_progress 3000 5000)) d'.
Proof.
  intros p d.
  assert (Hbytes : bytes_ok (rx (iostream d)) = true) by (vm_compute; reflexivity).
  split; [exact Hbytes|].
  destruct (cressi_goa_device_download [] (Some p) d)
    as [[out p'] d' | | |] eqn:Hrun.
  - exists out, d'.
    destruct (download_progress_advances_by_nsteps [] p d out p' d' Hbytes Hrun)
      as [-> _]. reflexivity.
  - vm_compute in Hrun. discriminate.
  - vm_compute in Hrun. discriminate.
  - vm_compute in Hrun. discriminate.
Defined.

Lemma transfer_answer_and_bulk_witness :
  let d := mk_device (mk_base [])
             (mk_iostream (send_packet CMD_DIVE [] ++ bulk_stream sample_dive
                           ++ [])
                          [])
             [0; 0; 0; 0; 0; 0] in
  len [3; 0] <= SZ_PACKET
  /\ len sample_dive < 65536
  /\ exists progress' d',
       cressi_goa_device_transfer CMD_DIVE [3; 0] None (Some []) None d
       = Done (None, Some sample_dive, progress') d'
       /\ rx (iostream d') = [].
Proof.
  intros d.
  assert (H1 : len [3; 0] <= SZ_PACKET) by (vm_compute; discriminate).
  assert (H2 : len (@nil Z) <= SZ_PACKET) by (vm_compute; discriminate).
  assert (H3 : len sample_dive < 65536) by (vm_compute; reflexivity).
  split; [exact H1|]. split; [exact H3|].
  destruct (transfer_answer_and_bulk CMD_DIVE CMD_DIVE [3; 0] [] sample_dive []
              None [] None d H1 H2 H3 eq_refl) as (p & d' & Hrun & Hrx & _).
  exists p, d'. split; assumption.
Defined.

Lemma transfer_oversized_command_witness :
  let input := repeat 0 13 in
  let d := mk_device (mk_base []) (mk_iostream [1; 2; 3] [])
             [0; 0; 0; 0; 0; 0] in
  SZ_PACKET < len input
  /\ cressi_goa_device_transfer CMD_SET_TIME input None None None d
     = Fail DC_STATUS_INVALIDARGS d.
Proof.
  intros input d.
  assert (H : SZ_PACKET < len input) by (vm_compute; reflexivity).
  split; [exact H|].
  exact (proj2 (transfer_oversized_command CMD_SET_TIME input None None None d H)).
Defined.

Lemma receive_rejects_before_reading_body_witness :
  let d := mk_device (mk_base [])
             (mk_iostream [0xAA; 0xAA; 0xAA; 13; 1; 2; 3] [])
             [0; 0; 0; 0; 0; 0] in
  SZ_PACKET < 13
  /\ cressi_goa_device_receive (Some []) d
     = Fail DC_STATUS_PROTOCOL (with_rx d [1; 2; 3]).
Proof.
  intros d.
  assert (H : SZ_PACKET < 13) by (vm_compute; reflexivity).
  split; [exact H|].
  apply (receive_rejects_before_reading_body (Some []) d 0xAA 0xAA 0xAA 13
           [1; 2; 3] eq_refl).
  do 3 right. exact H.
Defined.

Lemma read_id_configuration_witness :
  let d := mk_device (mk_base []) (mk_iostream (send_packet CMD_VERSION sample_id) [])
             [0; 0; 0; 0; 0; 0] in
  exists conf d',
    cressi_goa_read_id true None d = Done (Some conf) d'
    /\ 0 <= version conf <= 4
    /\ conf_family conf.
Proof.
  intros d.
  destruct (cressi_goa_read_id true None d) as [[conf|] d' | | |] eqn:Hrun.
  - exists conf, d'. split; [reflexivity|].
    destruct (read_id_configuration true d conf d' Hrun) as (Hv & Hf & _).
    split; assumption.
  - vm_compute in Hrun. discriminate.
  - vm_compute in Hrun. discriminate.
  - vm_compute in Hrun. discriminate.
  - vm_compute in Hrun. discriminate.
Defined.

Lemma read_id_events_witness :
  let d := mk_device (mk_base [])
             (mk_iostream (send_packet CMD_VERSION sample_id) [])
             [0; 0; 0; 0; 0; 0] in
  exists conf d',
    cressi_goa_read_id true None d = Done (Some conf) d'
    /\ events (base d')
       = [DC_EVENT_VENDOR sample_id;
          DC_EVENT_DEVINFO (mk_devinfo 9 202 (array_uint32_le sample_id))].
Proof.
  intros d.
  assert (Hrun : exists conf d',
             cressi_goa_read_id true None d = Done (Some conf) d')
    by (do 2 eexists; vm_compute; reflexivity).
  destruct Hrun as (conf & d' & Hrun).
  assert (Hle : len sample_id <= SZ_PACKET) by (vm_compute; discriminate).
  assert (Hrx : rx (iostream d) = send_packet CMD_VERSION sample_id ++ [])
    by (vm_compute; reflexivity).
  destruct (proj2 (proj2 (read_id_events true None d))
              CMD_VERSION sample_id [] (Some conf) d' Hle Hrx Hrun)
    as [_ Hacc].
  destruct Hacc as [_ Hev]; [right; reflexivity|].
  exists conf, d'. split; [exact Hrun | exact Hev].
Defined.

Lemma foreach_nothing_new_witness :
  let conf := mk_conf 4 11 15 3 CMD_LOGBOOK_V4 in
  let d := mk_device (mk_base [])
             (mk_iostream (session_stream sample_id sample_logbook sample_dive) [])
             [31; 32; 33; 34; 35; 36] in
  exists pr d1,
    foreach_logbook d = Done (conf, sample_logbook, pr) d1
    /\ len sample_logbook < 4294967296
    /\ len (fingerprint d) = FP_SIZE
    /\ entry_fingerprint conf sample_logbook 1 = fingerprint d
    /\ cressi_goa_device_foreach sample_callback tt d
       = Done (DC_STATUS_SUCCESS, tt, [])
              (with_event d1
                 (DC_EVENT_PROGRESS (mk_progress (current pr) NSTEPS))).
Proof.
  intros conf d.
  assert (Hlog : exists pr d1,
             foreach_logbook d = Done (conf, sample_logbook, pr) d1)
    by (do 2 eexists; vm_compute; reflexivity).
  destruct Hlog as (pr & d1 & Hlog).
  assert (Hlb : len sample_logbook < 4294967296) by (vm_compute; reflexivity).
  assert (Hfp : len (fingerprint d) = FP_SIZE) by reflexivity.
  assert (Hnew : entry_fingerprint conf sample_logbook 1 = fingerprint d)
    by (vm_compute; reflexivity).
  exists pr, d1.
  split; [exact Hlog|]. split; [exact Hlb|]. split; [exact Hfp|].
  split; [exact Hnew|].
  apply (foreach_nothing_new unit sample_callback tt d conf sample_logbook pr d1
           Hlog Hlb Hfp).
  right. right. exact Hnew.
Defined.

Lemma set_fingerprint_then_foreach_witness :
  let conf := mk_conf 4 11 15 3 CMD_LOGBOOK_V4 in
  let zero := [0; 0; 0; 0; 0; 0] in
  let data := [21; 22; 23; 24; 25; 26] in
  let d := history_device zero in
  let d0 := history_device data in
  exists pr d1 calls d' calls0 d0',
    cressi_goa_device_set_fingerprint data FP_SIZE d = Done tt d0
    /\ foreach_logbook d0 = Done (conf, history_logbook, pr) d1
    /\ entry_number conf history_logbook 1 <> 0
    /\ entry_number conf history_logbook 2 <> 0
    /\ entry_number conf history_logbook 3 <> 0
    /\ entry_fingerprint conf history_logbook 3 = data
    /\ cressi_goa_device_foreach sample_callback tt d0
       = Done (DC_STATUS_SUCCESS, tt, calls) d'
    /\ length calls = 2%nat
    /\ (exists m,
          (m < 3)%nat
          /\ Forall2 (call_of_entry conf history_logbook) (seq 1 m) calls)
    /\ cressi_goa_device_foreach sample_callback tt d
       = Done (DC_STATUS_SUCCESS, tt, calls0) d0'
    /\ length calls0 = 3%nat.
Proof.
  intros conf zero data d d0.
  assert (Hlog : exists pr d1,
             foreach_logbook d0 = Done (conf, history_logbook, pr) d1)
    by (do 2 eexists; vm_compute; reflexivity).
  destruct Hlog as (pr & d1 & Hlog).
  assert (Hrun : exists calls d',
             cressi_goa_device_foreach sample_callback tt d0
             = Done (DC_STATUS_SUCCESS, tt, calls) d'
             /\ length calls = 2%nat)
    by (do 2 eexists; split; vm_compute; reflexivity).
  destruct Hrun as (calls & d' & Hrun & Hcalls).
  assert (Hrun0 : exists calls0 d0',
             cressi_goa_device_foreach sample_callback tt d
             = Done (DC_STATUS_SUCCESS, tt, calls0) d0'
             /\ length calls0 = 3%nat)
    by (do 2 eexists; split; vm_compute; reflexivity).
  destruct Hrun0 as (calls0 & d0' & Hrun0 & Hcalls0).
  assert (Hlen : len data = FP_SIZE) by reflexivity.
  assert (Hset : cressi_goa_device_set_fingerprint data FP_SIZE d = Done tt d0)
    by reflexivity.
  assert (Hlb : len history_logbook < 4294967296) by (vm_compute; reflexivity).
  assert (Hj : (1 <= 3)%nat) by lia.
  assert (Hm : entry_fingerprint conf history_logbook (Z.of_nat 3) = data)
    by (vm_compute; reflexivity).
  exists pr, d1, calls, d', calls0, d0'.
  split; [exact Hset|]. split; [exact Hlog|].
  split; [vm_compute; discriminate|].
  split; [vm_compute; discriminate|].
  split; [vm_compute; discriminate|].
  split; [exact Hm|]. split; [exact Hrun|]. split; [exact Hcalls|].
  split.
  - exact (set_fingerprint_then_foreach unit sample_callback tt d d0 data conf
             history_logbook pr d1 3 Hlen Hset Hlog Hlb Hj Hm
             DC_STATUS_SUCCESS tt calls d' Hrun).
  - split; [exact Hrun0 | exact Hcalls0].
Defined.

Lemma foreach_unidentified_configuration_witness :
  let id := [1; 2; 3; 4; 1; 163; 0; 0; 0; 0] in
  let d := mk_device (mk_base []) (mk_iostream (send_packet CMD_VERSION id) [])
             [0; 0; 0; 0; 0; 0] in
  len id <= SZ_PACKET
  /\ cressi_goa_device_foreach sample_callback tt d = Undefined.
Proof.
  intros id d.
  assert (H : len id <= SZ_PACKET) by (vm_compute; discriminate).
  split; [exact H|].
  apply (foreach_unidentified_configuration unit sample_callback tt
           CMD_VERSION id [] d H).
  - vm_compute. discriminate.
  - vm_compute. discriminate.
  - vm_compute. reflexivity.
Defined.

Lemma foreach_callback_stop_witness :
  let f : dc_dive_callback_t unit := fun _ _ u => (false, u) in
  exists st u' calls d',
    cressi_goa_device_foreach (Some f) tt (sample_device sample_dive)
    = Done (st, u', calls) d'
    /\ (calls = [] \/ exists call, calls = [call] /\ st = DC_STATUS_SUCCESS).
Proof.
  intros f.
  destruct (cressi_goa_device_foreach (Some f) tt (sample_device sample_dive))
    as [[[st u'] calls] d' | | |] eqn:Hrun.
  - exists st, u', calls, d'. split; [reflexivity|].
    apply (foreach_callback_stop unit f tt (sample_device sample_dive)
             st u' calls d'); [reflexivity | exact Hrun].
  - vm_compute in Hrun. discriminate.
  - vm_compute in Hrun. discriminate.
  - vm_compute in Hrun. discriminate.
Defined.

Lemma timesync_sends_date_witness :
  let datetime := mk_datetime 2024 5 6 7 8 9 in
  let d := mk_device (mk_base [])
             (mk_iostream (send_packet CMD_SET_TIME []) [])
             [0; 0; 0; 0; 0; 0] in
  0 <= year datetime < 65536
  /\ cressi_goa_device_timesync datetime d
     = Done tt (after_command d CMD_SET_TIME [232; 7; 5; 6; 7; 8; 9] []).
Proof.
  intros datetime d.
  assert (Hy : 0 <= year datetime < 65536) by (cbn; lia).
  split; [exact Hy|].
  apply (timesync_sends_date datetime CMD_SET_TIME [] [] d Hy).
  - reflexivity.
  - vm_compute. discriminate.
  - vm_compute. reflexivity.
Defined.

Lemma foreach_enumerates_pending_dives_witness :
  let conf := mk_conf 4 11 15 3 CMD_LOGBOOK_V4 in
  let d := sample_device sample_dive in
  exists pr d1 u' d',
    foreach_logbook d = Done (conf, sample_logbook, pr) d1
    /\ rx (iostream d1) = dive_answers [sample_dive] ++ []
    /\ cressi_goa_device_foreach sample_callback tt d
       = Done (DC_STATUS_SUCCESS, u',
               dive_records conf sample_logbook 0 [sample_dive]) d'
    /\ rx (iostream d') = [].
Proof.
  intros conf d.
  assert (Hlog : exists pr d1,
             foreach_logbook d = Done (conf, sample_logbook, pr) d1
             /\ rx (iostream d1) = dive_answers [sample_dive] ++ [])
    by (do 2 eexists; split; vm_compute; reflexivity).
  destruct Hlog as (pr & d1 & Hlog & Hrx).
  assert (Hlb : len sample_logbook < 4294967296) by (vm_compute; reflexivity).
  assert (Hfp : len (fingerprint d) = FP_SIZE) by reflexivity.
  destruct (foreach_enumerates_pending_dives unit (fun _ _ u => (true, u)) tt d
              conf sample_logbook pr d1 [sample_dive] [] Hlog Hlb Hfp)
    as (u' & d' & Hrun & Hrx').
  - reflexivity.
  - intros k Hk. cbn [length] in Hk. assert (k = 1) by lia. subst k.
    vm_compute. repeat split; discriminate.
  - cbn [length]. vm_compute. intros (_ & Hn & _). apply Hn. reflexivity.
  - vm_compute. repeat split.
  - exact Hrx.
  - exists pr, d1, u', d'. repeat split; assumption.
Defined.

Lemma foreach_header_check_witness :
  let conf := mk_conf 0 9 23 0x11 0x21 in
  let wrong := [6; 0; 60; 61; 62; 63; 64; 65; 66; 67; 68; 69; 70; 71; 72; 73;
                74; 75; 99; 98] in
  0 <= 23
  /\ 23 + SZ_HEADER <= len legacy_logbook
  /\ foreach_verify conf legacy_logbook 23 legacy_dive = Some true
  /\ foreach_verify conf legacy_logbook 23 wrong = Some false.
Proof.
  intros conf wrong.
  assert (H0 : 0 <= 23) by lia.
  assert (H1 : 23 + SZ_HEADER <= len legacy_logbook)
    by (vm_compute; discriminate).
  assert (Hv : version conf <> 4) by (vm_compute; discriminate).
  split; [exact H0|]. split; [exact H1|].
  split.
  - destruct (foreach_header_check unit conf legacy_logbook 23 legacy_dive H0)
      as [Hlegacy _].
    destruct (Hlegacy Hv H1) as [Hiff _].
    apply Hiff. split; [vm_compute; discriminate|].
    split; reflexivity.
  - destruct (foreach_header_check unit conf legacy_logbook 23 wrong H0)
      as [Hlegacy _].
    destruct (Hlegacy Hv H1) as [Hiff Hrej].
    apply Hrej. intros Hacc. apply Hiff in Hacc.
    destruct Hacc as (_ & Hid & _). vm_compute in Hid. discriminate.
Defined.
